(** * Repair-ticket backend: the ticket service and the auth service

    A shallow embedding of [RepairsService] (src/repairs) and [AuthService]
    (src/auth/auth.service.ts).  The services are asynchronous methods that
    talk to an ORM client, an object-storage client, an OAuth client, a
    password-hashing library and a token signer.  They are embedded as
    computations in a state-and-exception monad over a [World] that holds the
    relational store and the trace of every call that left the service. *)

From Stdlib Require Import ZArith Lia Ascii.
From stdpp Require Import base option list strings gmap fin_maps pretty sorting.

Local Open Scope string_scope.
Local Open Scope Z_scope.
Local Open Scope list_scope.

(** ** JavaScript values

    The ticket service receives its request body as [any]; the values that can
    sit in such a body are modelled by [JsVal].  Numbers are the integers (with
    [JNaN] apart); [JDate v] is the object built by [new Date(v)]. *)
Module Js.

#[warnings="-register-all"]
Inductive JsVal : Type :=
  | JUndefined
  | JNull
  | JBool (b : bool)
  | JNum (n : Z)
  | JNaN
  | JStr (s : string)
  | JDate (v : JsVal)
  | JArr (l : list JsVal).

(** ToBoolean: [undefined], [null], [false], [0], [NaN] and the empty string
    are falsy, every object is truthy. *)
Definition truthy (v : JsVal) : bool :=
  match v with
  | JUndefined | JNull | JNaN => false
  | JBool b => b
  | JNum n => negb (n =? 0)
  | JStr s => negb (bool_decide (s = ""))
  | JDate _ | JArr _ => true
  end.

(** [a || b] *)
Definition js_or (a b : JsVal) : JsVal := if truthy a then a else b.

(** [v !== undefined] *)
Definition defined (v : JsVal) : bool :=
  match v with JUndefined => false | _ => true end.

(** A request body: property read [o.k]; a missing property reads as
    [undefined]. *)
Definition get (o : gmap string JsVal) (k : string) : JsVal :=
  default JUndefined (o !! k).

(** A parameter of type [number] that the code tests for truthiness: an
    integer or [NaN]. *)
Inductive JsNumber : Type :=
  | Num (n : Z)
  | NaN.
Coercion Num : Z >-> JsNumber.

End Js.
Export Js.

(** ** Exceptions *)

Inductive Exn : Type :=
  | BadRequestException (message : string)
  | NotFoundException (message : string)
  | UnauthorizedException (message : string)
  | PrismaClientKnownRequestError (code : string) (target : list string)
  | PrismaClientValidationError
  | TypeError
  | Error (message : string).

(** [error instanceof BadRequestException] *)
Definition is_BadRequestException (e : Exn) : bool :=
  match e with BadRequestException _ => true | _ => false end.

(** [error.code] *)
Definition error_code (e : Exn) : option string :=
  match e with
  | PrismaClientKnownRequestError c _ => Some c
  | _ => None
  end.

Inductive Result (A : Type) : Type :=
  | Ok (a : A)
  | Err (e : Exn).
Arguments Ok {A} a.
Arguments Err {A} e.

Definition is_Ok {A} (r : Result A) : bool :=
  match r with Ok _ => true | Err _ => false end.

(** ** Rows of the relational store *)

Inductive Role : Type := USER | ADMIN.

(** Modelled from the spec: the status enum of the schema, which is not among
    the sources; the service names these five members and the data model lists
    no other. *)
Inductive RepairTicketStatus : Type :=
  | PENDING | IN_PROGRESS | WAITING_PARTS | COMPLETED | CANCELLED.

#[global] Instance RepairTicketStatus_eq_dec : EqDecision RepairTicketStatus.
Proof. solve_decision. Defined.

Definition status_name (s : RepairTicketStatus) : string :=
  match s with
  | PENDING => "PENDING"
  | IN_PROGRESS => "IN_PROGRESS"
  | WAITING_PARTS => "WAITING_PARTS"
  | COMPLETED => "COMPLETED"
  | CANCELLED => "CANCELLED"
  end.

Definition all_statuses : list RepairTicketStatus :=
  [PENDING; IN_PROGRESS; WAITING_PARTS; COMPLETED; CANCELLED].

(** The value of an enum member at run time is its name. *)
Definition status_of_js (v : JsVal) : option RepairTicketStatus :=
  match v with
  | JStr s => List.find (fun st => bool_decide (status_name st = s)) all_statuses
  | _ => None
  end.

Record User : Type := mkUser {
  u_id : Z;
  u_name : string;
  email : string;
  password : string;
  role : Role;
  department : option string;
  phoneNumber : option string;
  lineId : option string;
  u_createdAt : Z;
}.

Inductive LinkStatus : Type := VERIFIED | UNVERIFIED.

Record LineOALink : Type := mkLink {
  l_userId : Z;
  lineUserId : string;
  l_status : LinkStatus;
}.

(** Modelled from the spec: the columns of a ticket row.  The schema is not
    among the sources; the columns are the ones the service writes, plus the
    [assignedTo] column that [findAll] filters on.  Keys and the status are
    typed; the other columns hold the JavaScript value handed to the ORM. *)
Record RepairTicket : Type := mkTicket {
  t_id : Z;
  ticketCode : string;
  reporterName : JsVal;
  reporterDepartment : JsVal;
  reporterPhone : JsVal;
  reporterLineId : JsVal;
  problemCategory : JsVal;
  problemTitle : JsVal;
  problemDescription : JsVal;
  location : JsVal;
  urgency : JsVal;
  status : RepairTicketStatus;
  userId : Z;
  assignedTo : option Z;
  notes : JsVal;
  scheduledAt : JsVal;
  completedAt : JsVal;
  cancelledAt : JsVal;
  t_createdAt : Z;
}.

Record Attachment : Type := mkAttachment {
  att_repairTicketId : Z;
  filename : string;
  fileUrl : string;
  fileSize : Z;
  mimeType : string;
}.

Record RepairTicketAssignee : Type := mkAssignee {
  a_repairTicketId : Z;
  a_userId : Z;
}.

Record Store : Type := mkStore {
  users : list User;
  lineOALinks : list LineOALink;
  repairTickets : list RepairTicket;
  attachments : list Attachment;
  repairTicketAssignees : list RepairTicketAssignee;
}.

(** ** The world: the store and the trace of outgoing calls *)

Inductive DbOp : Type :=
  | RepairTicket_create
  | RepairTicket_update
  | RepairTicket_findMany
  | RepairTicket_groupBy
  | RepairTicketAssignee_deleteMany
  | RepairTicketAssignee_createMany
  | User_findUnique
  | User_findFirst
  | User_create
  | User_update.

Inductive Event : Type :=
  | EvClock
  | EvUpload (name folder : string)
  | EvDb (op : DbOp)
  | EvBcryptCompare
  | EvBcryptHash
  | EvRandom
  | EvJwtSign
  | EvExchangeCode (code : string)
  | EvGetUserProfile (token : string).

Record World : Type := mkWorld {
  store : Store;
  trace : list Event;
}.

(** ** The collaborators outside the sources

    Each is a function of its arguments and of the number of calls made so
    far, so that two calls with equal arguments may answer differently.
    [path_basename] is Node's [path.basename], which depends on the platform. *)

Record TokenResponse : Type := mkToken {
  access_token : string;
  user_id : string;
}.

Record LineProfile : Type := mkProfile {
  displayName : option string;
}.

Record Env : Type := mkEnv {
  clock : nat -> Z;
  path_basename : string -> string;
  cloudinary_uploadFile :
    nat -> list Byte.byte -> string -> string -> Result string;
  bcrypt_compare : nat -> string -> string -> bool;
  bcrypt_hash : nat -> string -> Z -> string;
  math_random_base36 : nat -> string;
  jwt_sign : nat -> Z -> Role -> string;
  line_exchangeCodeForToken : nat -> string -> Result TokenResponse;
  line_getUserProfile : nat -> string -> Result LineProfile;
  (** the schema's default for the status column of a new ticket *)
  default_status : RepairTicketStatus;
}.

(** ** The monad *)

Definition M (A : Type) : Type := World -> Result A * World.

Definition ret {A} (a : A) : M A := fun w => (Ok a, w).

Definition throw {A} (e : Exn) : M A := fun w => (Err e, w).

Definition bind {A B} (m : M A) (k : A -> M B) : M B :=
  fun w =>
    match m w with
    | (Ok a, w') => k a w'
    | (Err e, w') => (Err e, w')
    end.

(** [try { m } catch (e) { h e }]: the handler runs in the world the body
    left behind; nothing is rolled back. *)
Definition try_catch {A} (m : M A) (h : Exn -> M A) : M A :=
  fun w =>
    match m w with
    | (Ok a, w') => (Ok a, w')
    | (Err e, w') => h e w'
    end.

(** [await] of a collaborator: the answer is recorded in the trace. *)
Definition call {A} (ev : Event) (answer : nat -> Result A) : M A :=
  fun w =>
    (answer (length (trace w)),
     {| store := store w; trace := trace w ++ [ev] |}).

Definition get_store : M Store := fun w => (Ok (store w), w).

Definition put_store (s : Store) : M unit :=
  fun w => (Ok tt, {| store := s; trace := trace w |}).

Notation "'let*' x ':=' m 'in' k" := (bind m (fun x => k))
  (at level 10, x name, m at level 100, k at level 200).

(** A query or a write on the store: the trace records which one. *)
Definition db {A} (op : DbOp) (f : nat -> Store -> Result A * Store) : M A :=
  fun w =>
    let '(r, s') := f (length (trace w)) (store w) in
    (r, {| store := s'; trace := trace w ++ [EvDb op] |}).

(** ** The ORM client

    Modelled from the spec: the relational store and the ORM operations the two
    services call ([PrismaService] is injected; neither it nor the schema is
    among the sources).  Rows live in lists in insertion order; a new row gets
    the next free id.  The model keeps what the services rely on: the unique
    ticket code and e-mail address, the foreign keys of tickets, attachments
    and assignees (code P2003), the missing row on update (code P2025) and
    the rejection of a status that is not a member of the enum.  The ORM's
    check of the other column types needs the schema and is left out. *)
Module Prisma.

Record AttachmentCreateInput : Type := mkAttachmentInput {
  ai_filename : string;
  ai_fileUrl : string;
  ai_fileSize : Z;
  ai_mimeType : string;
}.

Record RepairTicketCreateInput : Type := mkTicketInput {
  ci_ticketCode : string;
  ci_reporterName : JsVal;
  ci_reporterDepartment : JsVal;
  ci_reporterPhone : JsVal;
  ci_reporterLineId : JsVal;
  ci_problemCategory : JsVal;
  ci_problemTitle : JsVal;
  ci_problemDescription : JsVal;
  ci_location : JsVal;
  ci_urgency : JsVal;
  ci_userId : Z;
  ci_notes : JsVal;
  ci_scheduledAt : JsVal;
  ci_attachments : list AttachmentCreateInput;
}.

(** [include: { user: true, assignees: { include: { user: true } } }] *)
Record TicketWithRelations : Type := mkWithRelations {
  row : RepairTicket;
  user : option User;
  assignees : list (RepairTicketAssignee * option User);
}.

Record TicketWhere : Type := mkWhere {
  w_userId : option Z;
  w_status : option RepairTicketStatus;
  w_urgency : option string;
  w_assignedTo : option Z;
}.

Record UserCreateInput : Type := mkUserInput {
  ui_name : string;
  ui_email : string;
  ui_password : string;
  ui_role : Role;
  ui_lineId : option string;
  ui_lineOALink : option (string * LinkStatus);
}.

Record UserUpdateInput : Type := mkUserUpdate {
  ud_name : option string;
  ud_department : option string;
  ud_phoneNumber : option string;
  ud_lineId : option string;
}.

Definition P2002 (target : string) : Exn :=
  PrismaClientKnownRequestError "P2002" [target].
Definition P2003 : Exn := PrismaClientKnownRequestError "P2003" [].
Definition P2025 : Exn := PrismaClientKnownRequestError "P2025" [].

Definition fresh_id (ids : list Z) : Z := 1 + foldr Z.max 0 ids.

Definition find_user (id : Z) (s : Store) : option User :=
  List.find (fun u => bool_decide (u_id u = id)) (users s).

Definition find_ticket (id : Z) (s : Store) : option RepairTicket :=
  List.find (fun t => bool_decide (t_id t = id)) (repairTickets s).

Definition assignees_of (id : Z) (s : Store) : list RepairTicketAssignee :=
  List.filter (fun a => bool_decide (a_repairTicketId a = id))
    (repairTicketAssignees s).

Definition attachments_of (id : Z) (s : Store) : list Attachment :=
  List.filter (fun a => bool_decide (att_repairTicketId a = id))
    (attachments s).

Definition with_relations (s : Store) (t : RepairTicket) : TicketWithRelations :=
  {| row := t;
     user := find_user (userId t) s;
     assignees :=
       map (fun a => (a, find_user (a_userId a) s)) (assignees_of (t_id t) s) |}.

Definition attachment_row (id : Z) (a : AttachmentCreateInput) : Attachment :=
  {| att_repairTicketId := id;
     filename := ai_filename a;
     fileUrl := ai_fileUrl a;
     fileSize := ai_fileSize a;
     mimeType := ai_mimeType a |}.

Section Client.
Context (env : Env).

(** [prisma.repairTicket.create({ data })], with the nested
    [attachments: { create: [...] }]. *)
Definition ticket_row (n : nat) (s : Store) (d : RepairTicketCreateInput)
  : RepairTicket :=
  {| t_id := fresh_id (map t_id (repairTickets s));
     ticketCode := ci_ticketCode d;
     reporterName := ci_reporterName d;
     reporterDepartment := ci_reporterDepartment d;
     reporterPhone := ci_reporterPhone d;
     reporterLineId := ci_reporterLineId d;
     problemCategory := ci_problemCategory d;
     problemTitle := ci_problemTitle d;
     problemDescription := ci_problemDescription d;
     location := ci_location d;
     urgency := ci_urgency d;
     status := default_status env;
     userId := ci_userId d;
     assignedTo := None;
     notes := ci_notes d;
     scheduledAt := ci_scheduledAt d;
     completedAt := JNull;
     cancelledAt := JNull;
     t_createdAt := clock env n |}.

Definition code_taken (c : string) (s : Store) : bool :=
  existsb (fun t => bool_decide (ticketCode t = c)) (repairTickets s).

Definition repairTicket_create (d : RepairTicketCreateInput) : M RepairTicket :=
  db RepairTicket_create (fun n s =>
    if code_taken (ci_ticketCode d) s then (Err (P2002 "ticketCode"), s)
    else match find_user (ci_userId d) s with
    | None => (Err P2003, s)
    | Some _ =>
        let t := ticket_row n s d in
        (Ok t,
         {| users := users s;
            lineOALinks := lineOALinks s;
            repairTickets := repairTickets s ++ [t];
            attachments :=
              attachments s ++ map (attachment_row (t_id t)) (ci_attachments d);
            repairTicketAssignees := repairTicketAssignees s |})
    end).

(** One column of [data] in an update: a key that is missing (or holds
    [undefined]) leaves the column as it is. *)
Definition column (data : gmap string JsVal) (k : string) (old : JsVal) : JsVal :=
  match data !! k with
  | Some JUndefined | None => old
  | Some v => v
  end.

Definition status_column (data : gmap string JsVal) (old : RepairTicketStatus)
  : option RepairTicketStatus :=
  match data !! "status" with
  | Some JUndefined | None => Some old
  | Some v => status_of_js v
  end.

Definition apply_update (data : gmap string JsVal) (st : RepairTicketStatus)
    (t : RepairTicket) : RepairTicket :=
  {| t_id := t_id t;
     ticketCode := ticketCode t;
     reporterName := reporterName t;
     reporterDepartment := reporterDepartment t;
     reporterPhone := reporterPhone t;
     reporterLineId := reporterLineId t;
     problemCategory := problemCategory t;
     problemTitle := column data "problemTitle" (problemTitle t);
     problemDescription := column data "problemDescription" (problemDescription t);
     location := column data "location" (location t);
     urgency := column data "urgency" (urgency t);
     status := st;
     userId := userId t;
     assignedTo := assignedTo t;
     notes := column data "notes" (notes t);
     scheduledAt := column data "scheduledAt" (scheduledAt t);
     completedAt := column data "completedAt" (completedAt t);
     cancelledAt := column data "cancelledAt" (cancelledAt t);
     t_createdAt := t_createdAt t |}.

Definition set_tickets (s : Store) (ts : list RepairTicket) : Store :=
  {| users := users s;
     lineOALinks := lineOALinks s;
     repairTickets := ts;
     attachments := attachments s;
     repairTicketAssignees := repairTicketAssignees s |}.

(** [prisma.repairTicket.update({ where: { id }, data, include })] *)
Definition repairTicket_update (id : Z) (data : gmap string JsVal)
  : M TicketWithRelations :=
  db RepairTicket_update (fun _ s =>
    match find_ticket id s with
    | None =>
        match status_column data PENDING with
        | None => (Err PrismaClientValidationError, s)
        | Some _ => (Err P2025, s)
        end
    | Some t =>
        match status_column data (status t) with
        | None => (Err PrismaClientValidationError, s)
        | Some st =>
            let t' := apply_update data st t in
            let s' :=
              set_tickets s
                (map (fun x => if bool_decide (t_id x = id) then t' else x)
                   (repairTickets s)) in
            (Ok (with_relations s' t'), s')
        end
    end).

Definition set_assignees (s : Store) (l : list RepairTicketAssignee) : Store :=
  {| users := users s;
     lineOALinks := lineOALinks s;
     repairTickets := repairTickets s;
     attachments := attachments s;
     repairTicketAssignees := l |}.

(** [prisma.repairTicketAssignee.deleteMany({ where: { repairTicketId } })];
    the answer is the number of rows deleted. *)
Definition repairTicketAssignee_deleteMany (id : Z) : M nat :=
  db RepairTicketAssignee_deleteMany (fun _ s =>
    (Ok (length (assignees_of id s)),
     set_assignees s
       (List.filter (fun a => negb (bool_decide (a_repairTicketId a = id)))
          (repairTicketAssignees s)))).

(** The rows of a [createMany]: every [userId] has to be a number. *)
Fixpoint assignee_rows (data : list (Z * JsVal))
  : option (list RepairTicketAssignee) :=
  match data with
  | [] => Some []
  | (id, JNum u) :: rest =>
      match assignee_rows rest with
      | Some rows => Some ({| a_repairTicketId := id; a_userId := u |} :: rows)
      | None => None
      end
  | _ :: _ => None
  end.

Definition references_ok (s : Store) (a : RepairTicketAssignee) : bool :=
  bool_decide (is_Some (find_ticket (a_repairTicketId a) s))
  && bool_decide (is_Some (find_user (a_userId a) s)).

(** [prisma.repairTicketAssignee.createMany({ data })]: all rows or none. *)
Definition repairTicketAssignee_createMany (data : list (Z * JsVal)) : M nat :=
  db RepairTicketAssignee_createMany (fun _ s =>
    match assignee_rows data with
    | None => (Err PrismaClientValidationError, s)
    | Some rows =>
        if forallb (references_ok s) rows
        then (Ok (length rows), set_assignees s (repairTicketAssignees s ++ rows))
        else (Err P2003, s)
    end).

Definition where_matches (w : TicketWhere) (t : RepairTicket) : bool :=
  match w_userId w with Some u => bool_decide (userId t = u) | None => true end
  && match w_status w with Some st => bool_decide (status t = st) | None => true end
  && match w_urgency w, urgency t with
     | Some u, JStr v => bool_decide (v = u)
     | Some _, _ => false
     | None, _ => true
     end
  && match w_assignedTo w with Some a => bool_decide (assignedTo t = Some a) | None => true end.

(** [take]: the first [n] rows, or the last [-n] for a negative [n]. *)
Definition take_rows {A} (lim : option Z) (l : list A) : list A :=
  match lim with
  | None => l
  | Some n =>
      if 0 <=? n then take (Z.to_nat n) l
      else drop (length l - Z.to_nat (- n))%nat l
  end.

Definition newer_first (a b : RepairTicket) : Prop :=
  t_createdAt b <= t_createdAt a.

#[global] Instance newer_first_dec a b : Decision (newer_first a b).
Proof. unfold newer_first. apply _. Defined.

(** [prisma.repairTicket.findMany({ where, take, include,
    orderBy: { createdAt: 'desc' } })] *)
Definition repairTicket_findMany (w : TicketWhere) (lim : option Z)
  : M (list TicketWithRelations) :=
  db RepairTicket_findMany (fun _ s =>
    (Ok (map (with_relations s)
           (take_rows lim
              (merge_sort newer_first
                 (List.filter (where_matches w) (repairTickets s))))),
     s)).

(** [prisma.repairTicket.groupBy({ by: ['status'], _count: { status: true } })]:
    one group for each status that some row has, with the number of rows. *)
Definition count_status (st : RepairTicketStatus) (ts : list RepairTicket) : Z :=
  Z.of_nat (length (List.filter (fun t => bool_decide (status t = st)) ts)).

Definition group_by_status (ts : list RepairTicket)
  : list (RepairTicketStatus * Z) :=
  map (fun st => (st, count_status st ts))
    (List.filter (fun st => negb (count_status st ts =? 0)) all_statuses).

Definition repairTicket_groupBy_status : M (list (RepairTicketStatus * Z)) :=
  db RepairTicket_groupBy (fun _ s => (Ok (group_by_status (repairTickets s)), s)).

Definition set_users (s : Store) (us : list User) (ls : list LineOALink) : Store :=
  {| users := us;
     lineOALinks := ls;
     repairTickets := repairTickets s;
     attachments := attachments s;
     repairTicketAssignees := repairTicketAssignees s |}.

(** [prisma.user.findUnique({ where: { email } })] *)
Definition user_findUnique_email (e : string) : M (option User) :=
  db User_findUnique (fun _ s =>
    (Ok (List.find (fun u => bool_decide (email u = e)) (users s)), s)).

Definition linked_to (l : string) (s : Store) (u : User) : bool :=
  existsb
    (fun k => bool_decide (l_userId k = u_id u) && bool_decide (lineUserId k = l))
    (lineOALinks s).

(** [prisma.user.findFirst({ where: { lineOALink: { lineUserId } } })] *)
Definition user_findFirst_link (l : string) : M (option User) :=
  db User_findFirst (fun _ s => (Ok (List.find (linked_to l s) (users s)), s)).

Definition user_row (n : nat) (s : Store) (d : UserCreateInput) : User :=
  {| u_id := fresh_id (map u_id (users s));
     u_name := ui_name d;
     email := ui_email d;
     password := ui_password d;
     role := ui_role d;
     department := None;
     phoneNumber := None;
     lineId := ui_lineId d;
     u_createdAt := clock env n |}.

(** [prisma.user.create({ data })], with the nested [lineOALink: { create }]. *)
Definition user_create (d : UserCreateInput) : M User :=
  db User_create (fun n s =>
    if existsb (fun u => bool_decide (email u = ui_email d)) (users s)
    then (Err (P2002 "email"), s)
    else
      let u := user_row n s d in
      (Ok u,
       set_users s (users s ++ [u])
         (lineOALinks s ++
            match ui_lineOALink d with
            | Some (l, st) =>
                [{| l_userId := u_id u; lineUserId := l; l_status := st |}]
            | None => []
            end))).

Definition patch_user (d : UserUpdateInput) (u : User) : User :=
  {| u_id := u_id u;
     u_name := default (u_name u) (ud_name d);
     email := email u;
     password := password u;
     role := role u;
     department := from_option Some (department u) (ud_department d);
     phoneNumber := from_option Some (phoneNumber u) (ud_phoneNumber d);
     lineId := from_option Some (lineId u) (ud_lineId d);
     u_createdAt := u_createdAt u |}.

(** [prisma.user.update({ where: { id }, data })] *)
Definition user_update (id : Z) (d : UserUpdateInput) : M User :=
  db User_update (fun _ s =>
    match find_user id s with
    | None => (Err P2025, s)
    | Some u =>
        let u' := patch_user d u in
        (Ok u',
         set_users s
           (map (fun x => if bool_decide (u_id x = id) then u' else x) (users s))
           (lineOALinks s))
    end).

End Client.
End Prisma.

(** ** The ticket service (src/repairs) *)
Module Repairs.
Import Prisma.

(** [Express.Multer.File], the fields the service reads. *)
Record File : Type := mkFile {
  originalname : string;
  mimetype : string;
  size : Z;
  buffer : list Byte.byte;
}.

Definition ALLOWED_MIME_TYPES : list string :=
  ["image/jpeg"; "image/png"; "image/gif"; "image/webp"].

Definition MAX_FILE_SIZE : Z := 5 * 1024 * 1024.

(** [ALLOWED_MIME_TYPES.includes(m)] *)
Definition includes (l : list string) (m : string) : bool :=
  existsb (fun x => bool_decide (x = m)) l.

(** The class [[a-zA-Z0-9.-]] of the sanitizing pattern. *)
Definition safe_char (c : ascii) : bool :=
  let n := Z.of_nat (nat_of_ascii c) in
  ((97 <=? n) && (n <=? 122)) || ((65 <=? n) && (n <=? 90))
  || ((48 <=? n) && (n <=? 57)) || (n =? 46) || (n =? 45).

(** [s.replace(/[^a-zA-Z0-9.-]/g, '_')].  The pattern has no [u] flag, so it
    walks the UTF-16 code units of the name and puts one underscore for each
    unit outside the class.  A string here is the UTF-8 encoding of the
    JavaScript string: an ASCII byte is one unit; the lead byte of a sequence
    of two or three bytes stands for one unit, the lead byte of a sequence of
    four bytes for the two units of a surrogate pair, and a continuation byte
    belongs to the unit of its lead byte. *)
Fixpoint replace_unsafe (s : string) : string :=
  match s with
  | EmptyString => EmptyString
  | String c rest =>
      let n := Z.of_nat (nat_of_ascii c) in
      if n <? 128 then
        String (if safe_char c then c else "_"%char) (replace_unsafe rest)
      else if n <? 192 then replace_unsafe rest
      else if n <? 240 then String "_"%char (replace_unsafe rest)
      else String "_"%char (String "_"%char (replace_unsafe rest))
  end.

(** [s.length]: the number of UTF-16 code units of the JavaScript string that
    [s] encodes. *)
Fixpoint utf16_length (s : string) : nat :=
  match s with
  | EmptyString => 0
  | String c rest =>
      let n := Z.of_nat (nat_of_ascii c) in
      if n <? 128 then S (utf16_length rest)
      else if n <? 192 then utf16_length rest
      else if n <? 240 then S (utf16_length rest)
      else S (S (utf16_length rest))
  end.

Record Statistics : Type := mkStatistics {
  total : Z;
  pending : Z;
  inProgress : Z;
  waitingParts : Z;
  completed : Z;
  cancelled : Z;
}.

(** The field of the answer that belongs to a status. *)
Definition count_of (s : Statistics) (st : RepairTicketStatus) : Z :=
  match st with
  | PENDING => pending s
  | IN_PROGRESS => inProgress s
  | WAITING_PARTS => waitingParts s
  | COMPLETED => completed s
  | CANCELLED => cancelled s
  end.

Record FindAllParams : Type := mkParams {
  p_userId : option JsNumber;
  p_isAdmin : option bool;
  p_status : option RepairTicketStatus;
  p_urgency : option string;
  p_assignedTo : option JsNumber;
  p_limit : option Z;
}.

Section Service.
Context (env : Env).

Definition sanitizeFilename (filename : string) : string :=
  let basename := path_basename env filename in
  replace_unsafe basename.

(** The body of the [try] block of the upload loop. *)
Definition validate_and_upload (file : File) : M AttachmentCreateInput :=
  if negb (includes ALLOWED_MIME_TYPES (mimetype file)) then
    throw (BadRequestException
             ("Invalid file type: " +:+ mimetype file +:+ ". Only images are allowed."))
  else if size file >? MAX_FILE_SIZE then
    throw (BadRequestException "File size exceeds 5MB limit")
  else
    let sanitizedName := sanitizeFilename (originalname file) in
    let* url :=
      call (EvUpload sanitizedName "repairs")
        (fun n => cloudinary_uploadFile env n (buffer file) sanitizedName "repairs") in
    ret {| ai_filename := sanitizedName;
           ai_fileUrl := url;
           ai_fileSize := size file;
           ai_mimeType := mimetype file |}.

(** [for (const file of files) { try { ... } catch (error) { ... } }] *)
Fixpoint upload_files (files : list File)
    (attachmentData : list AttachmentCreateInput)
  : M (list AttachmentCreateInput) :=
  match files with
  | [] => ret attachmentData
  | file :: rest =>
      let* attachmentData' :=
        try_catch
          (let* a := validate_and_upload file in ret (attachmentData ++ [a]))
          (fun error =>
             if is_BadRequestException error then throw error
             else ret attachmentData) in
      upload_files rest attachmentData'
  end.

(** [if (files && files.length > 0) { for ... }], from an empty
    [attachmentData]. *)
Definition upload_block (files : option (list File))
  : M (list AttachmentCreateInput) :=
  match files with
  | Some l => if 0 <? Z.of_nat (length l) then upload_files l [] else ret []
  | None => ret []
  end.

Definition create (userId : Z) (dto : gmap string JsVal)
    (files : option (list File)) : M RepairTicket :=
  let* now := call EvClock (fun n => Ok (clock env n)) in
  let ticketCode := "REP-" +:+ pretty now in
  let* attachmentData := upload_block files in
  let* scheduled :=
    if truthy (get dto "scheduledAt") then ret (JDate (get dto "scheduledAt"))
    else (let* t := call EvClock (fun n => Ok (clock env n)) in ret (JDate (JNum t))) in
  repairTicket_create env
    {| ci_ticketCode := ticketCode;
       ci_reporterName := get dto "reporterName";
       ci_reporterDepartment := js_or (get dto "reporterDepartment") JNull;
       ci_reporterPhone := js_or (get dto "reporterPhone") JNull;
       ci_reporterLineId := js_or (get dto "reporterLineId") JNull;
       ci_problemCategory := get dto "problemCategory";
       ci_problemTitle := get dto "problemTitle";
       ci_problemDescription := js_or (get dto "problemDescription") JNull;
       ci_location := get dto "location";
       ci_urgency := js_or (get dto "urgency") (JStr "NORMAL");
       ci_userId := userId;
       ci_notes := js_or (get dto "notes") JNull;
       ci_scheduledAt := scheduled;
       ci_attachments := attachmentData |}.

(** [if (dto.k !== undefined) updateData.k = dto.k] *)
Definition copy_if_defined (dto : gmap string JsVal) (k : string)
    (updateData : gmap string JsVal) : gmap string JsVal :=
  if defined (get dto k) then <[k := get dto k]> updateData else updateData.

(** [if (dto.k) updateData.k = new Date(dto.k)] *)
Definition copy_date_if_truthy (dto : gmap string JsVal) (k : string)
    (updateData : gmap string JsVal) : gmap string JsVal :=
  if truthy (get dto k) then <[k := JDate (get dto k)]> updateData else updateData.

Definition build_updateData (dto : gmap string JsVal) : gmap string JsVal :=
  let updateData : gmap string JsVal := ∅ in
  let updateData := copy_if_defined dto "status" updateData in
  let updateData := copy_if_defined dto "notes" updateData in
  let updateData := copy_date_if_truthy dto "scheduledAt" updateData in
  let updateData := copy_date_if_truthy dto "completedAt" updateData in
  let updateData := copy_if_defined dto "problemTitle" updateData in
  let updateData := copy_if_defined dto "problemDescription" updateData in
  let updateData := copy_if_defined dto "location" updateData in
  let updateData := copy_if_defined dto "urgency" updateData in
  updateData.

(** [v.length > 0]: reading [length] of [null] throws; a value without a
    [length] gives [undefined], which is not greater than 0. *)
Definition length_positive (v : JsVal) : M bool :=
  match v with
  | JUndefined | JNull => throw TypeError
  | JArr l => ret (bool_decide (l <> []))
  | JStr s => ret (negb (bool_decide (s = "")))
  | _ => ret false
  end.

(** [v.map((userId) => ({ repairTicketId: id, userId }))]; only an array has
    [map]. *)
Definition map_assignees (id : Z) (v : JsVal) : M (list (Z * JsVal)) :=
  match v with
  | JArr l => ret (map (fun userId => (id, userId)) l)
  | _ => throw TypeError
  end.

Definition sync_assignees (id : Z) (dto : gmap string JsVal) : M unit :=
  if defined (get dto "assigneeIds") then
    let* _ := repairTicketAssignee_deleteMany id in
    let* positive := length_positive (get dto "assigneeIds") in
    if positive then
      let* data := map_assignees id (get dto "assigneeIds") in
      let* _ := repairTicketAssignee_createMany data in
      ret tt
    else ret tt
  else ret tt.

Definition reference_message : string :=
  "ข้อมูลอ้างอิงไม่ถูกต้อง (เช่น ผู้รับผิดชอบไม่มีอยู่ในระบบ)".

Definition update (id : Z) (dto : gmap string JsVal) (updatedById : Z)
  : M TicketWithRelations :=
  let updateData := build_updateData dto in
  try_catch
    (let* _ := sync_assignees id dto in
     repairTicket_update id updateData)
    (fun error =>
       if bool_decide (error_code error = Some "P2025") then
         throw (NotFoundException ("Repair ticket #" +:+ pretty id +:+ " not found"))
       else if bool_decide (error_code error = Some "P2003") then
         throw (BadRequestException reference_message)
       else throw error).

(** [stats.find(s => s.status === status)?._count.status || 0] *)
Definition getCount (stats : list (RepairTicketStatus * Z))
    (st : RepairTicketStatus) : Z :=
  match List.find (fun s => bool_decide (s.1 = st)) stats with
  | Some s => if s.2 =? 0 then 0 else s.2
  | None => 0
  end.

Definition getStatistics : M Statistics :=
  let* stats := repairTicket_groupBy_status in
  let total := foldl (fun acc curr => acc + curr.2) 0 stats in
  ret {| total := total;
         pending := getCount stats PENDING;
         inProgress := getCount stats IN_PROGRESS;
         waitingParts := getCount stats WAITING_PARTS;
         completed := getCount stats COMPLETED;
         cancelled := getCount stats CANCELLED |}.

(** Truthiness of an optional parameter. *)
Definition truthy_bool (b : option bool) : bool := default false b.
Definition truthy_num (n : option JsNumber) : bool :=
  match n with Some (Num k) => negb (k =? 0) | Some NaN | None => false end.
Definition truthy_str (s : option string) : bool :=
  match s with Some k => negb (bool_decide (k = "")) | None => false end.

(** The value a truthy number parameter puts into the where clause: a number
    that is truthy is an integer. *)
Definition integer (n : option JsNumber) : option Z :=
  match n with Some (Num k) => Some k | Some NaN | None => None end.

Definition build_where (params : FindAllParams) : TicketWhere :=
  {| w_userId :=
       if negb (truthy_bool (p_isAdmin params)) && truthy_num (p_userId params)
       then integer (p_userId params) else None;
     w_status := p_status params;
     w_urgency := if truthy_str (p_urgency params) then p_urgency params else None;
     w_assignedTo :=
       if truthy_num (p_assignedTo params)
       then integer (p_assignedTo params) else None |}.

Definition findAll (params : FindAllParams) : M (list TicketWithRelations) :=
  repairTicket_findMany (build_where params) (p_limit params).

End Service.
End Repairs.

(** ** The auth service (src/auth/auth.service.ts) *)
Module Auth.
Import Prisma.

Record LoginDto : Type := mkLoginDto {
  dto_email : string;
  dto_password : string;
}.

Record AuthResult : Type := mkAuthResult {
  r_access_token : string;
  r_userId : Z;
  r_role : Role;
  r_message : string;
}.

Record ProfileData : Type := mkProfileData {
  d_name : option string;
  d_department : option string;
  d_phoneNumber : option string;
  d_lineId : option string;
}.

(** The [select] of [getProfile] and [updateProfile]. *)
Record Profile : Type := mkProfileView {
  pf_id : Z;
  pf_name : string;
  pf_email : string;
  pf_role : Role;
  pf_department : option string;
  pf_phoneNumber : option string;
  pf_lineId : option string;
  pf_createdAt : Z;
}.

(** Truthiness of an optional string. *)
Definition truthy_opt (s : option string) : bool :=
  match s with Some k => negb (bool_decide (k = "")) | None => false end.

(** [...(v && { k: v })]: the key is spread only for a truthy [v]. *)
Definition spread_if_truthy (v : option string) : option string :=
  if truthy_opt v then v else None.

Definition select_profile (u : User) : Profile :=
  {| pf_id := u_id u;
     pf_name := u_name u;
     pf_email := email u;
     pf_role := role u;
     pf_department := department u;
     pf_phoneNumber := phoneNumber u;
     pf_lineId := lineId u;
     pf_createdAt := u_createdAt u |}.

Section Service.
Context (env : Env).

Definition sign (user : User) : M string :=
  call EvJwtSign (fun n => Ok (jwt_sign env n (u_id user) (role user))).

Definition login (dto : LoginDto) : M AuthResult :=
  let* found := user_findUnique_email (dto_email dto) in
  match found with
  | None => throw (UnauthorizedException "Email or password incorrect")
  | Some user =>
      let* isMatch :=
        call EvBcryptCompare
          (fun n => Ok (bcrypt_compare env n (dto_password dto) (password user))) in
      if negb isMatch then
        throw (UnauthorizedException "Email or password incorrect")
      else
        let* token := sign user in
        ret {| r_access_token := token;
               r_userId := u_id user;
               r_role := role user;
               r_message := "Login success" |}
  end.

(** Step 4a of the callback: no user is linked to the provider id. *)
Definition create_line_user (lineAccessToken lineUserId : string) : M User :=
  let* lineProfile :=
    call (EvGetUserProfile lineAccessToken)
      (fun n => line_getUserProfile env n lineAccessToken) in
  let* random := call EvRandom (fun n => Ok (math_random_base36 env n)) in
  let* hash := call EvBcryptHash (fun n => Ok (bcrypt_hash env n random 10)) in
  user_create env
    {| ui_name :=
         if truthy_opt (displayName lineProfile)
         then default "LINE User" (displayName lineProfile) else "LINE User";
       ui_email := "line_" +:+ lineUserId +:+ "@line.com";
       ui_password := hash;
       ui_role := USER;
       ui_lineId := Some lineUserId;
       ui_lineOALink := Some (lineUserId, VERIFIED) |}.

(** Step 4b: a linked user exists; the provider id is written back when the
    user has none. *)
Definition backfill_line_id (user : User) (lineUserId : string) : M User :=
  if negb (truthy_opt (lineId user)) then
    user_update (u_id user)
      {| ud_name := None; ud_department := None; ud_phoneNumber := None;
         ud_lineId := Some lineUserId |}
  else ret user.

Definition lineCallback (code : JsVal) (state : JsVal) : M AuthResult :=
  if negb (truthy code) then
    throw (BadRequestException "Authorization code is required")
  else
    match code with
    | JStr c =>
        try_catch
          (let* tokenResponse :=
             call (EvExchangeCode c) (fun n => line_exchangeCodeForToken env n c) in
           let lineAccessToken := access_token tokenResponse in
           let lineUserId := user_id tokenResponse in
           let* found := user_findFirst_link lineUserId in
           let* user :=
             match found with
             | None => create_line_user lineAccessToken lineUserId
             | Some user => backfill_line_id user lineUserId
             end in
           let* token := sign user in
           ret {| r_access_token := token;
                  r_userId := u_id user;
                  r_role := role user;
                  r_message := "LOGIN success via LINE" |})
          (fun error => throw error)
    | _ => throw TypeError (* [code.substring] is not a function *)
    end.

Definition updateProfile (userId : Z) (data : ProfileData) : M Profile :=
  let* user :=
    user_update userId
      {| ud_name := spread_if_truthy (d_name data);
         ud_department := spread_if_truthy (d_department data);
         ud_phoneNumber := spread_if_truthy (d_phoneNumber data);
         ud_lineId := spread_if_truthy (d_lineId data) |} in
  ret (select_profile user).

End Service.
End Auth.

(** ** A small world to run the services in *)
Module Sample.
Import Prisma Repairs Auth.

Definition env0 : Env :=
  {| clock := fun n => 1700000000000 + Z.of_nat n;
     path_basename := fun s => s;
     cloudinary_uploadFile := fun _ _ name folder =>
       if bool_decide (name = "broken.png") then Err (Error "upload failed")
       else Ok ("https://cdn.example/" +:+ folder +:+ "/" +:+ name);
     bcrypt_compare := fun _ plain hash => bool_decide (hash = "$2b$" +:+ plain);
     bcrypt_hash := fun _ plain _ => "$2b$" +:+ plain;
     math_random_base36 := fun _ => "0.k3x9";
     jwt_sign := fun _ _ _ => "header.payload.signature";
     line_exchangeCodeForToken := fun _ c =>
       if bool_decide (c = "bad") then Err (Error "invalid_grant")
       else Ok {| access_token := "line-token"; user_id := "U100" |};
     line_getUserProfile := fun _ _ => Ok {| displayName := Some "Somchai" |};
     default_status := PENDING |}.

Definition alice : User :=
  {| u_id := 1; u_name := "Alice"; email := "alice@example.com";
     password := "$2b$wonderland"; role := USER; department := Some "IT";
     phoneNumber := None; lineId := None; u_createdAt := 1000 |}.

Definition bob : User :=
  {| u_id := 2; u_name := "Bob"; email := "bob@example.com";
     password := "$2b$builder"; role := USER; department := None;
     phoneNumber := Some "0812345678"; lineId := Some "U200";
     u_createdAt := 2000 |}.

Definition printer : RepairTicket :=
  {| t_id := 1; ticketCode := "REP-1000"; reporterName := JStr "Alice";
     reporterDepartment := JNull; reporterPhone := JNull;
     reporterLineId := JNull; problemCategory := JStr "HARDWARE";
     problemTitle := JStr "Printer jam"; problemDescription := JNull;
     location := JStr "Room 101"; urgency := JStr "NORMAL";
     status := PENDING; userId := 1; assignedTo := None;
     notes := JStr "Call before visiting";
     scheduledAt := JDate (JNum 5000); completedAt := JNull;
     cancelledAt := JNull; t_createdAt := 3000 |}.

Definition projector : RepairTicket :=
  {| t_id := 2; ticketCode := "REP-2000"; reporterName := JStr "Bob";
     reporterDepartment := JNull; reporterPhone := JNull;
     reporterLineId := JNull; problemCategory := JStr "HARDWARE";
     problemTitle := JStr "Projector is dim"; problemDescription := JNull;
     location := JStr "Room 202"; urgency := JStr "URGENT";
     status := IN_PROGRESS; userId := 2; assignedTo := None; notes := JNull;
     scheduledAt := JDate (JNum 6000); completedAt := JNull;
     cancelledAt := JNull; t_createdAt := 4000 |}.

Definition store0 : Store :=
  {| users := [alice; bob];
     lineOALinks := [{| l_userId := 1; lineUserId := "U100"; l_status := VERIFIED |}];
     repairTickets := [printer; projector];
     attachments := [];
     repairTicketAssignees := [{| a_repairTicketId := 1; a_userId := 2 |}] |}.

Definition world0 : World := {| store := store0; trace := [] |}.

Definition reassign : gmap string JsVal :=
  <["assigneeIds" := JArr [JNum 1; JNum 2]]> ∅.

Definition bad_reassign : gmap string JsVal :=
  <["assigneeIds" := JArr [JNum 2; JNum 99]]> ∅.

Definition null_status : gmap string JsVal :=
  <["status" := JNull]> ∅.

Definition rename : gmap string JsVal :=
  <["problemTitle" := JStr "Paper jam"]> ∅.

Definition clear_schedule : gmap string JsVal :=
  <["scheduledAt" := JNull]> (<["notes" := JNull]> (<["urgency" := JStr "HIGH"]> ∅)).

Definition new_profile : Auth.ProfileData :=
  {| Auth.d_name := Some ""; Auth.d_department := Some "Facilities";
     Auth.d_phoneNumber := None; Auth.d_lineId := Some "" |}.

Definition alice_params : FindAllParams :=
  {| p_userId := Some (Num 1); p_isAdmin := Some false; p_status := None;
     p_urgency := Some "NORMAL"; p_assignedTo := None; p_limit := Some 10 |}.

Definition anonymous_params : FindAllParams :=
  {| p_userId := None; p_isAdmin := Some false; p_status := None;
     p_urgency := None; p_assignedTo := None; p_limit := None |}.

Definition zero_params : FindAllParams :=
  {| p_userId := Some (Num 0); p_isAdmin := Some false; p_status := None;
     p_urgency := None; p_assignedTo := None; p_limit := None |}.

Definition photo : File :=
  {| originalname := "my photo.png"; mimetype := "image/png"; size := 2048;
     buffer := [] |}.

Definition broken : File :=
  {| originalname := "broken.png"; mimetype := "image/png"; size := 4096;
     buffer := [] |}.

Definition report : gmap string JsVal :=
  <["reporterName" := JStr "Alice"]>
    (<["problemCategory" := JStr "HARDWARE"]>
       (<["problemTitle" := JStr "Screen flickers"]>
          (<["location" := JStr "Room 101"]> ∅))).

Definition document : File :=
  {| originalname := "notes.pdf"; mimetype := "application/pdf"; size := 1024;
     buffer := [] |}.

End Sample.

(** ** Vocabulary of the statements *)
Module Vocabulary.
Import Prisma Repairs.

(** A file passes validation: its declared MIME type is on the allow-list and
    its size is at most 5MB. *)
Definition valid_file (f : File) : bool :=
  includes ALLOWED_MIME_TYPES (mimetype f) && (size f <=? MAX_FILE_SIZE).

(** The same request, made by an admin. *)
Definition as_admin (params : FindAllParams) : FindAllParams :=
  {| p_userId := p_userId params;
     p_isAdmin := Some true;
     p_status := p_status params;
     p_urgency := p_urgency params;
     p_assignedTo := p_assignedTo params;
     p_limit := p_limit params |}.

(** The list behind the optional [files] argument. *)
Definition files_of (files : option (list File)) : list File :=
  default [] files.

(** The upload of [f], asked as the [n]-th outgoing call, succeeds. *)
Definition upload_succeeds (env : Env) (n : nat) (f : File) : bool :=
  is_Ok (cloudinary_uploadFile env n (buffer f)
           (sanitizeFilename env (originalname f)) "repairs").

(** How many of the files are stored when the first is uploaded as the
    [n]-th outgoing call and the others follow one call apart. *)
Fixpoint count_uploaded (env : Env) (n : nat) (files : list File) : nat :=
  match files with
  | [] => 0
  | f :: rest =>
      ((if upload_succeeds env n f then 1 else 0) + count_uploaded env (S n) rest)%nat
  end.

(** The fields of an update request that are copied when they are not
    [undefined], and the date fields. *)
Definition plain_fields : list string :=
  ["status"; "notes"; "problemTitle"; "problemDescription"; "location"; "urgency"].

Definition date_fields : list string := ["scheduledAt"; "completedAt"].

(** How a profile field moves: a non-empty supplied string replaces the
    stored value; no string, or the empty one, leaves it. *)
Definition patched (supplied old new : option string) : Prop :=
  (forall s, supplied = Some s -> s <> "" -> new = Some s)
  /\ (supplied = None \/ supplied = Some "" -> new = old).

Definition upload_event (env : Env) (f : File) : Event :=
  EvUpload (sanitizeFilename env (originalname f)) "repairs".

(** Every attachment row belongs to a ticket row. *)
Definition attachments_reference_tickets (s : Store) : Prop :=
  forall a, In a (attachments s) ->
    exists t, In t (repairTickets s) /\ t_id t = att_repairTicketId a.

End Vocabulary.

(** ** The other operations of the ORM client

    Modelled from the spec: the queries and writes of the methods that follow,
    on the same store.  [findUnique] on tickets and [findFirst] on links are
    single reads of the store, written with [get_store]. *)
Module PrismaExt.
Import Prisma.

(** [include: { user, assignees: { include: { user } }, attachments, logs }].
    The activity log is a table the two services never write; its rows, in
    the order and with the users the query asks for, are a parameter. *)
Record TicketDetails (Log : Type) : Type := mkDetails {
  d_row : RepairTicket;
  d_user : option User;
  d_assignees : list (RepairTicketAssignee * option User);
  d_attachments : list Attachment;
  d_logs : list Log;
}.
Arguments mkDetails {Log}.
Arguments d_row {Log}.
Arguments d_user {Log}.
Arguments d_assignees {Log}.
Arguments d_attachments {Log}.
Arguments d_logs {Log}.

(** The [select] of [getSchedule]. *)
Record ScheduleEntry : Type := mkEntry {
  e_id : Z;
  e_ticketCode : string;
  e_problemTitle : JsVal;
  e_problemDescription : JsVal;
  e_status : RepairTicketStatus;
  e_urgency : JsVal;
  e_scheduledAt : JsVal;
  e_createdAt : Z;
  e_completedAt : JsVal;
  e_location : JsVal;
  e_reporterName : JsVal;
}.

Definition schedule_entry (t : RepairTicket) : ScheduleEntry :=
  {| e_id := t_id t;
     e_ticketCode := ticketCode t;
     e_problemTitle := problemTitle t;
     e_problemDescription := problemDescription t;
     e_status := status t;
     e_urgency := urgency t;
     e_scheduledAt := scheduledAt t;
     e_createdAt := t_createdAt t;
     e_completedAt := completedAt t;
     e_location := location t;
     e_reporterName := reporterName t |}.

Record UserRegisterInput : Type := mkRegisterInput {
  ri_name : string;
  ri_email : string;
  ri_password : string;
  ri_role : Role;
  ri_department : option string;
  ri_phoneNumber : option string;
  ri_lineId : option string;
}.

Section Details.
Context {Log : Type} (ticket_logs : Store -> Z -> list Log).

Definition with_details (s : Store) (t : RepairTicket) : TicketDetails Log :=
  {| d_row := t;
     d_user := find_user (userId t) s;
     d_assignees :=
       map (fun a => (a, find_user (a_userId a) s)) (assignees_of (t_id t) s);
     d_attachments := attachments_of (t_id t) s;
     d_logs := ticket_logs s (t_id t) |}.

(** [prisma.repairTicket.findUnique({ where: { id }, include })] *)
Definition repairTicket_findUnique_id (id : Z) : M (option (TicketDetails Log)) :=
  let* s := get_store in
  ret (with_details s <$> find_ticket id s).

(** [prisma.repairTicket.findUnique({ where: { ticketCode }, include })] *)
Definition repairTicket_findUnique_code (c : string)
  : M (option (TicketDetails Log)) :=
  let* s := get_store in
  ret (with_details s <$>
         List.find (fun t => bool_decide (ticketCode t = c)) (repairTickets s)).

(** [prisma.repairTicket.findMany({ where: { userId }, include,
    orderBy: { createdAt: 'desc' } })] *)
Definition repairTicket_findMany_details (u : Z) : M (list (TicketDetails Log)) :=
  db RepairTicket_findMany (fun _ s =>
    (Ok (map (with_details s)
           (merge_sort newer_first
              (List.filter (fun t => bool_decide (userId t = u)) (repairTickets s)))),
     s)).

End Details.

Section Schedule.
(** The order of the store on the [scheduledAt] column. *)
Context (earlier : relation JsVal) `{!forall x y, Decision (earlier x y)}.

Definition scheduled_first (a b : RepairTicket) : Prop :=
  earlier (scheduledAt a) (scheduledAt b).

#[global] Instance scheduled_first_dec a b : Decision (scheduled_first a b).
Proof. unfold scheduled_first. apply _. Defined.

(** [prisma.repairTicket.findMany({ select, orderBy: { scheduledAt: 'asc' } })] *)
Definition repairTicket_findMany_schedule : M (list ScheduleEntry) :=
  db RepairTicket_findMany (fun _ s =>
    (Ok (map schedule_entry (merge_sort scheduled_first (repairTickets s))), s)).

End Schedule.

(** [prisma.repairTicket.update({ where: { id }, data })], without [include]. *)
Definition repairTicket_update_row (id : Z) (data : gmap string JsVal)
  : M RepairTicket :=
  let* r := repairTicket_update id data in
  ret (row r).

(** [prisma.lineOALink.findFirst({ where: { lineUserId }, include: { user } })] *)
Definition lineOALink_findFirst (l : string) : M (option (LineOALink * option User)) :=
  let* s := get_store in
  ret ((fun k => (k, find_user (l_userId k) s)) <$>
         List.find (fun k => bool_decide (lineUserId k = l)) (lineOALinks s)).

(** [prisma.user.findUnique({ where: { id }, select })] *)
Definition user_findUnique_id (id : Z) : M (option User) :=
  db User_findUnique (fun _ s => (Ok (find_user id s), s)).

Section Create.
Context (env : Env).

Definition registered_row (n : nat) (s : Store) (d : UserRegisterInput) : User :=
  {| u_id := fresh_id (map u_id (users s));
     u_name := ri_name d;
     email := ri_email d;
     password := ri_password d;
     role := ri_role d;
     department := ri_department d;
     phoneNumber := ri_phoneNumber d;
     lineId := ri_lineId d;
     u_createdAt := clock env n |}.

(** [prisma.user.create({ data })] with the columns of a registration. *)
Definition user_create_registered (d : UserRegisterInput) : M User :=
  db User_create (fun n s =>
    if existsb (fun u => bool_decide (email u = ri_email d)) (users s)
    then (Err (P2002 "email"), s)
    else
      let u := registered_row n s d in
      (Ok u, set_users s (users s ++ [u]) (lineOALinks s))).

End Create.
End PrismaExt.

(** ** The other methods of the ticket service *)
Module RepairsExt.
Import Prisma PrismaExt Repairs.

Section Reads.
Context {Log : Type} (ticket_logs : Store -> Z -> list Log).

Definition findOne (id : Z) : M (TicketDetails Log) :=
  let* ticket := repairTicket_findUnique_id ticket_logs id in
  match ticket with
  | None => throw (NotFoundException ("Repair ticket #" +:+ pretty id +:+ " not found"))
  | Some ticket => ret ticket
  end.

Definition findByCode (ticketCode : string) : M (TicketDetails Log) :=
  let* ticket := repairTicket_findUnique_code ticket_logs ticketCode in
  match ticket with
  | None => throw (NotFoundException ("Ticket " +:+ ticketCode +:+ " not found"))
  | Some ticket => ret ticket
  end.

Definition getUserTickets (userId : Z) : M (list (TicketDetails Log)) :=
  repairTicket_findMany_details ticket_logs userId.

End Reads.

(** [remove]: the row stays, with status CANCELLED and the time of the call. *)
Definition remove (env : Env) (id : Z) : M RepairTicket :=
  let* now := call EvClock (fun n => Ok (clock env n)) in
  repairTicket_update_row id
    (<["status" := JStr (status_name CANCELLED)]>
       (<["cancelledAt" := JDate (JNum now)]> ∅)).

Definition getSchedule (earlier : relation JsVal)
    `{!forall x y, Decision (earlier x y)} : M (list ScheduleEntry) :=
  repairTicket_findMany_schedule earlier.

(** [link?.user]: [None] stands for [undefined]. *)
Definition findUserByLineId (lineUserId : string) : M (option User) :=
  let* link := lineOALink_findFirst lineUserId in
  ret (match link with
       | Some (_, user) => user
       | None => None
       end).

End RepairsExt.

(** ** The other methods of the auth service *)
Module AuthExt.
Import Prisma PrismaExt Auth.

Record RegisterDto : Type := mkRegisterDto {
  reg_name : string;
  reg_email : string;
  reg_password : string;
  reg_department : option string;
  reg_phoneNumber : option string;
  reg_lineId : option string;
}.

Record RegisterResult : Type := mkRegisterResult {
  rr_message : string;
  rr_userId : Z;
  rr_role : Role;
}.

(** [error.code === 'P2002' && error.meta?.target?.includes('email')] *)
Definition is_duplicate_email (e : Exn) : bool :=
  match e with
  | PrismaClientKnownRequestError c target =>
      bool_decide (c = "P2002") && existsb (fun x => bool_decide (x = "email")) target
  | _ => false
  end.

Section Service.
Context (env : Env).

Definition register (dto : RegisterDto) : M RegisterResult :=
  let* hash :=
    call EvBcryptHash (fun n => Ok (bcrypt_hash env n (reg_password dto) 10)) in
  try_catch
    (let* user :=
       user_create_registered env
         {| ri_name := reg_name dto;
            ri_email := reg_email dto;
            ri_password := hash;
            ri_role := USER;
            ri_department := reg_department dto;
            ri_phoneNumber := reg_phoneNumber dto;
            ri_lineId := reg_lineId dto |} in
     ret {| rr_message := "Register success";
            rr_userId := u_id user;
            rr_role := role user |})
    (fun error =>
       if is_duplicate_email error then
         throw (BadRequestException "Email already exists")
       else throw error).

End Service.

(** [!userId || typeof userId !== 'number'] *)
Definition invalid_user_id (userId : JsVal) : bool :=
  negb (truthy userId)
  || negb (match userId with JNum _ | JNaN => true | _ => false end).

Definition getProfile (userId : JsVal) : M Profile :=
  try_catch
    (if invalid_user_id userId then throw (BadRequestException "Invalid user ID")
     else
       match userId with
       | JNum id =>
           let* user := user_findUnique_id id in
           match user with
           | None => throw (UnauthorizedException "User not found")
           | Some user => ret (select_profile user)
           end
       | _ => throw (BadRequestException "Invalid user ID")
       end)
    (fun error => throw error).

End AuthExt.

(** ** More vocabulary of the statements *)
Module VocabularyExt.

(** The row of a ticket cancelled at time [now]: the status and the
    cancellation date change, every other column stays. *)
Definition cancel (now : Z) (t : RepairTicket) : RepairTicket :=
  {| t_id := t_id t;
     ticketCode := ticketCode t;
     reporterName := reporterName t;
     reporterDepartment := reporterDepartment t;
     reporterPhone := reporterPhone t;
     reporterLineId := reporterLineId t;
     problemCategory := problemCategory t;
     problemTitle := problemTitle t;
     problemDescription := problemDescription t;
     location := location t;
     urgency := urgency t;
     status := CANCELLED;
     userId := userId t;
     assignedTo := assignedTo t;
     notes := notes t;
     scheduledAt := scheduledAt t;
     completedAt := completedAt t;
     cancelledAt := JDate (JNum now);
     t_createdAt := t_createdAt t |}.

(** No two rows of the ticket table share an id. *)
Definition ticket_ids_unique (s : Store) : Prop :=
  NoDup (map t_id (repairTickets s)).

(** Every link row belongs to a user row. *)
Definition links_reference_users (s : Store) : Prop :=
  forall k, In k (lineOALinks s) ->
    exists u, In u (users s) /\ u_id u = l_userId k.

End VocabularyExt.

(** ** More of the sample world *)
Module SampleExt.
Import Prisma PrismaExt Sample RepairsExt AuthExt.

(** A log table with no rows. *)
Definition no_logs (s : Store) (id : Z) : list unit := [].

(** Dates built from numbers, in the order of the numbers; any other value
    sorts first. *)
Definition earlier0 (a b : JsVal) : Prop :=
  match a, b with
  | JDate (JNum x), JDate (JNum y) => x <= y
  | JDate (JNum _), _ => False
  | _, _ => True
  end.

#[global] Instance earlier0_dec a b : Decision (earlier0 a b).
Proof.
  unfold earlier0. destruct a as [| | | | | |[]|]; try apply _;
    destruct b as [| | | | | |[]|]; apply _.
Defined.

Definition carol : RegisterDto :=
  {| reg_name := "Carol"; reg_email := "carol@example.com";
     reg_password := "s3cret"; reg_department := Some "HR";
     reg_phoneNumber := None; reg_lineId := None |}.

Definition unlinked_world : World :=
  {| store := set_users store0 [alice; bob] []; trace := [] |}.

End SampleExt.

(** * Properties *)

(** Running a computation: unfold the monad down to the store functions. *)
Ltac run :=
  unfold bind, ret, throw, try_catch, call, db, get_store, put_store; simpl.

(** ** Lists of rows *)
Section Rows.
Context {A : Type}.

Lemma find_In (p : A -> bool) (l : list A) (x : A) :
  List.find p l = Some x -> In x l /\ p x = true.
Proof.
  induction l as [|a l IH]; simpl; [discriminate|].
  destruct (p a) eqn:Hp.
  - intros [= ->]. auto.
  - intros H. destruct (IH H). auto.
Qed.

Lemma find_is_Some (p : A -> bool) (l : list A) (x : A) :
  In x l -> p x = true -> exists y, List.find p l = Some y /\ p y = true.
Proof.
  induction l as [|a l IH]; simpl; [tauto|].
  intros Hin Hp. destruct (p a) eqn:Ha; [eauto|].
  destruct Hin as [->|Hin]; [congruence|]. auto.
Qed.

(** Replacing the rows a predicate selects by one row that it selects too:
    the first selected row is now the replacement. *)
Lemma find_replace (p : A -> bool) (l : list A) (x y : A) :
  List.find p l = Some x -> p y = true ->
  List.find p (map (fun a => if p a then y else a) l) = Some y.
Proof.
  induction l as [|a l IH]; simpl; [discriminate|].
  destruct (p a) eqn:Ha; intros Hx Hy.
  - now rewrite Hy.
  - rewrite Ha. auto.
Qed.

Lemma filter_app_list (p : A -> bool) (l k : list A) :
  List.filter p (l ++ k) = List.filter p l ++ List.filter p k.
Proof.
  induction l as [|a l IH]; simpl; [reflexivity|].
  destruct (p a); simpl; now rewrite IH.
Qed.

Lemma filter_all (p : A -> bool) (l : list A) :
  (forall x, In x l -> p x = true) -> List.filter p l = l.
Proof.
  induction l as [|a l IH]; simpl; intros H; [reflexivity|].
  rewrite (H a) by auto. f_equal. auto.
Qed.

Lemma filter_none (p : A -> bool) (l : list A) :
  (forall x, In x l -> p x = false) -> List.filter p l = [].
Proof.
  induction l as [|a l IH]; simpl; intros H; [reflexivity|].
  rewrite (H a) by auto. auto.
Qed.

Lemma filter_filter_neg (p : A -> bool) (l : list A) :
  List.filter p (List.filter (fun a => negb (p a)) l) = [].
Proof.
  apply filter_none. intros x Hx. apply filter_In in Hx as [_ Hx].
  now destruct (p x).
Qed.

Lemma filter_filter_other (p q : A -> bool) (l : list A) :
  (forall x, q x = true -> p x = false) ->
  List.filter q (List.filter (fun a => negb (p a)) l) = List.filter q l.
Proof.
  intros H. induction l as [|a l IH]; simpl; [reflexivity|].
  destruct (q a) eqn:Hq.
  - rewrite (H a Hq). simpl. rewrite Hq. now f_equal.
  - destruct (p a); simpl; rewrite ?Hq; assumption.
Qed.

End Rows.

(** ** The ticket service *)
Module RepairsProps.
Import Prisma Repairs Vocabulary Sample.

(** *** The services on the sample world *)

Example sanitize_photo : sanitizeFilename env0 "my photo(1).png" = "my_photo_1_.png".
Proof. reflexivity. Qed.

Example statistics_sample :
  (getStatistics world0).1
  = Ok {| total := 2; pending := 1; inProgress := 1; waitingParts := 0;
          completed := 0; cancelled := 0 |}.
Proof. reflexivity. Qed.

Example create_sample_code :
  ticketCode <$> (match (create env0 1 report None world0).1 with
                  | Ok t => Some t | Err _ => None end)
  = Some "REP-1700000000000".
Proof. vm_compute. reflexivity. Qed.

Example update_unknown_assignee :
  (update 1 (<["assigneeIds" := JArr [JNum 99]]> ∅) 9 world0).1
  = Err (BadRequestException reference_message).
Proof. vm_compute. reflexivity. Qed.

Example update_missing_ticket :
  (update 7 rename 9 world0).1
  = Err (NotFoundException "Repair ticket #7 not found").
Proof. vm_compute. reflexivity. Qed.

Example update_null_assignees :
  (update 1 (<["assigneeIds" := JNull]> ∅) 9 world0).1 = Err TypeError.
Proof. vm_compute. reflexivity. Qed.

(** *** getStatistics *)

Lemma count_status_nonneg st ts : 0 <= count_status st ts.
Proof. unfold count_status. lia. Qed.

Lemma count_status_cons st t ts :
  count_status st (t :: ts) =
  (if bool_decide (status t = st) then 1 else 0) + count_status st ts.
Proof.
  unfold count_status. simpl. destruct (bool_decide (status t = st)); simpl; lia.
Qed.

(** Every row falls in one of the five groups. *)
Lemma count_status_total ts :
  count_status PENDING ts + count_status IN_PROGRESS ts
  + count_status WAITING_PARTS ts + count_status COMPLETED ts
  + count_status CANCELLED ts = Z.of_nat (length ts).
Proof.
  induction ts as [|t ts IH]; [reflexivity|].
  rewrite !count_status_cons. cbn [length]. rewrite Nat2Z.inj_succ.
  destruct (status t); simpl; lia.
Qed.

Ltac split_groups ts :=
  unfold group_by_status, all_statuses; simpl;
  destruct (count_status PENDING ts =? 0) eqn:?;
  destruct (count_status IN_PROGRESS ts =? 0) eqn:?;
  destruct (count_status WAITING_PARTS ts =? 0) eqn:?;
  destruct (count_status COMPLETED ts =? 0) eqn:?;
  destruct (count_status CANCELLED ts =? 0) eqn:?;
  simpl.

Lemma getCount_group st ts :
  getCount (group_by_status ts) st = count_status st ts.
Proof.
  unfold getCount. split_groups ts;
    destruct st; simpl;
    repeat match goal with
           | H : (_ =? 0) = true |- _ => apply Z.eqb_eq in H
           | H : (?c =? 0) = false |- context [?c =? 0] => rewrite H
           end; congruence.
Qed.

Lemma total_group ts :
  foldl (fun acc curr => acc + curr.2) 0 (group_by_status ts)
  = Z.of_nat (length ts).
Proof.
  rewrite <- count_status_total.
  split_groups ts;
    repeat match goal with
           | H : (_ =? 0) = true |- _ => apply Z.eqb_eq in H
           | H : (_ =? 0) = false |- _ => clear H
           end; lia.
Qed.

(** C6.  In every state of the store [getStatistics] answers, and in its
    answer the five counts add up to [total], which is the number of tickets;
    each of the five fields is the number of tickets with that status, hence
    present with value 0 for a status no ticket has. *)
Theorem getStatistics_counts (w : World) :
  exists s w',
    getStatistics w = (Ok s, w')
    /\ store w' = store w
    /\ pending s + inProgress s + waitingParts s + completed s + cancelled s
       = total s
    /\ total s = Z.of_nat (length (repairTickets (store w)))
    /\ (forall st, count_of s st = count_status st (repairTickets (store w)))
    /\ (forall st,
          (forall t, In t (repairTickets (store w)) -> status t <> st) ->
          count_of s st = 0).
Proof.
  unfold getStatistics, repairTicket_groupBy_status. run.
  eexists _, _. split; [reflexivity|]. simpl.
  rewrite !getCount_group, total_group.
  assert (Hfield : forall st,
    count_of
      {| total := Z.of_nat (length (repairTickets (store w)));
         pending := count_status PENDING (repairTickets (store w));
         inProgress := count_status IN_PROGRESS (repairTickets (store w));
         waitingParts := count_status WAITING_PARTS (repairTickets (store w));
         completed := count_status COMPLETED (repairTickets (store w));
         cancelled := count_status CANCELLED (repairTickets (store w)) |} st
    = count_status st (repairTickets (store w))) by (intros []; reflexivity).
  repeat split; try reflexivity.
  - apply count_status_total.
  - exact Hfield.
  - intros st Hst. rewrite Hfield. unfold count_status.
    rewrite filter_none; [reflexivity|].
    intros t Ht. apply bool_decide_eq_false. auto.
Qed.

(** *** findAll *)

Lemma take_rows_In {A} (lim : option Z) (l : list A) (x : A) :
  In x (take_rows lim l) -> In x l.
Proof.
  unfold take_rows. destruct lim as [n|]; [|tauto].
  rewrite <- !list_elem_of_In.
  destruct (0 <=? n); [apply subseteq_take | apply subseteq_drop].
Qed.

Lemma findMany_rows (w : TicketWhere) (lim : option Z) (s : Store) (t : RepairTicket) :
  In t (take_rows lim
          (merge_sort newer_first (List.filter (where_matches w) (repairTickets s)))) ->
  In t (repairTickets s) /\ where_matches w t = true.
Proof.
  intros H. apply take_rows_In in H.
  apply (Permutation_in _ (merge_sort_Permutation newer_first _)) in H.
  now apply filter_In in H.
Qed.

Lemma where_matches_owner (w : TicketWhere) (t : RepairTicket) (u : Z) :
  w_userId w = Some u -> where_matches w t = true -> userId t = u.
Proof.
  unfold where_matches. intros ->.
  rewrite !andb_true_iff. intros [[[H _] _] _].
  now apply bool_decide_eq_true in H.
Qed.

(** C3, as amended.  For a caller who is not an admin: when the user id
    passed is a number other than 0 and NaN, [findAll] answers with tickets of
    the store that all belong to that user, whatever the status, urgency and
    assignee filters and the limit are.  When no user id is passed, or the id
    is 0 or NaN, the query gets no owner restriction: the answer is the one
    the same request gets when an admin makes it, so that without limit and
    other filters it holds every ticket of the store, whoever owns it. *)
Theorem findAll_own_tickets (params : FindAllParams) (w : World) :
  truthy_bool (p_isAdmin params) = false ->
  (forall u : Z, p_userId params = Some (Num u) -> u <> 0 ->
     exists l w',
       findAll params w = (Ok l, w')
       /\ store w' = store w
       /\ forall r, In r l ->
            userId (row r) = u /\ In (row r) (repairTickets (store w)))
  /\ (p_userId params = None \/ p_userId params = Some (Num 0)
      \/ p_userId params = Some NaN ->
      w_userId (build_where params) = None
      /\ findAll params w = findAll (as_admin params) w
      /\ (p_limit params = None -> p_status params = None ->
          truthy_str (p_urgency params) = false ->
          truthy_num (p_assignedTo params) = false ->
          exists l,
            (findAll params w).1 = Ok l
            /\ map row l ≡ₚ repairTickets (store w))).
Proof.
  intros Hadmin. split.
  - intros u Hu Hnz.
    unfold findAll, repairTicket_findMany. run.
    eexists _, _. split; [reflexivity|]. split; [reflexivity|].
    intros r Hr. apply in_map_iff in Hr as (t & <- & Ht). simpl.
    apply findMany_rows in Ht as [Hin Hm]. split; [|assumption].
    apply (where_matches_owner _ _ _) with (2 := Hm).
    unfold build_where. simpl. rewrite Hadmin, Hu. simpl.
    destruct (u =? 0) eqn:E; [apply Z.eqb_eq in E; contradiction|reflexivity].
  - intros Hfalsy.
    assert (Hnum : truthy_num (p_userId params) = false)
      by (destruct Hfalsy as [->|[->| ->]]; reflexivity).
    assert (Hwhere : build_where params = build_where (as_admin params)).
    { unfold build_where. simpl. rewrite Hadmin, Hnum. reflexivity. }
    split; [|split].
    + unfold build_where. simpl. now rewrite Hnum, andb_false_r.
    + unfold findAll. now rewrite Hwhere.
    + intros Hlim Hst Hurg Hass.
      unfold findAll, repairTicket_findMany. run. rewrite Hlim.
      eexists. split; [reflexivity|]. simpl.
      rewrite map_map. simpl. rewrite map_id, merge_sort_Permutation.
      unfold build_where. rewrite Hst, Hurg, Hass, Hnum, andb_false_r.
      rewrite filter_all; [reflexivity|]. intros; reflexivity.
Qed.

Lemma findAll_own_tickets_witness :
  (exists l w',
     findAll alice_params world0 = (Ok l, w')
     /\ store w' = store world0
     /\ forall r, In r l ->
          userId (row r) = 1 /\ In (row r) (repairTickets (store world0)))
  /\ (exists l,
        (findAll zero_params world0).1 = Ok l
        /\ map row l ≡ₚ [printer; projector]).
Proof.
  split.
  - apply (proj1 (findAll_own_tickets alice_params world0 eq_refl) 1);
      [reflexivity | lia].
  - apply (proj2 (findAll_own_tickets zero_params world0 eq_refl));
      [right; left; reflexivity | reflexivity | reflexivity | reflexivity
      | reflexivity].
Defined.

(** C3, as stated: a caller who is not an admin and passes no user id gets
    the tickets of Alice and of Bob, so whoever the caller is, a ticket in the
    answer is not theirs. *)
Lemma findAll_without_user_id_returns_all :
  truthy_bool (p_isAdmin anonymous_params) = false
  /\ exists l w',
       findAll anonymous_params world0 = (Ok l, w')
       /\ forall caller : Z, exists r, In r l /\ userId (row r) <> caller.
Proof.
  split; [reflexivity|].
  eexists _, _. split; [vm_compute; reflexivity|].
  intros caller. destruct (decide (caller = 1)) as [->|Hne].
  - eexists. split; [left; reflexivity|]. simpl. lia.
  - eexists. split; [right; left; reflexivity|]. simpl. lia.
Qed.

(** *** create *)

Lemma length_snoc {A} (l : list A) (x : A) : length (l ++ [x]) = S (length l).
Proof. rewrite length_app. simpl. lia. Qed.

Lemma valid_file_inv (f : File) :
  valid_file f = true ->
  includes ALLOWED_MIME_TYPES (mimetype f) = true
  /\ (size f >? MAX_FILE_SIZE) = false.
Proof.
  unfold valid_file. rewrite andb_true_iff, Z.leb_le, Z.gtb_ltb, Z.ltb_ge. tauto.
Qed.

(** A file that fails validation stops the loop with a client error, before
    any upload of it. *)
Lemma validate_and_upload_invalid (env : Env) (f : File) (w : World) :
  valid_file f = false ->
  exists msg, validate_and_upload env f w = (Err (BadRequestException msg), w).
Proof.
  unfold valid_file, validate_and_upload. intros H.
  destruct (includes ALLOWED_MIME_TYPES (mimetype f)); simpl in *.
  - apply Z.leb_gt in H. rewrite Z.gtb_ltb.
    destruct (MAX_FILE_SIZE <? size f) eqn:E; [eexists; reflexivity|].
    apply Z.ltb_ge in E. lia.
  - eexists. reflexivity.
Qed.

Lemma validate_and_upload_valid (env : Env) (f : File) (w : World) :
  valid_file f = true ->
  validate_and_upload env f w =
  (match cloudinary_uploadFile env (length (trace w)) (buffer f)
           (sanitizeFilename env (originalname f)) "repairs" with
   | Ok url => Ok {| ai_filename := sanitizeFilename env (originalname f);
                     ai_fileUrl := url;
                     ai_fileSize := size f;
                     ai_mimeType := mimetype f |}
   | Err e => Err e
   end,
   {| store := store w; trace := trace w ++ [upload_event env f] |}).
Proof.
  intros H. apply valid_file_inv in H as [Hm Hs].
  unfold validate_and_upload. rewrite Hm, Hs. run.
  now destruct (cloudinary_uploadFile _ _ _ _ _).
Qed.

(** The loop never writes to the store. *)
Lemma upload_files_store (env : Env) (files : list File) acc w :
  store (upload_files env files acc w).2 = store w.
Proof.
  revert acc w. induction files as [|f files IH]; intros acc w; [reflexivity|].
  simpl. unfold bind at 1, try_catch.
  destruct (valid_file f) eqn:Hv.
  - unfold bind at 1. rewrite validate_and_upload_valid by assumption.
    destruct (cloudinary_uploadFile _ _ _ _ _) as [url|e]; simpl.
    + now rewrite IH.
    + destruct (is_BadRequestException e); simpl; [reflexivity|now rewrite IH].
  - unfold bind at 1.
    destruct (validate_and_upload_invalid env f w Hv) as [msg ->]. reflexivity.
Qed.

(** With every file valid and no upload raising a client error, the loop runs
    to its end: one upload per file, one attachment per upload that worked. *)
Lemma upload_files_valid (env : Env) (files : list File) acc w :
  (forall f, In f files -> valid_file f = true) ->
  (forall n b name folder e,
     cloudinary_uploadFile env n b name folder = Err e ->
     is_BadRequestException e = false) ->
  exists added,
    upload_files env files acc w =
    (Ok (acc ++ added),
     {| store := store w; trace := trace w ++ map (upload_event env) files |})
    /\ length added = count_uploaded env (length (trace w)) files.
Proof.
  intros Hvalid Hup. revert acc w.
  induction files as [|f files IH]; intros acc w.
  - exists []. simpl. unfold ret. rewrite !app_nil_r. destruct w; auto.
  - simpl. unfold bind at 1, try_catch. unfold bind at 1.
    rewrite validate_and_upload_valid by (apply Hvalid; now left).
    unfold upload_succeeds.
    destruct (cloudinary_uploadFile _ _ _ _ _) as [url|e] eqn:E; simpl.
    + destruct (IH (fun f Hf => Hvalid f (or_intror Hf)) (acc ++
        [{| ai_filename := sanitizeFilename env (originalname f);
            ai_fileUrl := url; ai_fileSize := size f;
            ai_mimeType := mimetype f |}])
        {| store := store w; trace := trace w ++ [upload_event env f] |})
        as (added & -> & Hlen).
      simpl in *. rewrite length_snoc in Hlen.
      eexists (_ :: added). rewrite <- !app_assoc. simpl. split; [reflexivity|].
      now rewrite Hlen.
    + rewrite (Hup _ _ _ _ _ E). simpl.
      destruct (IH (fun f Hf => Hvalid f (or_intror Hf)) acc
        {| store := store w; trace := trace w ++ [upload_event env f] |})
        as (added & -> & Hlen).
      simpl in *. rewrite length_snoc in Hlen.
      exists added. rewrite <- !app_assoc. simpl. split; [reflexivity|].
      assumption.
Qed.

(** A file that fails validation makes the loop end in a client error. *)
Lemma upload_files_invalid (env : Env) (files : list File) acc w :
  (exists f, In f files /\ valid_file f = false) ->
  exists msg w',
    upload_files env files acc w = (Err (BadRequestException msg), w').
Proof.
  revert acc w. induction files as [|f files IH]; intros acc w [g [Hin Hg]].
  - destruct Hin.
  - simpl. unfold bind at 1, try_catch. unfold bind at 1.
    destruct (valid_file f) eqn:Hv.
    + assert (Hrest : exists g, In g files /\ valid_file g = false).
      { destruct Hin as [->|Hin]; [congruence|eauto]. }
      rewrite validate_and_upload_valid by assumption.
      destruct (cloudinary_uploadFile _ _ _ _ _) as [url|e]; simpl.
      * apply IH, Hrest.
      * destruct e; simpl; try (apply IH, Hrest). eauto.
    + destruct (validate_and_upload_invalid env f w Hv) as [msg ->]. simpl. eauto.
Qed.

Lemma fresh_id_above (ids : list Z) (x : Z) : In x ids -> x < fresh_id ids.
Proof.
  unfold fresh_id. induction ids as [|a ids IH]; simpl; [tauto|].
  intros [->|H]; [lia|]. specialize (IH H). lia.
Qed.

Lemma upload_block_loop (env : Env) (files : option (list File)) (w : World) :
  upload_block env files w = upload_files env (files_of files) [] w.
Proof.
  destruct files as [[|f l]|]; reflexivity.
Qed.

(** C1, as amended.  A file that fails validation is fatal: the call ends in
    a client error and the store is as before.  When every file passes
    validation and no upload raises a client error, the uploads cannot make
    the call fail: if the store takes the row (the ticket code is free and the
    owner exists) the call succeeds, and the rows it adds to the attachment
    table all belong to the new ticket and are as many as the uploads that
    succeeded, so as many as the files when every upload succeeds. *)
Theorem create_attachments (env : Env) (userId : Z) (dto : gmap string JsVal)
    (files : option (list File)) (w : World) :
  ((exists f, In f (files_of files) /\ valid_file f = false) ->
   exists msg w',
     create env userId dto files w = (Err (BadRequestException msg), w')
     /\ store w' = store w)
  /\
  ((forall f, In f (files_of files) -> valid_file f = true) ->
   (forall n b name folder e,
      cloudinary_uploadFile env n b name folder = Err e ->
      is_BadRequestException e = false) ->
   code_taken ("REP-" +:+ pretty (clock env (length (trace w)))) (store w) = false ->
   is_Some (find_user userId (store w)) ->
   exists t w' rows,
     create env userId dto files w = (Ok t, w')
     /\ In t (repairTickets (store w'))
     /\ attachments (store w') = attachments (store w) ++ rows
     /\ (forall a, In a rows -> att_repairTicketId a = t_id t)
     /\ length rows = count_uploaded env (S (length (trace w))) (files_of files)
     /\ ((forall n f, upload_succeeds env n f = true) ->
         length rows = length (files_of files))
     /\ (attachments_reference_tickets (store w) ->
         attachments_of (t_id t) (store w') = rows)).
Proof.
  split.
  - intros Hbad. unfold create. unfold bind at 1. unfold call at 1.
    unfold bind at 1. rewrite upload_block_loop.
    pose proof (upload_files_store env (files_of files) []
      {| store := store w; trace := trace w ++ [EvClock] |}) as Hstore.
    destruct (upload_files_invalid env (files_of files) []
      {| store := store w; trace := trace w ++ [EvClock] |} Hbad)
      as (msg & w' & Hrun).
    rewrite Hrun in *. simpl in *. eauto.
  - intros Hvalid Hup Hcode [owner Howner].
    unfold create. unfold bind at 1. unfold call at 1.
    unfold bind at 1. rewrite upload_block_loop.
    destruct (upload_files_valid env (files_of files) []
      {| store := store w; trace := trace w ++ [EvClock] |} Hvalid Hup)
      as (added & -> & Hlen).
    simpl in Hlen. rewrite length_snoc in Hlen. simpl.
    set (scheduled := if truthy (get dto "scheduledAt") then _ else _).
    assert (Hsched : exists v tr,
      scheduled {| store := store w;
                   trace := (trace w ++ [EvClock]) ++
                            map (upload_event env) (files_of files) |}
      = (Ok v, {| store := store w; trace := tr |})).
    { subst scheduled. destruct (truthy (get dto "scheduledAt")); run; eauto. }
    destruct Hsched as (v & tr & Hsched).
    unfold bind at 1. rewrite Hsched.
    unfold repairTicket_create, db. simpl. rewrite Hcode, Howner.
    eexists _, _, _. split; [reflexivity|]. simpl.
    split; [apply in_or_app; right; now left|].
    split; [reflexivity|].
    split; [intros a Ha; apply in_map_iff in Ha as (x & <- & _); reflexivity|].
    rewrite length_map. split; [assumption|]. split.
    + intros Hall. rewrite Hlen. clear -Hall.
      generalize (S (length (trace w))).
      induction (files_of files) as [|f l IH]; intros n; [reflexivity|].
      simpl. rewrite Hall, IH. reflexivity.
    + intros Href. unfold attachments_of. simpl.
      rewrite filter_app_list, filter_none, filter_all; [reflexivity| |].
      * intros a Ha. apply in_map_iff in Ha as (x & <- & _).
        now apply bool_decide_eq_true.
      * intros a Ha. apply bool_decide_eq_false. simpl.
        destruct (Href a Ha) as (t0 & Ht0 & <-).
        pose proof (fresh_id_above (map t_id (repairTickets (store w)))
                      (t_id t0) (in_map _ _ _ Ht0)).
        lia.
Qed.

Lemma create_attachments_witness :
  exists t w' rows,
    create env0 1 report (Some [photo; broken; photo]) world0 = (Ok t, w')
    /\ attachments (store w') = attachments store0 ++ rows
    /\ length rows = 2%nat
    /\ attachments_of (t_id t) (store w') = rows.
Proof.
  destruct (proj2 (create_attachments env0 1 report
                     (Some [photo; broken; photo]) world0))
    as (t & w' & rows & Hrun & _ & Hrows & _ & Hlen & _ & Hof).
  - intros f [<-|[<-|[<-|[]]]]; reflexivity.
  - intros n b name folder e. simpl.
    destruct (bool_decide (name = "broken.png")); [|discriminate].
    intros [= <-]. reflexivity.
  - vm_compute. reflexivity.
  - eexists. vm_compute. reflexivity.
  - exists t, w', rows. repeat split; try assumption.
    apply Hof. intros a [].
Defined.

(** C1, as stated: one valid image and one invalid file.  The call does not
    succeed with one attachment: it ends in a client error and no ticket is
    written. *)
Lemma create_invalid_file_is_fatal :
  valid_file photo = true
  /\ valid_file document = false
  /\ exists w',
       create env0 1 report (Some [photo; document]) world0 =
       (Err (BadRequestException
               "Invalid file type: application/pdf. Only images are allowed."), w')
       /\ repairTickets (store w') = repairTickets store0
       /\ attachments (store w') = [].
Proof.
  split; [reflexivity|]. split; [reflexivity|].
  eexists. split; [vm_compute; reflexivity|]. split; reflexivity.
Qed.

(** C9.  When [create] persists a ticket for a request whose [scheduledAt] is
    missing or falsy, the clock was read right before the write and the
    ticket's [scheduledAt] is the date of that reading, not [null]. *)
Theorem create_default_scheduledAt (env : Env) (userId : Z)
    (dto : gmap string JsVal) (files : option (list File))
    (w w' : World) (t : RepairTicket) :
  truthy (get dto "scheduledAt") = false ->
  create env userId dto files w = (Ok t, w') ->
  exists tr,
    trace w' = tr ++ [EvClock; EvDb RepairTicket_create]
    /\ scheduledAt t = JDate (JNum (clock env (length tr)))
    /\ scheduledAt t <> JNull
    /\ In t (repairTickets (store w')).
Proof.
  intros Hfalsy. unfold create. unfold bind at 1. unfold call at 1.
  unfold bind at 1.
  destruct (upload_block env files _) as [[atts|e] w1]; [|discriminate].
  rewrite Hfalsy. unfold bind at 1. unfold bind at 1. unfold call at 1.
  unfold ret at 1. unfold repairTicket_create, db. simpl.
  destruct (code_taken _ _); [discriminate|].
  destruct (find_user userId (store w1)); [|discriminate].
  intros [= <- <-]. simpl. exists (trace w1).
  rewrite <- app_assoc. simpl.
  split; [reflexivity|]. split; [reflexivity|]. split; [discriminate|].
  apply in_or_app. right. now left.
Qed.

Lemma create_default_scheduledAt_witness :
  exists t w' tr,
    create env0 1 report (Some [photo]) world0 = (Ok t, w')
    /\ trace w' = tr ++ [EvClock; EvDb RepairTicket_create]
    /\ scheduledAt t = JDate (JNum (clock env0 (length tr))).
Proof.
  destruct (create env0 1 report (Some [photo]) world0) as [r w'] eqn:Hrun.
  assert (Hr : exists t, r = Ok t).
  { vm_compute in Hrun. injection Hrun as <- _. eauto. }
  destruct Hr as [t ->].
  destruct (create_default_scheduledAt env0 1 report (Some [photo]) world0 w' t)
    as (tr & Htr & Hs & _); [reflexivity | exact Hrun |].
  exists t, w', tr. auto.
Defined.

(** *** update: the assignee rows *)

Lemma assignee_rows_numbers (id : Z) (ids : list Z) :
  assignee_rows (map (fun userId => (id, userId)) (map JNum ids))
  = Some (map (mkAssignee id) ids).
Proof.
  induction ids as [|u ids IH]; simpl; [reflexivity|]. now rewrite IH.
Qed.

(** The error handler of [update] translates the error and writes nothing. *)
Lemma update_handler_world (id : Z) (e : Exn) (w : World) :
  exists e',
    (if bool_decide (error_code e = Some "P2025") then
       throw (NotFoundException ("Repair ticket #" +:+ pretty id +:+ " not found"))
     else if bool_decide (error_code e = Some "P2003") then
       throw (BadRequestException reference_message)
     else throw e) w = (@Err TicketWithRelations e', w).
Proof.
  destruct (bool_decide _); [eexists; reflexivity|].
  destruct (bool_decide _); eexists; reflexivity.
Qed.

(** The write of the ticket row leaves the other tables alone, whether it
    succeeds or not. *)
Lemma repairTicket_update_tables (id : Z) (data : gmap string JsVal) (w : World) :
  let w' := (repairTicket_update id data w).2 in
  repairTicketAssignees (store w') = repairTicketAssignees (store w)
  /\ users (store w') = users (store w)
  /\ trace w' = trace w ++ [EvDb RepairTicket_update].
Proof.
  unfold repairTicket_update, db. simpl.
  destruct (find_ticket id (store w)) as [t|];
    destruct (status_column data _); simpl; auto.
Qed.

(** After [update], the assignee table is the one the synchronisation step
    left. *)
Lemma update_assignee_table (id : Z) (dto : gmap string JsVal) (actor : Z) (w : World) :
  repairTicketAssignees (store (update id dto actor w).2)
  = repairTicketAssignees (store (sync_assignees id dto w).2).
Proof.
  unfold update, try_catch. unfold bind at 1.
  destruct (sync_assignees id dto w) as [[[]|e] w1]; simpl.
  - pose proof (repairTicket_update_tables id (build_updateData dto) w1) as (Ha & _).
    destruct (repairTicket_update id (build_updateData dto) w1) as [[r|e] w2];
      simpl in *; [assumption|].
    destruct (update_handler_world id e w2) as [e' ->]. assumption.
  - destruct (update_handler_world id e w1) as [e' ->]. reflexivity.
Qed.

Lemma sync_assignees_absent (id : Z) (dto : gmap string JsVal) (w : World) :
  get dto "assigneeIds" = JUndefined ->
  sync_assignees id dto w = (Ok tt, w).
Proof. unfold sync_assignees. now intros ->. Qed.

(** What the synchronisation step leaves in the assignee table for a list of
    user ids: the rows of the other tickets, then the new rows if the store
    took them. *)
Lemma sync_assignees_list (id : Z) (dto : gmap string JsVal) (ids : list Z) (w : World) :
  get dto "assigneeIds" = JArr (map JNum ids) ->
  repairTicketAssignees (store (sync_assignees id dto w).2)
  = List.filter (fun a => negb (bool_decide (a_repairTicketId a = id)))
      (repairTicketAssignees (store w))
    ++ (if forallb (references_ok (store w)) (map (mkAssignee id) ids)
        then map (mkAssignee id) ids else []).
Proof.
  unfold sync_assignees. intros ->. simpl.
  unfold bind at 1. unfold repairTicketAssignee_deleteMany at 1, db at 1. simpl.
  unfold bind at 1. unfold length_positive, ret at 1.
  destruct ids as [|u ids].
  - simpl. now rewrite app_nil_r.
  - rewrite bool_decide_eq_true_2 by discriminate.
    unfold map_assignees. unfold bind at 1. unfold ret at 1.
    unfold bind at 1. unfold repairTicketAssignee_createMany, db.
    cbn [store trace]. rewrite assignee_rows_numbers.
    set (s1 := set_assignees (store w) _).
    change (references_ok s1) with (references_ok (store w)).
    destruct (forallb _ _); simpl; [reflexivity|now rewrite app_nil_r].
Qed.

(** The calls the synchronisation step makes for a list of user ids: the
    deletion, then one insertion unless the list is empty. *)
Lemma sync_assignees_list_trace (id : Z) (dto : gmap string JsVal) (ids : list Z)
    (w : World) :
  get dto "assigneeIds" = JArr (map JNum ids) ->
  trace (sync_assignees id dto w).2
  = trace w ++ EvDb RepairTicketAssignee_deleteMany
      :: (if bool_decide (ids = []) then []
          else [EvDb RepairTicketAssignee_createMany]).
Proof.
  unfold sync_assignees. intros ->. simpl.
  unfold bind at 1. unfold repairTicketAssignee_deleteMany at 1, db at 1. simpl.
  unfold bind at 1. unfold length_positive, ret at 1.
  destruct ids as [|u ids]; [reflexivity|].
  rewrite bool_decide_eq_true_2 by discriminate.
  rewrite (bool_decide_eq_false_2 (u :: ids = [])) by discriminate.
  unfold map_assignees. unfold bind at 1. unfold ret at 1.
  unfold bind at 1. unfold repairTicketAssignee_createMany, db.
  cbn [store trace]. rewrite assignee_rows_numbers.
  destruct (forallb _ _); simpl; now rewrite <- app_assoc.
Qed.

Lemma update_trace_extends (id : Z) (dto : gmap string JsVal) (actor : Z) (w : World) :
  exists rest,
    trace (update id dto actor w).2 = trace (sync_assignees id dto w).2 ++ rest.
Proof.
  unfold update, try_catch. unfold bind at 1.
  destruct (sync_assignees id dto w) as [[[]|e] w1]; simpl.
  - pose proof (repairTicket_update_tables id (build_updateData dto) w1)
      as (_ & _ & Htr).
    destruct (repairTicket_update id (build_updateData dto) w1) as [[r|e] w2];
      simpl in *; [eauto|].
    destruct (update_handler_world id e w2) as [e' ->]. eauto.
  - destruct (update_handler_world id e w1) as [e' ->]. exists [].
    now rewrite app_nil_r.
Qed.

Lemma references_ok_all (s : Store) (id : Z) (ids : list Z) :
  is_Some (find_ticket id s) ->
  (forall u, In u ids -> is_Some (find_user u s)) ->
  forallb (references_ok s) (map (mkAssignee id) ids) = true.
Proof.
  intros Ht Hu. apply forallb_forall. intros a Ha.
  apply in_map_iff in Ha as (u & <- & Hin).
  unfold references_ok. simpl.
  rewrite !bool_decide_eq_true_2; auto.
Qed.

(** What the synchronisation step answers for a list of user ids. *)
Lemma sync_assignees_list_outcome (id : Z) (dto : gmap string JsVal)
    (ids : list Z) (w : World) :
  get dto "assigneeIds" = JArr (map JNum ids) ->
  (sync_assignees id dto w).1
  = if forallb (references_ok (store w)) (map (mkAssignee id) ids)
    then Ok tt else Err P2003.
Proof.
  unfold sync_assignees. intros ->. simpl.
  unfold bind at 1. unfold repairTicketAssignee_deleteMany at 1, db at 1. simpl.
  unfold bind at 1. unfold length_positive, ret at 1.
  destruct ids as [|u ids]; [reflexivity|].
  rewrite bool_decide_eq_true_2 by discriminate.
  unfold map_assignees. unfold bind at 1. unfold ret at 1.
  unfold bind at 1. unfold repairTicketAssignee_createMany, db.
  cbn [store trace]. rewrite assignee_rows_numbers.
  set (s1 := set_assignees (store w) _).
  change (references_ok s1) with (references_ok (store w)).
  destruct (forallb _ _); reflexivity.
Qed.

Lemma unknown_user_not_referenced (s : Store) (id : Z) (ids : list Z) (u : Z) :
  In u ids -> find_user u s = None ->
  forallb (references_ok s) (map (mkAssignee id) ids) = false.
Proof.
  intros Hin Hnone. apply not_true_is_false. intros H.
  assert (Hok : references_ok s (mkAssignee id u) = true).
  { revert H. rewrite forallb_forall. intros H. apply H.
    apply in_map_iff. eauto. }
  unfold references_ok in Hok. simpl in Hok. rewrite Hnone in Hok.
  apply andb_true_iff in Hok as [_ Hok].
  apply bool_decide_eq_true in Hok. destruct Hok as [? [=]].
Qed.

(** C4, as amended.  An [update] whose request has no [assigneeIds] makes no
    call on the assignee table and leaves it as it is.  With a list of user
    ids it first deletes the ticket's rows and then, unless the list is
    empty, inserts the new list in one call: the rows of the other tickets
    stay and none of the ticket's old rows is left.  The ticket's rows
    afterwards are the new list when the ticket and the listed users exist;
    an empty list leaves the ticket without assignees; a list that names a
    user that does not exist is rejected by the store: nothing is inserted,
    the deletion is not undone and the call fails with the client error. *)
Theorem update_assignees (id : Z) (dto : gmap string JsVal) (actor : Z) (w : World) :
  (get dto "assigneeIds" = JUndefined ->
   repairTicketAssignees (store (update id dto actor w).2)
   = repairTicketAssignees (store w)
   /\ trace (update id dto actor w).2 = trace w ++ [EvDb RepairTicket_update])
  /\
  (forall ids, get dto "assigneeIds" = JArr (map JNum ids) ->
     (forall j, j <> id ->
        assignees_of j (store (update id dto actor w).2) = assignees_of j (store w))
     /\ (assignees_of id (store (update id dto actor w).2) = map (mkAssignee id) ids
         \/ assignees_of id (store (update id dto actor w).2) = [])
     /\ (is_Some (find_ticket id (store w)) ->
         (forall u, In u ids -> is_Some (find_user u (store w))) ->
         assignees_of id (store (update id dto actor w).2) = map (mkAssignee id) ids)
     /\ (ids = [] -> assignees_of id (store (update id dto actor w).2) = [])
     /\ (exists rest,
           trace (update id dto actor w).2
           = (trace w ++ EvDb RepairTicketAssignee_deleteMany
                :: (if bool_decide (ids = []) then []
                    else [EvDb RepairTicketAssignee_createMany])) ++ rest)
     /\ ((exists u, In u ids /\ find_user u (store w) = None) ->
         assignees_of id (store (update id dto actor w).2) = []
         /\ (update id dto actor w).1
            = Err (BadRequestException reference_message))).
Proof.
  split.
  - intros Habsent. rewrite update_assignee_table.
    rewrite sync_assignees_absent by assumption. split; [reflexivity|].
    unfold update, try_catch. unfold bind at 1.
    rewrite sync_assignees_absent by assumption.
    pose proof (repairTicket_update_tables id (build_updateData dto) w) as (_ & _ & Htr).
    destruct (repairTicket_update id (build_updateData dto) w) as [[r|e] w2];
      simpl in *; [assumption|].
    destruct (update_handler_world id e w2) as [e' ->]. assumption.
  - intros ids Hids.
    assert (Hof : forall j,
      assignees_of j (store (update id dto actor w).2)
      = List.filter (fun a => bool_decide (a_repairTicketId a = j))
          (List.filter (fun a => negb (bool_decide (a_repairTicketId a = id)))
             (repairTicketAssignees (store w)))
        ++ List.filter (fun a => bool_decide (a_repairTicketId a = j))
             (if forallb (references_ok (store w)) (map (mkAssignee id) ids)
              then map (mkAssignee id) ids else [])).
    { intros j. unfold assignees_of. rewrite update_assignee_table.
      rewrite (sync_assignees_list id dto ids w Hids). apply filter_app_list. }
    assert (Hnew : forall j l, (forall a, In a l -> In a (map (mkAssignee id) ids)) ->
      List.filter (fun a => bool_decide (a_repairTicketId a = j)) l
      = if bool_decide (id = j) then l else []).
    { intros j l Hl. case_bool_decide as Hj.
      - apply filter_all. intros a Ha. apply Hl, in_map_iff in Ha as (u & <- & _).
        now apply bool_decide_eq_true.
      - apply filter_none. intros a Ha. apply Hl, in_map_iff in Ha as (u & <- & _).
        now apply bool_decide_eq_false. }
    split; [|split; [|split; [|split; [|split]]]].
    + intros j Hj. rewrite Hof.
      rewrite filter_filter_other.
      2:{ intros a Ha. apply bool_decide_eq_true in Ha.
          apply bool_decide_eq_false. congruence. }
      unfold assignees_of.
      destruct (forallb _ _); [|simpl; now rewrite app_nil_r].
      rewrite (Hnew _ (map (mkAssignee id) ids)) by (intros ? H; exact H).
      rewrite bool_decide_eq_false_2 by congruence. now rewrite app_nil_r.
    + rewrite Hof, (filter_filter_neg (fun a => bool_decide (a_repairTicketId a = id))).
      destruct (forallb _ _); [|now right].
      rewrite (Hnew _ (map (mkAssignee id) ids)) by (intros ? H; exact H).
      rewrite bool_decide_eq_true_2 by reflexivity. now left.
    + intros Ht Hu.
      rewrite Hof, (filter_filter_neg (fun a => bool_decide (a_repairTicketId a = id))).
      rewrite (references_ok_all _ _ _ Ht Hu).
      rewrite (Hnew _ (map (mkAssignee id) ids)) by (intros ? H; exact H). now rewrite bool_decide_eq_true_2.
    + intros ->.
      rewrite Hof, (filter_filter_neg (fun a => bool_decide (a_repairTicketId a = id))).
      reflexivity.
    + destruct (update_trace_extends id dto actor w) as [rest Hrest].
      exists rest. rewrite Hrest.
      now rewrite (sync_assignees_list_trace id dto ids w Hids).
    + intros (u & Hin & Hnone).
      pose proof (unknown_user_not_referenced (store w) id ids u Hin Hnone) as Href.
      split.
      * rewrite Hof, Href,
          (filter_filter_neg (fun a => bool_decide (a_repairTicketId a = id))).
        reflexivity.
      * pose proof (sync_assignees_list_outcome id dto ids w Hids) as Hout.
        rewrite Href in Hout.
        unfold update, try_catch. unfold bind at 1.
        destruct (sync_assignees id dto w) as [res w1]. simpl in Hout. subst res.
        reflexivity.
Qed.

Lemma update_assignees_witness :
  assignees_of 1 (store (update 1 reassign 9 world0).2)
  = [mkAssignee 1 1; mkAssignee 1 2]
  /\ repairTicketAssignees (store (update 1 rename 9 world0).2)
     = repairTicketAssignees store0.
Proof.
  split.
  - apply (proj2 (update_assignees 1 reassign 9 world0) [1; 2]).
    + reflexivity.
    + eexists. reflexivity.
    + intros u [<-|[<-|[]]]; eexists; reflexivity.
  - apply (proj1 (update_assignees 1 rename 9 world0)). reflexivity.
Defined.

(** C4, as stated: the request holds the list of user 2 and of a user 99 that
    does not exist.  The row the ticket had is deleted, but the new list is
    not inserted: the call fails and the ticket is left with no assignee. *)
Lemma update_rejected_list_not_inserted :
  get bad_reassign "assigneeIds" = JArr (map JNum [2; 99])
  /\ assignees_of 1 store0 = [mkAssignee 1 2]
  /\ (update 1 bad_reassign 9 world0).1
     = Err (BadRequestException reference_message)
  /\ assignees_of 1 (store (update 1 bad_reassign 9 world0).2) = []
  /\ assignees_of 1 (store (update 1 bad_reassign 9 world0).2)
     <> map (mkAssignee 1) [2; 99].
Proof.
  split; [reflexivity|]. split; [reflexivity|].
  split; [vm_compute; reflexivity|].
  split; [vm_compute; reflexivity|].
  vm_compute. discriminate.
Qed.

(** *** update: the ticket fields *)

Lemma lookup_copy_if_defined (dto : gmap string JsVal) (k k' : string)
    (m : gmap string JsVal) :
  copy_if_defined dto k m !! k' =
  if bool_decide (k = k') && defined (get dto k)
  then Some (get dto k) else m !! k'.
Proof.
  unfold copy_if_defined. case_bool_decide as Hk; simpl.
  - subst k'. destruct (defined (get dto k)); [apply lookup_insert_eq|reflexivity].
  - destruct (defined (get dto k)); [now apply lookup_insert_ne|reflexivity].
Qed.

Lemma lookup_copy_date_if_truthy (dto : gmap string JsVal) (k k' : string)
    (m : gmap string JsVal) :
  copy_date_if_truthy dto k m !! k' =
  if bool_decide (k = k') && truthy (get dto k)
  then Some (JDate (get dto k)) else m !! k'.
Proof.
  unfold copy_date_if_truthy. case_bool_decide as Hk; simpl.
  - subst k'. destruct (truthy (get dto k)); [apply lookup_insert_eq|reflexivity].
  - destruct (truthy (get dto k)); [now apply lookup_insert_ne|reflexivity].
Qed.

(** Reading a key of the update data: go through the guarded assignments
    from the last to the first. *)
Ltac unfold_updateData :=
  unfold build_updateData;
  repeat (rewrite lookup_copy_if_defined || rewrite lookup_copy_date_if_truthy);
  rewrite lookup_empty.

Ltac lookup_updateData :=
  unfold_updateData;
  repeat (case_bool_decide; try discriminate; try congruence); simpl.

Lemma updateData_plain (dto : gmap string JsVal) (k : string) :
  In k plain_fields ->
  build_updateData dto !! k = if defined (get dto k) then Some (get dto k) else None.
Proof.
  intros Hk.
  repeat (destruct Hk as [<-|Hk]; [lookup_updateData; reflexivity|]). destruct Hk.
Qed.

Lemma updateData_date (dto : gmap string JsVal) (k : string) :
  In k date_fields ->
  build_updateData dto !! k =
  if truthy (get dto k) then Some (JDate (get dto k)) else None.
Proof.
  intros Hk.
  repeat (destruct Hk as [<-|Hk]; [lookup_updateData; reflexivity|]). destruct Hk.
Qed.

Lemma updateData_other (dto : gmap string JsVal) (k : string) :
  ~ In k (plain_fields ++ date_fields) -> build_updateData dto !! k = None.
Proof.
  intros Hk. unfold_updateData.
  repeat (case_bool_decide as E; [subst k; exfalso; apply Hk; simpl; tauto|clear E]).
  reflexivity.
Qed.

Lemma column_plain (dto : gmap string JsVal) (k : string) (old : JsVal) :
  In k plain_fields ->
  column (build_updateData dto) k old =
  if defined (get dto k) then get dto k else old.
Proof.
  intros Hk. unfold column. rewrite updateData_plain by assumption.
  now destruct (get dto k).
Qed.

Lemma column_date (dto : gmap string JsVal) (k : string) (old : JsVal) :
  In k date_fields ->
  column (build_updateData dto) k old =
  if truthy (get dto k) then JDate (get dto k) else old.
Proof.
  intros Hk. unfold column. rewrite updateData_date by assumption.
  now destruct (truthy (get dto k)).
Qed.

Lemma status_column_dto (dto : gmap string JsVal) (old : RepairTicketStatus) :
  status_column (build_updateData dto) old =
  if defined (get dto "status") then status_of_js (get dto "status") else Some old.
Proof.
  unfold status_column. rewrite updateData_plain by (simpl; tauto).
  now destruct (get dto "status").
Qed.

(** The synchronisation of the assignees does not touch the ticket rows. *)
Lemma sync_assignees_tickets (id : Z) (dto : gmap string JsVal) (w : World) :
  repairTickets (store (sync_assignees id dto w).2) = repairTickets (store w).
Proof.
  unfold sync_assignees.
  destruct (get dto "assigneeIds") as [| |b|n| |s|v|l]; simpl; try reflexivity.
  - destruct (bool_decide (s = "")); reflexivity.
  - unfold bind, repairTicketAssignee_deleteMany, repairTicketAssignee_createMany,
      db, ret. simpl.
    destruct (bool_decide (l <> [])); simpl; [|reflexivity].
    destruct (assignee_rows _); [|reflexivity].
    destruct (forallb _ _); reflexivity.
Qed.

(** A successful [update] wrote the row it answers with. *)
Lemma update_success (id : Z) (dto : gmap string JsVal) (actor : Z)
    (w w' : World) (r : TicketWithRelations) :
  update id dto actor w = (Ok r, w') ->
  exists t st,
    find_ticket id (store w) = Some t
    /\ status_column (build_updateData dto) (status t) = Some st
    /\ row r = apply_update (build_updateData dto) st t
    /\ find_ticket id (store w') = Some (row r).
Proof.
  unfold update, try_catch. unfold bind at 1.
  pose proof (sync_assignees_tickets id dto w) as Htickets.
  destruct (sync_assignees id dto w) as [[[]|e] w1]; simpl in Htickets.
  2:{ destruct (update_handler_world id e w1) as [e' ->]. discriminate. }
  assert (Hsame : find_ticket id (store w1) = find_ticket id (store w))
    by (unfold find_ticket; now rewrite Htickets).
  unfold repairTicket_update, db. rewrite Hsame.
  destruct (find_ticket id (store w)) as [t|] eqn:Hfind.
  - destruct (status_column _ (status t)) as [st|] eqn:Hst; [|discriminate].
    intros [= <- <-]. exists t, st.
    split; [reflexivity|]. split; [assumption|]. split; [reflexivity|].
    unfold find_ticket in *. simpl. rewrite Htickets.
    apply (find_replace (fun x => bool_decide (t_id x = id)) _ t); [assumption|].
    apply find_In in Hfind as [_ Hid]. exact Hid.
  - destruct (status_column _ PENDING); discriminate.
Qed.

(** C2, as amended.  [status], [notes], [problemTitle], [problemDescription],
    [location] and [urgency] go into the update data exactly when the request
    holds them with a value other than [undefined], [null] included;
    [scheduledAt] and [completedAt] go into it, as dates, exactly when the
    request holds a truthy value for them; nothing else goes into it.  In a
    successful update every column whose key is not in the update data keeps
    the stored value and every other column takes the value of the update
    data, [null] included; the stored status is the member of the enum that
    the request names.  An update whose status is present but is not a
    member of the enum, [null] included, does not succeed. *)
Theorem update_applies_fields (dto : gmap string JsVal) :
  (forall k, In k plain_fields ->
     build_updateData dto !! k =
     if defined (get dto k) then Some (get dto k) else None)
  /\ (forall k, In k date_fields ->
        build_updateData dto !! k =
        if truthy (get dto k) then Some (JDate (get dto k)) else None)
  /\ (forall k, ~ In k (plain_fields ++ date_fields) ->
        build_updateData dto !! k = None)
  /\ (forall id actor w w' r,
        update id dto actor w = (Ok r, w') ->
        exists t,
          find_ticket id (store w) = Some t
          /\ find_ticket id (store w') = Some (row r)
          /\ (if defined (get dto "status")
              then status_of_js (get dto "status") = Some (status (row r))
              else status (row r) = status t)
          /\ notes (row r)
             = (if defined (get dto "notes") then get dto "notes" else notes t)
          /\ problemTitle (row r)
             = (if defined (get dto "problemTitle")
                then get dto "problemTitle" else problemTitle t)
          /\ problemDescription (row r)
             = (if defined (get dto "problemDescription")
                then get dto "problemDescription" else problemDescription t)
          /\ location (row r)
             = (if defined (get dto "location")
                then get dto "location" else location t)
          /\ urgency (row r)
             = (if defined (get dto "urgency") then get dto "urgency" else urgency t)
          /\ scheduledAt (row r)
             = (if truthy (get dto "scheduledAt")
                then JDate (get dto "scheduledAt") else scheduledAt t)
          /\ completedAt (row r)
             = (if truthy (get dto "completedAt")
                then JDate (get dto "completedAt") else completedAt t)
          /\ cancelledAt (row r) = cancelledAt t
          /\ t_id (row r) = t_id t
          /\ ticketCode (row r) = ticketCode t
          /\ userId (row r) = userId t)
  /\ (forall id actor w,
        defined (get dto "status") = true ->
        status_of_js (get dto "status") = None ->
        forall r w', update id dto actor w <> (Ok r, w')).
Proof.
  split; [apply updateData_plain|].
  split; [apply updateData_date|].
  split; [apply updateData_other|].
  split.
  2:{ intros id actor w Hdef Hnone r w' Hrun.
      apply update_success in Hrun as (t & st & _ & Hst & _).
      rewrite status_column_dto, Hdef, Hnone in Hst. discriminate. }
  intros id actor w w' r Hrun.
  apply update_success in Hrun as (t & st & Hfind & Hst & Hrow & Hstored).
  exists t. split; [assumption|]. split; [assumption|].
  rewrite Hrow. simpl.
  rewrite status_column_dto in Hst.
  rewrite !column_plain by (simpl; tauto).
  rewrite !column_date by (simpl; tauto).
  unfold column. rewrite updateData_other.
  2:{ simpl. intros H. repeat (destruct H as [H|H]; [discriminate|]). destruct H. }
  split.
  { destruct (defined (get dto "status")); congruence. }
  repeat split.
Qed.

Lemma update_applies_fields_witness :
  (exists r w',
     update 1 clear_schedule 9 world0 = (Ok r, w')
     /\ notes (row r) = JNull
     /\ urgency (row r) = JStr "HIGH"
     /\ location (row r) = JStr "Room 101"
     /\ scheduledAt (row r) = JDate (JNum 5000))
  /\ (build_updateData null_status !! "status" = Some JNull
      /\ forall r w', update 1 null_status 9 world0 <> (Ok r, w')).
Proof.
  split.
  2:{ split.
      - rewrite (proj1 (update_applies_fields null_status) "status");
          [reflexivity|now left].
      - apply (proj2 (proj2 (proj2 (proj2 (update_applies_fields null_status))))
                 1 9 world0); reflexivity. }
  destruct (update 1 clear_schedule 9 world0) as [res w'] eqn:Hrun.
  assert (Hres : exists r, res = Ok r).
  { vm_compute in Hrun. injection Hrun as <- _. eauto. }
  destruct Hres as [r ->].
  destruct (proj1 (proj2 (proj2 (proj2 (update_applies_fields clear_schedule))))
              1 9 world0 w' r Hrun)
    as (t & Ht & _ & _ & Hn & _ & _ & Hl & Hu & Hs & _).
  injection Ht as <-.
  exists r, w'. split; [reflexivity|].
  split; [exact Hn|]. split; [exact Hu|]. split; [exact Hl|exact Hs].
Defined.

(** C2, as stated: the request holds [scheduledAt: null] and [notes: null].
    The null note is applied; the null date is not: it does not reach the
    update data and the stored date stays. *)
Lemma update_null_date_not_applied :
  get clear_schedule "scheduledAt" = JNull
  /\ build_updateData clear_schedule !! "scheduledAt" = None
  /\ build_updateData clear_schedule !! "notes" = Some JNull
  /\ exists r w',
       update 1 clear_schedule 9 world0 = (Ok r, w')
       /\ find_ticket 1 (store w') = Some (row r)
       /\ scheduledAt (row r) = JDate (JNum 5000)
       /\ scheduledAt (row r) <> JNull.
Proof.
  split; [reflexivity|]. split; [reflexivity|]. split; [reflexivity|].
  eexists _, _. split; [vm_compute; reflexivity|].
  split; [reflexivity|]. split; [reflexivity|]. discriminate.
Qed.

End RepairsProps.

(** ** The auth service *)
Module AuthProps.
Import Prisma Auth Vocabulary Sample.

Example login_sample :
  (login env0 {| dto_email := "alice@example.com"; dto_password := "wonderland" |}
     world0).1
  = Ok {| r_access_token := "header.payload.signature"; r_userId := 1;
          r_role := USER; r_message := "Login success" |}.
Proof. vm_compute. reflexivity. Qed.

Example lineCallback_new_user :
  r_userId <$> (match (lineCallback env0 (JStr "auth-code") JUndefined
                         {| store := Prisma.set_users store0 [alice; bob] [];
                            trace := [] |}).1 with
                | Ok r => Some r | Err _ => None end)
  = Some 3.
Proof. vm_compute. reflexivity. Qed.

Example lineCallback_number_code :
  (lineCallback env0 (JNum 42) JUndefined world0).1 = Err TypeError.
Proof. reflexivity. Qed.

(** *** login *)

(** C5.  A login with an address no user has and a login with a registered
    address and a password that does not match the stored hash fail with the
    same exception and the same message. *)
Theorem login_failures_indistinguishable (env : Env) (dto1 dto2 : LoginDto)
    (w1 w2 : World) (u : User) :
  List.find (fun x => bool_decide (email x = dto_email dto1)) (users (store w1))
  = None ->
  List.find (fun x => bool_decide (email x = dto_email dto2)) (users (store w2))
  = Some u ->
  bcrypt_compare env (S (length (trace w2))) (dto_password dto2) (password u)
  = false ->
  (login env dto1 w1).1 = Err (UnauthorizedException "Email or password incorrect")
  /\ (login env dto2 w2).1 = (login env dto1 w1).1
  /\ store (login env dto1 w1).2 = store w1
  /\ store (login env dto2 w2).2 = store w2.
Proof.
  intros Hnone Hsome Hwrong.
  unfold login, user_findUnique_email. run.
  rewrite Hnone, Hsome. simpl. rewrite length_app. simpl.
  replace (length (trace w2) + 1)%nat with (S (length (trace w2))) by lia.
  rewrite Hwrong. simpl. auto.
Qed.

Lemma login_failures_indistinguishable_witness :
  (login env0 {| dto_email := "carol@example.com"; dto_password := "wonderland" |}
     world0).1
  = Err (UnauthorizedException "Email or password incorrect")
  /\ (login env0 {| dto_email := "alice@example.com"; dto_password := "guess" |}
        world0).1
     = (login env0 {| dto_email := "carol@example.com"; dto_password := "wonderland" |}
          world0).1.
Proof.
  destruct (login_failures_indistinguishable env0
              {| dto_email := "carol@example.com"; dto_password := "wonderland" |}
              {| dto_email := "alice@example.com"; dto_password := "guess" |}
              world0 world0 alice) as (H1 & H2 & _);
    [reflexivity | reflexivity | reflexivity |].
  split; assumption.
Defined.

(** *** lineCallback *)

(** C10.  A callback whose authorization code is missing or empty (or falsy in
    another way) raises the bad-request error in the world it was called in:
    the store is as before and the trace has no new call, neither to the OAuth
    client nor to the store. *)
Theorem lineCallback_requires_code (env : Env) (code state : JsVal) (w : World) :
  truthy code = false ->
  lineCallback env code state w
  = (Err (BadRequestException "Authorization code is required"), w).
Proof.
  intros H. unfold lineCallback. now rewrite H.
Qed.

Lemma lineCallback_requires_code_witness :
  lineCallback env0 (JStr "") JUndefined world0
  = (Err (BadRequestException "Authorization code is required"), world0)
  /\ lineCallback env0 JUndefined JUndefined world0
     = (Err (BadRequestException "Authorization code is required"), world0).
Proof.
  split; apply lineCallback_requires_code; reflexivity.
Defined.

Lemma find_user_of_row (s : Store) (u : User) :
  In u (users s) ->
  exists u0, find_user (u_id u) s = Some u0 /\ u_id u0 = u_id u.
Proof.
  intros Hin. unfold find_user.
  destruct (find_is_Some (fun x => bool_decide (u_id x = u_id u)) (users s) u Hin)
    as (u0 & Hfind & Hid); [now apply bool_decide_eq_true|].
  exists u0. split; [assumption|]. now apply bool_decide_eq_true in Hid.
Qed.

Lemma replace_keeps_ids (id : Z) (u' : User) (l : list User) :
  u_id u' = id ->
  map u_id (map (fun x => if bool_decide (u_id x = id) then u' else x) l)
  = map u_id l.
Proof.
  intros Hid. induction l as [|a l IH]; simpl; [reflexivity|].
  rewrite IH. case_bool_decide; congruence.
Qed.

(** Step 4b keeps the user's id and creates nothing. *)
Lemma backfill_line_id_existing (user : User) (l : string) (w : World) :
  In user (users (store w)) ->
  exists user' w' evs,
    backfill_line_id user l w = (Ok user', w')
    /\ u_id user' = u_id user
    /\ map u_id (users (store w')) = map u_id (users (store w))
    /\ lineOALinks (store w') = lineOALinks (store w)
    /\ trace w' = trace w ++ evs
    /\ (forall e, In e evs -> e = EvDb User_update).
Proof.
  intros Hin. unfold backfill_line_id.
  destruct (truthy_opt (lineId user)); simpl.
  - exists user, w, []. rewrite app_nil_r. repeat split; auto. intros e [].
  - unfold user_update, db.
    destruct (find_user_of_row _ _ Hin) as (u0 & -> & Hid).
    eexists _, _, [_]. split; [reflexivity|]. simpl.
    split; [assumption|].
    split; [now apply replace_keeps_ids|].
    split; [reflexivity|]. split; [reflexivity|].
    intros e [<-|[]]. reflexivity.
Qed.

(** C7.  When the code is exchanged for a provider user id and a user is
    linked to that id, the callback succeeds with that user's id; the user
    table has the same ids as before, the links are as before, and the calls
    made hold no creation of a user. *)
Theorem lineCallback_existing_user (env : Env) (c : string) (state : JsVal)
    (w : World) (tok : TokenResponse) (u : User) :
  c <> "" ->
  line_exchangeCodeForToken env (length (trace w)) c = Ok tok ->
  List.find (linked_to (user_id tok) (store w)) (users (store w)) = Some u ->
  exists r w' evs,
    lineCallback env (JStr c) state w = (Ok r, w')
    /\ r_userId r = u_id u
    /\ map u_id (users (store w')) = map u_id (users (store w))
    /\ lineOALinks (store w') = lineOALinks (store w)
    /\ trace w' = trace w ++ evs
    /\ ~ In (EvDb User_create) evs.
Proof.
  intros Hc Htok Hfind.
  unfold lineCallback. simpl. rewrite bool_decide_eq_false_2 by assumption. simpl.
  unfold try_catch. unfold bind at 1. unfold call at 1. rewrite Htok.
  unfold bind at 1. unfold user_findFirst_link, db. cbn [store trace].
  rewrite Hfind. unfold bind at 1.
  apply find_In in Hfind as [Hin _].
  destruct (backfill_line_id_existing u (user_id tok)
              {| store := store w;
                 trace := (trace w ++ [EvExchangeCode c]) ++ [EvDb User_findFirst] |}
              Hin)
    as (user' & w1 & evs & -> & Hid & Hids & Hlinks & Htr & Hevs).
  unfold bind, sign, call, ret. simpl in *.
  eexists _, _, ([EvExchangeCode c; EvDb User_findFirst] ++ evs ++ [EvJwtSign]).
  split; [reflexivity|]. simpl.
  split; [assumption|]. split; [assumption|]. split; [assumption|].
  split.
  - rewrite Htr. rewrite <- !app_assoc. reflexivity.
  - intros [H|[H|H]]; try discriminate.
    apply in_app_or in H as [H|[H|[]]]; [|discriminate].
    apply Hevs in H. discriminate.
Qed.

Lemma lineCallback_existing_user_witness :
  exists r w',
    lineCallback env0 (JStr "auth-code") JUndefined world0 = (Ok r, w')
    /\ r_userId r = 1
    /\ map u_id (users (store w')) = [1; 2].
Proof.
  destruct (lineCallback_existing_user env0 "auth-code" JUndefined world0
              {| access_token := "line-token"; user_id := "U100" |} alice)
    as (r & w' & evs & Hrun & Hid & Hids & _);
    [discriminate | reflexivity | reflexivity |].
  exists r, w'. auto.
Defined.

(** *** updateProfile *)

Lemma patched_spread (supplied old : option string) :
  patched supplied old (from_option Some old (spread_if_truthy supplied)).
Proof.
  unfold patched, spread_if_truthy, truthy_opt.
  destruct supplied as [s|]; simpl.
  - case_bool_decide as Hs; simpl.
    + subst s. split; [intros ? [= <-]; congruence|reflexivity].
    + split; [now intros ? [= <-]|]. intros [|[= ->]]; congruence.
  - split; [discriminate|reflexivity].
Qed.

(** C8.  [updateProfile] on an existing user succeeds; each of [name],
    [department], [phoneNumber] and [lineId] takes the supplied value when it
    is a non-empty string and keeps the stored value when nothing or the
    empty string is supplied; the other columns keep their values, and the
    answer is the selection of the stored row. *)
Theorem updateProfile_truthy_fields (userId : Z) (data : ProfileData)
    (w : World) (u : User) :
  find_user userId (store w) = Some u ->
  exists p w' u',
    updateProfile userId data w = (Ok p, w')
    /\ find_user userId (store w') = Some u'
    /\ p = select_profile u'
    /\ patched (d_name data) (Some (u_name u)) (Some (u_name u'))
    /\ patched (d_department data) (department u) (department u')
    /\ patched (d_phoneNumber data) (phoneNumber u) (phoneNumber u')
    /\ patched (d_lineId data) (lineId u) (lineId u')
    /\ u_id u' = u_id u /\ email u' = email u /\ password u' = password u
    /\ role u' = role u /\ u_createdAt u' = u_createdAt u.
Proof.
  intros Hfind. unfold updateProfile, user_update. run. rewrite Hfind.
  eexists _, _, _. split; [reflexivity|]. simpl.
  split.
  { unfold find_user in *. simpl.
    apply (find_replace (fun x => bool_decide (u_id x = userId)) _ u);
      [assumption|].
    apply find_In in Hfind as [_ Hid]. exact Hid. }
  split; [reflexivity|]. simpl.
  split.
  { pose proof (patched_spread (d_name data) (Some (u_name u))) as H.
    unfold spread_if_truthy in *.
    destruct (truthy_opt (d_name data)); [|exact H].
    destruct (d_name data); exact H. }
  repeat split; try apply patched_spread.
Qed.

Lemma updateProfile_truthy_fields_witness :
  exists p w',
    updateProfile 1 new_profile world0 = (Ok p, w')
    /\ pf_name p = "Alice"
    /\ pf_department p = Some "Facilities"
    /\ pf_lineId p = None.
Proof.
  destruct (updateProfile_truthy_fields 1 new_profile world0 alice)
    as (p & w' & u' & Hrun & _ & -> & Hn & Hd & _ & Hl & _); [reflexivity|].
  exists (select_profile u'), w'. split; [exact Hrun|]. simpl.
  destruct Hn as [_ Hn], Hd as [Hd _], Hl as [_ Hl].
  split; [|split].
  - specialize (Hn (or_intror eq_refl)). now injection Hn.
  - apply Hd; [reflexivity|discriminate].
  - apply Hl. now right.
Defined.

End AuthProps.

(** ** The ticket service: further properties *)
Module RepairsExtProps.
Import Prisma PrismaExt Repairs RepairsExt Vocabulary VocabularyExt Sample SampleExt
  RepairsProps.

(** *** sanitizeFilename *)

Lemma replace_unsafe_chars (s : string) (c : ascii) :
  In c (String.list_ascii_of_string (replace_unsafe s)) ->
  safe_char c = true \/ c = "_"%char.
Proof.
  induction s as [|a s IH]; simpl; [tauto|].
  destruct (_ <? 128); [|destruct (_ <? 192); [|destruct (_ <? 240)]]; simpl.
  - intros [<-|H]; [|auto]. destruct (safe_char a) eqn:E; auto.
  - assumption.
  - intros [<-|H]; auto.
  - intros [<-|[<-|H]]; auto.
Qed.

Lemma replace_unsafe_length (s : string) :
  String.length (replace_unsafe s) = utf16_length s.
Proof.
  induction s as [|a s IH]; simpl; [reflexivity|].
  destruct (_ <? 128); [|destruct (_ <? 192); [|destruct (_ <? 240)]]; simpl;
    congruence.
Qed.

Lemma safe_char_ascii (c : ascii) :
  safe_char c = true -> (Z.of_nat (nat_of_ascii c) <? 128) = true.
Proof.
  unfold safe_char. intros H. apply Z.ltb_lt.
  repeat (apply orb_true_iff in H as [H|H]);
    rewrite ?andb_true_iff, ?Z.leb_le, ?Z.eqb_eq in H; lia.
Qed.

Lemma replace_unsafe_safe (s : string) :
  (forall c, In c (String.list_ascii_of_string s) -> safe_char c = true) ->
  replace_unsafe s = s.
Proof.
  induction s as [|a s IH]; simpl; intros H; [reflexivity|].
  rewrite (safe_char_ascii a), (H a) by auto. f_equal. auto.
Qed.

Example sanitize_thai : replace_unsafe "รูป.png" = "___.png".
Proof. reflexivity. Qed.

Example sanitize_emoji : replace_unsafe "a😀b" = "a__b".
Proof. reflexivity. Qed.

(** X1.  Whatever the name of the uploaded file, every character of the
    sanitized name is a letter, a digit, a dot, a hyphen or an underscore, so
    the name holds no slash and no backslash; it has as many characters as
    the base name it was made from has UTF-16 code units, and a base name of
    safe characters is kept as it is. *)
Theorem sanitizeFilename_alphabet (env : Env) (filename : string) :
  (forall c, In c (String.list_ascii_of_string (sanitizeFilename env filename)) ->
     (safe_char c = true \/ c = "_"%char)
     /\ c <> "/"%char /\ c <> "\"%char)
  /\ String.length (sanitizeFilename env filename)
     = utf16_length (path_basename env filename)
  /\ ((forall c, In c (String.list_ascii_of_string (path_basename env filename)) ->
         safe_char c = true) ->
      sanitizeFilename env filename = path_basename env filename).
Proof.
  unfold sanitizeFilename. split; [|split].
  - intros c Hc. apply replace_unsafe_chars in Hc. split; [assumption|].
    split; intros ->; destruct Hc as [Hc|Hc]; discriminate.
  - apply replace_unsafe_length.
  - apply replace_unsafe_safe.
Qed.

(** *** create *)

(** What a successful run of the upload loop added: one entry for some of the
    files, each made from a file that passed validation. *)
Lemma upload_files_added (env : Env) (files : list File) acc w l w' :
  upload_files env files acc w = (Ok l, w') ->
  exists added,
    l = acc ++ added
    /\ forall a, In a added ->
         exists f, In f files /\ valid_file f = true
           /\ ai_filename a = sanitizeFilename env (originalname f)
           /\ ai_fileSize a = size f
           /\ ai_mimeType a = mimetype f.
Proof.
  revert acc w. induction files as [|f files IH]; intros acc w.
  - simpl. intros [= <- <-]. exists []. rewrite app_nil_r. split; [reflexivity|].
    intros a [].
  - simpl. unfold bind at 1, try_catch. unfold bind at 1.
    destruct (valid_file f) eqn:Hv.
    + rewrite validate_and_upload_valid by assumption.
      destruct (cloudinary_uploadFile _ _ _ _ _) as [url|e]; simpl.
      * intros H. apply IH in H as (added & -> & Hadded).
        eexists (_ :: added). rewrite <- app_assoc. split; [reflexivity|].
        intros a [<-|Ha].
        -- exists f. simpl. auto.
        -- destruct (Hadded a Ha) as (g & Hg & Hrest). exists g. simpl. auto.
      * destruct (is_BadRequestException e); simpl; [discriminate|].
        intros H. apply IH in H as (added & -> & Hadded).
        exists added. split; [reflexivity|].
        intros a Ha. destruct (Hadded a Ha) as (g & Hg & Hrest).
        exists g. simpl. auto.
    + destruct (validate_and_upload_invalid env f w Hv) as [msg ->]. discriminate.
Qed.

Lemma upload_block_store (env : Env) (files : option (list File)) (w : World) :
  store (upload_block env files w).2 = store w.
Proof. rewrite upload_block_loop. apply upload_files_store. Qed.

(** The run of [create], step by step. *)
Lemma create_run (env : Env) (userId : Z) (dto : gmap string JsVal)
    (files : option (list File)) (w : World) :
  match upload_block env files {| store := store w; trace := trace w ++ [EvClock] |} with
  | (Err e, w1) => create env userId dto files w = (Err e, w1)
  | (Ok atts, w1) =>
      exists v tr,
        create env userId dto files w =
        repairTicket_create env
          {| ci_ticketCode := "REP-" +:+ pretty (clock env (length (trace w)));
             ci_reporterName := get dto "reporterName";
             ci_reporterDepartment := js_or (get dto "reporterDepartment") JNull;
             ci_reporterPhone := js_or (get dto "reporterPhone") JNull;
             ci_reporterLineId := js_or (get dto "reporterLineId") JNull;
             ci_problemCategory := get dto "problemCategory";
             ci_problemTitle := get dto "problemTitle";
             ci_problemDescription := js_or (get dto "problemDescription") JNull;
             ci_location := get dto "location";
             ci_urgency := js_or (get dto "urgency") (JStr "NORMAL");
             ci_userId := userId;
             ci_notes := js_or (get dto "notes") JNull;
             ci_scheduledAt := v;
             ci_attachments := atts |}
          {| store := store w; trace := tr |}
        /\ (truthy (get dto "scheduledAt") = true ->
            v = JDate (get dto "scheduledAt") /\ tr = trace w1)
  end.
Proof.
  pose proof (upload_block_store env files
                {| store := store w; trace := trace w ++ [EvClock] |}) as Hs.
  destruct (upload_block env files _) as [[atts|e] w1] eqn:Hub.
  - simpl in Hs. destruct w1 as [s1 tr1]. simpl in Hs. subst s1.
    unfold create. unfold bind at 1. unfold call at 1. unfold bind at 1.
    cbn [store trace]. rewrite Hub. unfold bind at 1.
    destruct (truthy (get dto "scheduledAt")).
    + unfold ret at 1. eexists _, _. split; [reflexivity|]. auto.
    + unfold bind at 1. unfold call at 1. unfold ret at 1. simpl.
      eexists _, _. split; [reflexivity|]. discriminate.
  - unfold create. unfold bind at 1. unfold call at 1. unfold bind at 1.
    cbn [store trace]. now rewrite Hub.
Qed.

(** X2.  A [create] that fails, for whatever reason, leaves the store as it
    was: no ticket and no attachment row is written. *)
Theorem create_failure_writes_nothing (env : Env) (userId : Z)
    (dto : gmap string JsVal) (files : option (list File))
    (w w' : World) (e : Exn) :
  create env userId dto files w = (Err e, w') ->
  store w' = store w.
Proof.
  pose proof (create_run env userId dto files w) as Hrun.
  pose proof (upload_block_store env files
                {| store := store w; trace := trace w ++ [EvClock] |}) as Hs.
  destruct (upload_block env files _) as [[atts|e1] w1].
  - destruct Hrun as (v & tr & -> & _).
    unfold repairTicket_create, db. simpl.
    destruct (code_taken _ _); [now intros [= _ <-]|].
    destruct (find_user userId (store w)); [discriminate|now intros [= _ <-]].
  - rewrite Hrun. intros [= _ <-]. exact Hs.
Qed.

Lemma create_failure_writes_nothing_witness :
  store (create env0 1 report (Some [photo; document]) world0).2 = store0
  /\ store (create env0 77 report None world0).2 = store0.
Proof.
  split.
  - destruct (create env0 1 report (Some [photo; document]) world0) as [r w'] eqn:H.
    assert (He : exists e, r = Err e).
    { vm_compute in H. injection H as <- _. eauto. }
    destruct He as [e ->].
    exact (create_failure_writes_nothing env0 1 report _ world0 w' e H).
  - destruct (create env0 77 report None world0) as [r w'] eqn:H.
    assert (He : exists e, r = Err e).
    { vm_compute in H. injection H as <- _. eauto. }
    destruct He as [e ->].
    exact (create_failure_writes_nothing env0 77 report _ world0 w' e H).
Defined.

Lemma upload_files_at_most (env : Env) (files : list File) acc w l w' :
  upload_files env files acc w = (Ok l, w') ->
  (length l <= length acc + length files)%nat.
Proof.
  revert acc w. induction files as [|f files IH]; intros acc w.
  - simpl. intros [= <- <-]. lia.
  - simpl. unfold bind at 1, try_catch. unfold bind at 1.
    destruct (valid_file f) eqn:Hv.
    + rewrite validate_and_upload_valid by assumption.
      destruct (cloudinary_uploadFile _ _ _ _ _) as [url|e]; simpl.
      * intros H. apply IH in H. rewrite length_snoc in H. lia.
      * destruct (is_BadRequestException e); simpl; [discriminate|].
        intros H. apply IH in H. lia.
    + destruct (validate_and_upload_invalid env f w Hv) as [msg ->]. discriminate.
Qed.

(** A successful [create], read backwards. *)
Lemma create_success (env : Env) (caller : Z) (dto : gmap string JsVal)
    (files : option (list File)) (w w' : World) (t : RepairTicket) :
  create env caller dto files w = (Ok t, w') ->
  exists atts,
    (forall a, In a atts ->
       exists f, In f (files_of files) /\ valid_file f = true
         /\ ai_filename a = sanitizeFilename env (originalname f)
         /\ ai_fileSize a = size f
         /\ ai_mimeType a = mimetype f)
    /\ (length atts <= length (files_of files))%nat
    /\ code_taken ("REP-" +:+ pretty (clock env (length (trace w)))) (store w) = false
    /\ is_Some (find_user caller (store w))
    /\ t_id t = fresh_id (map t_id (repairTickets (store w)))
    /\ ticketCode t = "REP-" +:+ pretty (clock env (length (trace w)))
    /\ userId t = caller
    /\ status t = default_status env
    /\ urgency t = js_or (get dto "urgency") (JStr "NORMAL")
    /\ store w' =
       {| users := users (store w);
          lineOALinks := lineOALinks (store w);
          repairTickets := repairTickets (store w) ++ [t];
          attachments :=
            attachments (store w) ++ map (attachment_row (t_id t)) atts;
          repairTicketAssignees := repairTicketAssignees (store w) |}.
Proof.
  pose proof (create_run env caller dto files w) as Hrun.
  destruct (upload_block env files _) as [[atts|e1] w1] eqn:Hub.
  2:{ rewrite Hrun. discriminate. }
  destruct Hrun as (v & tr & -> & _).
  rewrite upload_block_loop in Hub.
  pose proof (upload_files_added _ _ _ _ _ _ Hub) as (added & Hl & Hadded).
  pose proof (upload_files_at_most _ _ _ _ _ _ Hub) as Hlen.
  simpl in Hl, Hlen. subst added.
  unfold repairTicket_create, db. simpl.
  destruct (code_taken _ _) eqn:Hcode; [discriminate|].
  destruct (find_user caller (store w)) as [o|] eqn:Ho; [|discriminate].
  intros [= <- <-]. exists atts. simpl.
  repeat split; eauto.
Qed.

(** X3.  Every attachment row a successful [create] writes belongs to the new
    ticket and comes from one of the uploaded files: it has that file's MIME
    type, which is on the allow-list, that file's size, which is at most 5MB,
    and that file's sanitized name; there are at most as many rows as files,
    and the attachment rows that were there before are kept. *)
Theorem create_attachment_rows (env : Env) (caller : Z) (dto : gmap string JsVal)
    (files : option (list File)) (w w' : World) (t : RepairTicket) :
  create env caller dto files w = (Ok t, w') ->
  exists rows,
    attachments (store w') = attachments (store w) ++ rows
    /\ (length rows <= length (files_of files))%nat
    /\ forall a, In a rows ->
         att_repairTicketId a = t_id t
         /\ includes ALLOWED_MIME_TYPES (mimeType a) = true
         /\ fileSize a <= MAX_FILE_SIZE
         /\ exists f, In f (files_of files)
              /\ filename a = sanitizeFilename env (originalname f)
              /\ mimeType a = mimetype f
              /\ fileSize a = size f.
Proof.
  intros H. apply create_success in H
    as (atts & Hatts & Hlen & _ & _ & _ & _ & _ & _ & _ & ->).
  eexists. split; [reflexivity|]. rewrite length_map. split; [assumption|].
  intros a Ha. apply in_map_iff in Ha as (x & <- & Hx). simpl.
  destruct (Hatts x Hx) as (f & Hf & Hv & Hn & Hs & Hm).
  unfold valid_file in Hv. apply andb_true_iff in Hv as [Hmime Hsize].
  apply Z.leb_le in Hsize.
  split; [reflexivity|]. rewrite Hm, Hs. split; [assumption|].
  split; [assumption|]. exists f. auto.
Qed.

Lemma create_attachment_rows_witness :
  exists t w' rows,
    create env0 1 report (Some [photo; broken]) world0 = (Ok t, w')
    /\ attachments (store w') = attachments store0 ++ rows
    /\ forall a, In a rows -> fileSize a <= MAX_FILE_SIZE.
Proof.
  destruct (create env0 1 report (Some [photo; broken]) world0) as [r w'] eqn:H.
  assert (Hr : exists t, r = Ok t).
  { vm_compute in H. injection H as <- _. eauto. }
  destruct Hr as [t ->].
  destruct (create_attachment_rows env0 1 report _ world0 w' t H)
    as (rows & Hrows & _ & Hall).
  exists t, w', rows. split; [reflexivity|]. split; [exact Hrows|].
  intros a Ha. apply (Hall a Ha).
Defined.

Lemma find_app_new {A} (p : A -> bool) (l : list A) (x : A) :
  (forall y, In y l -> p y = false) -> p x = true ->
  List.find p (l ++ [x]) = Some x.
Proof.
  intros Hl Hx. induction l as [|a l IH]; simpl.
  - now rewrite Hx.
  - rewrite (Hl a) by (now left). apply IH. intros y Hy. apply Hl. now right.
Qed.

(** X4.  The ticket a successful [create] answers with is appended to the
    ticket table, whose old rows stay as they are; its id is above every id
    that was in use and its code is the prefix REP- followed by the reading
    of the clock at the start of the call, a code no earlier ticket has; its
    owner is the caller, who exists; its urgency is the requested one, or
    NORMAL when that is missing or falsy.  Users, links and assignee rows are
    left alone. *)
Theorem create_new_ticket (env : Env) (caller : Z) (dto : gmap string JsVal)
    (files : option (list File)) (w w' : World) (t : RepairTicket) :
  create env caller dto files w = (Ok t, w') ->
  repairTickets (store w') = repairTickets (store w) ++ [t]
  /\ (forall t0, In t0 (repairTickets (store w)) ->
        t_id t0 < t_id t /\ ticketCode t0 <> ticketCode t)
  /\ ticketCode t = "REP-" +:+ pretty (clock env (length (trace w)))
  /\ userId t = caller
  /\ is_Some (find_user caller (store w))
  /\ urgency t = (if truthy (get dto "urgency")
                  then get dto "urgency" else JStr "NORMAL")
  /\ status t = default_status env
  /\ users (store w') = users (store w)
  /\ lineOALinks (store w') = lineOALinks (store w)
  /\ repairTicketAssignees (store w') = repairTicketAssignees (store w).
Proof.
  intros H. apply create_success in H
    as (atts & _ & _ & Hcode & Howner & Hid & Hc & Hu & Hst & Hurg & ->).
  simpl. split; [reflexivity|]. split.
  { intros t0 Ht0. split.
    - rewrite Hid. apply fresh_id_above. now apply in_map.
    - rewrite Hc. intros Heq. unfold code_taken in Hcode.
      assert (existsb (fun x => bool_decide (ticketCode x = "REP-" +:+ pretty
                (clock env (length (trace w))))) (repairTickets (store w)) = true).
      { apply existsb_exists. exists t0. split; [assumption|].
        now apply bool_decide_eq_true. }
      congruence. }
  repeat split; auto.
Qed.

Lemma create_new_ticket_witness :
  exists t w',
    create env0 2 report None world0 = (Ok t, w')
    /\ repairTickets (store w') = [printer; projector; t]
    /\ userId t = 2.
Proof.
  destruct (create env0 2 report None world0) as [r w'] eqn:H.
  assert (Hr : exists t, r = Ok t).
  { vm_compute in H. injection H as <- _. eauto. }
  destruct Hr as [t ->].
  destruct (create_new_ticket env0 2 report None world0 w' t H)
    as (Hrows & _ & _ & Hu & _).
  exists t, w'. split; [reflexivity|]. split; [exact Hrows|exact Hu].
Defined.

(** *** findOne and findByCode *)

Section Lookup.
Context {Log : Type} (logs : Store -> Z -> list Log).

Lemma with_details_relations (s : Store) (t : RepairTicket) :
  (forall a, In a (d_attachments (with_details logs s t)) ->
     att_repairTicketId a = t_id t /\ In a (attachments s))
  /\ (forall a u, In (a, u) (d_assignees (with_details logs s t)) ->
        a_repairTicketId a = t_id t /\ In a (repairTicketAssignees s)
        /\ u = find_user (a_userId a) s).
Proof.
  split.
  - intros a Ha. simpl in Ha. apply filter_In in Ha as [Hin Hid].
    apply bool_decide_eq_true in Hid. auto.
  - intros a u Ha. simpl in Ha. apply in_map_iff in Ha as (x & [= <- <-] & Hx).
    apply filter_In in Hx as [Hin Hid]. apply bool_decide_eq_true in Hid. auto.
Qed.

Lemma with_details_exact (s : Store) (t : RepairTicket) :
  d_attachments (with_details logs s t) = attachments_of (t_id t) s
  /\ map fst (d_assignees (with_details logs s t)) = assignees_of (t_id t) s
  /\ (forall a, In a (d_attachments (with_details logs s t)) <->
        In a (attachments s) /\ att_repairTicketId a = t_id t)
  /\ (forall a u, In (a, u) (d_assignees (with_details logs s t)) <->
        In a (repairTicketAssignees s) /\ a_repairTicketId a = t_id t
        /\ u = find_user (a_userId a) s).
Proof.
  split; [reflexivity|]. split.
  { simpl. rewrite map_map. simpl. apply map_id. }
  split.
  - intros a. simpl. unfold attachments_of. rewrite filter_In.
    now rewrite bool_decide_eq_true.
  - intros a u. simpl. rewrite in_map_iff. unfold assignees_of. split.
    + intros (x & [= <- <-] & Hx). apply filter_In in Hx as [Hin Hid].
      apply bool_decide_eq_true in Hid. auto.
    + intros (Hin & Hid & ->). exists a. split; [reflexivity|].
      apply filter_In. split; [assumption|]. now apply bool_decide_eq_true.
Qed.

(** X5.  [findOne] writes nothing.  When it answers, the ticket has the id
    that was asked for and is a row of the store, and the answer holds the
    owner of the ticket, exactly the attachment rows of that ticket, exactly
    its assignee rows, each with its user, and the log rows of the ticket.
    When it fails, the error is the not-found error naming the id, and no
    ticket of the store has that id. *)
Theorem findOne_lookup (id : Z) (w : World) :
  (findOne logs id w).2 = w
  /\ (forall d, (findOne logs id w).1 = Ok d ->
        t_id (d_row d) = id
        /\ In (d_row d) (repairTickets (store w))
        /\ d_user d = find_user (userId (d_row d)) (store w)
        /\ d_attachments d = attachments_of id (store w)
        /\ map fst (d_assignees d) = assignees_of id (store w)
        /\ d_logs d = logs (store w) id
        /\ (forall a, In a (d_attachments d) <->
              In a (attachments (store w)) /\ att_repairTicketId a = id)
        /\ (forall a u, In (a, u) (d_assignees d) <->
              In a (repairTicketAssignees (store w)) /\ a_repairTicketId a = id
              /\ u = find_user (a_userId a) (store w)))
  /\ (forall e, (findOne logs id w).1 = Err e ->
        e = NotFoundException ("Repair ticket #" +:+ pretty id +:+ " not found")
        /\ forall t, In t (repairTickets (store w)) -> t_id t <> id).
Proof.
  unfold findOne, repairTicket_findUnique_id. run. unfold find_ticket.
  destruct (List.find _ (repairTickets (store w))) as [t|] eqn:Hfind; simpl.
  - split; [reflexivity|]. split; [|discriminate].
    intros d [= <-]. apply find_In in Hfind as [Hin Hid].
    apply bool_decide_eq_true in Hid.
    destruct (with_details_exact (store w) t) as (Ha & Hb & Hc & Hd).
    rewrite <- Hid.
    split; [reflexivity|]. split; [assumption|]. split; [reflexivity|].
    split; [exact Ha|]. split; [exact Hb|]. split; [reflexivity|].
    split; [exact Hc|exact Hd].
  - split; [reflexivity|]. split; [discriminate|].
    intros e [= <-]. split; [reflexivity|].
    intros t Ht Hid. pose proof (find_none _ _ Hfind t Ht) as Hf. simpl in Hf.
    apply bool_decide_eq_false in Hf. contradiction.
Qed.

(** X6.  [findByCode] writes nothing.  When it answers, the ticket has the
    code that was asked for and is a row of the store, and the answer holds
    the owner of the ticket, exactly the attachment rows of that ticket,
    exactly its assignee rows, each with its user, and the log rows of the
    ticket.  When it fails, the error is the not-found error naming the code,
    and no ticket of the store has that code. *)
Theorem findByCode_lookup (c : string) (w : World) :
  (findByCode logs c w).2 = w
  /\ (forall d, (findByCode logs c w).1 = Ok d ->
        ticketCode (d_row d) = c
        /\ In (d_row d) (repairTickets (store w))
        /\ d_user d = find_user (userId (d_row d)) (store w)
        /\ d_attachments d = attachments_of (t_id (d_row d)) (store w)
        /\ map fst (d_assignees d) = assignees_of (t_id (d_row d)) (store w)
        /\ d_logs d = logs (store w) (t_id (d_row d))
        /\ (forall a, In a (d_attachments d) <->
              In a (attachments (store w))
              /\ att_repairTicketId a = t_id (d_row d))
        /\ (forall a u, In (a, u) (d_assignees d) <->
              In a (repairTicketAssignees (store w))
              /\ a_repairTicketId a = t_id (d_row d)
              /\ u = find_user (a_userId a) (store w)))
  /\ (forall e, (findByCode logs c w).1 = Err e ->
        e = NotFoundException ("Ticket " +:+ c +:+ " not found")
        /\ forall t, In t (repairTickets (store w)) -> ticketCode t <> c).
Proof.
  unfold findByCode, repairTicket_findUnique_code. run.
  destruct (List.find _ (repairTickets (store w))) as [t|] eqn:Hfind; simpl.
  - split; [reflexivity|]. split; [|discriminate].
    intros d [= <-]. apply find_In in Hfind as [Hin Hid].
    apply bool_decide_eq_true in Hid.
    destruct (with_details_exact (store w) t) as (Ha & Hb & Hc & Hd).
    split; [assumption|]. split; [assumption|]. split; [reflexivity|].
    split; [exact Ha|]. split; [exact Hb|]. split; [reflexivity|].
    split; [exact Hc|exact Hd].
  - split; [reflexivity|]. split; [discriminate|].
    intros e [= <-]. split; [reflexivity|].
    intros t Ht Hid. pose proof (find_none _ _ Hfind t Ht) as Hf. simpl in Hf.
    apply bool_decide_eq_false in Hf. contradiction.
Qed.

(** X7.  After a successful [create], [findOne] with the id of the new ticket
    and [findByCode] with its code both answer with that ticket, its owner
    and, when every attachment row of the store belonged to a ticket, exactly
    the attachment rows the call wrote. *)
Theorem create_then_find (env : Env) (caller : Z) (dto : gmap string JsVal)
    (files : option (list File)) (w w' : World) (t : RepairTicket) :
  create env caller dto files w = (Ok t, w') ->
  exists d,
    findOne logs (t_id t) w' = (Ok d, w')
    /\ findByCode logs (ticketCode t) w' = (Ok d, w')
    /\ d_row d = t
    /\ (exists o, d_user d = Some o /\ u_id o = caller)
    /\ (attachments_reference_tickets (store w) ->
        attachments (store w') = attachments (store w) ++ d_attachments d).
Proof.
  intros H. pose proof (create_success _ _ _ _ _ _ _ H)
    as (atts & _ & _ & Hcode & [o Ho] & Hid & Hc & Hu & _ & _ & Hstore).
  exists (with_details logs (store w') t).
  assert (Hfind : find_ticket (t_id t) (store w') = Some t).
  { rewrite Hstore. unfold find_ticket. simpl. apply find_app_new.
    - intros y Hy. apply bool_decide_eq_false.
      pose proof (fresh_id_above (map t_id (repairTickets (store w))) (t_id y)
                    (in_map _ _ _ Hy)). lia.
    - now apply bool_decide_eq_true. }
  assert (Hfindc : List.find (fun x => bool_decide (ticketCode x = ticketCode t))
                     (repairTickets (store w')) = Some t).
  { rewrite Hstore. simpl. apply find_app_new.
    - intros y Hy. rewrite Hc. unfold code_taken in Hcode.
      destruct (bool_decide _) eqn:E; [|reflexivity].
      assert (existsb (fun x => bool_decide (ticketCode x = "REP-" +:+ pretty
                (clock env (length (trace w))))) (repairTickets (store w)) = true)
        by (apply existsb_exists; eauto).
      congruence.
    - now apply bool_decide_eq_true. }
  split.
  { unfold findOne, repairTicket_findUnique_id. run. now rewrite Hfind. }
  split.
  { unfold findByCode, repairTicket_findUnique_code. run. now rewrite Hfindc. }
  split; [reflexivity|]. split.
  { exists o. simpl. rewrite Hu. rewrite Hstore. unfold find_user in *. simpl.
    split; [assumption|].
    apply find_In in Ho as [_ Ho]. now apply bool_decide_eq_true in Ho. }
  intros Href. simpl. rewrite Hstore at 1. simpl. f_equal.
  rewrite Hstore. unfold attachments_of. simpl.
  rewrite filter_app_list, filter_none, filter_all; [reflexivity| |].
  - intros a Ha. apply in_map_iff in Ha as (x & <- & _).
    now apply bool_decide_eq_true.
  - intros a Ha. apply bool_decide_eq_false.
    destruct (Href a Ha) as (t0 & Ht0 & <-).
    pose proof (fresh_id_above (map t_id (repairTickets (store w)))
                  (t_id t0) (in_map _ _ _ Ht0)).
    lia.
Qed.

End Lookup.

Lemma findOne_lookup_witness :
  (exists d, (findOne no_logs 1 world0).1 = Ok d /\ t_id (d_row d) = 1
             /\ map fst (d_assignees d) = [mkAssignee 1 2])
  /\ (findOne no_logs 7 world0).1
     = Err (NotFoundException "Repair ticket #7 not found").
Proof.
  split.
  - destruct (findOne no_logs 1 world0).1 as [d|e] eqn:H; [|discriminate].
    destruct (proj1 (proj2 (findOne_lookup no_logs 1 world0)) d H)
      as (Hid & _ & _ & _ & Has & _).
    exists d. split; [reflexivity|]. split; [exact Hid|exact Has].
  - destruct (findOne no_logs 7 world0).1 as [d|e] eqn:H; [discriminate|].
    f_equal. apply (proj2 (proj2 (findOne_lookup no_logs 7 world0)) e H).
Defined.

Lemma findByCode_lookup_witness :
  (exists d, (findByCode no_logs "REP-1000" world0).1 = Ok d
             /\ ticketCode (d_row d) = "REP-1000"
             /\ d_user d = find_user (userId (d_row d)) store0)
  /\ (findByCode no_logs "REP-1" world0).1
     = Err (NotFoundException "Ticket REP-1 not found").
Proof.
  split.
  - destruct (findByCode no_logs "REP-1000" world0).1 as [d|e] eqn:H; [|discriminate].
    destruct (proj1 (proj2 (findByCode_lookup no_logs "REP-1000" world0)) d H)
      as (Hc & _ & Hu & _).
    exists d. split; [reflexivity|]. split; [exact Hc|exact Hu].
  - destruct (findByCode no_logs "REP-1" world0).1 as [d|e] eqn:H; [discriminate|].
    f_equal. apply (proj2 (proj2 (findByCode_lookup no_logs "REP-1" world0)) e H).
Defined.

Lemma create_then_find_witness :
  exists t w' d,
    create env0 1 report (Some [photo]) world0 = (Ok t, w')
    /\ findOne no_logs (t_id t) w' = (Ok d, w')
    /\ d_row d = t
    /\ attachments (store w') = d_attachments d.
Proof.
  destruct (create env0 1 report (Some [photo]) world0) as [r w'] eqn:H.
  assert (Hr : exists t, r = Ok t).
  { vm_compute in H. injection H as <- _. eauto. }
  destruct Hr as [t ->].
  destruct (create_then_find no_logs env0 1 report _ world0 w' t H)
    as (d & Hone & _ & Hrow & _ & Hatt).
  exists t, w', d. split; [reflexivity|]. split; [exact Hone|].
  split; [exact Hrow|]. apply Hatt. intros a [].
Defined.

(** *** update: errors and frame *)

Lemma assignee_rows_ticket (id : Z) (l : list JsVal) rows :
  assignee_rows (map (fun userId => (id, userId)) l) = Some rows ->
  forall a, In a rows -> a_repairTicketId a = id.
Proof.
  revert rows. induction l as [|v l IH]; simpl; intros rows.
  - intros [= <-] a [].
  - destruct v; try discriminate.
    destruct (assignee_rows _) as [rest|]; [|discriminate].
    intros [= <-] a [<-|Ha]; [reflexivity|]. eapply IH; eauto.
Qed.

(** The synchronisation step touches the assignee rows of its ticket only. *)
Lemma sync_assignees_frame (id : Z) (dto : gmap string JsVal) (w : World) :
  users (store (sync_assignees id dto w).2) = users (store w)
  /\ lineOALinks (store (sync_assignees id dto w).2) = lineOALinks (store w)
  /\ repairTickets (store (sync_assignees id dto w).2) = repairTickets (store w)
  /\ attachments (store (sync_assignees id dto w).2) = attachments (store w)
  /\ forall j, j <> id ->
       assignees_of j (store (sync_assignees id dto w).2) = assignees_of j (store w).
Proof.
  assert (Hdel : forall j, j <> id ->
    List.filter (fun a => bool_decide (a_repairTicketId a = j))
      (List.filter (fun a => negb (bool_decide (a_repairTicketId a = id)))
         (repairTicketAssignees (store w)))
    = assignees_of j (store w)).
  { intros j Hj. apply filter_filter_other. intros a Ha.
    apply bool_decide_eq_true in Ha. apply bool_decide_eq_false. congruence. }
  unfold sync_assignees.
  destruct (get dto "assigneeIds") as [| |b|n| |s|v|l]; simpl;
    try (repeat split; auto; fail).
  - destruct (bool_decide (s = "")); simpl; repeat split; auto.
  - unfold bind, repairTicketAssignee_deleteMany, repairTicketAssignee_createMany,
      db, ret. simpl.
    destruct (bool_decide (l <> [])); simpl; [|repeat split; auto].
    destruct (assignee_rows _) as [rows|] eqn:Hrows; simpl;
      [|repeat split; auto].
    destruct (forallb _ _); simpl; repeat split; auto.
    intros j Hj. unfold assignees_of. simpl. rewrite filter_app_list, Hdel by auto.
    rewrite filter_none; [apply app_nil_r|].
    intros a Ha. apply bool_decide_eq_false.
    rewrite (assignee_rows_ticket _ _ _ Hrows a Ha). congruence.
Qed.

Lemma find_replace_other {A} (p q : A -> bool) (l : list A) (y : A) :
  (forall a, q a = true -> p a = false) -> p y = false ->
  List.find p (map (fun a => if q a then y else a) l) = List.find p l.
Proof.
  intros Hq Hy. induction l as [|a l IH]; simpl; [reflexivity|].
  destruct (q a) eqn:E.
  - rewrite Hy, (Hq a E). assumption.
  - destruct (p a); [reflexivity|assumption].
Qed.

Lemma repairTicket_update_frame (id : Z) (data : gmap string JsVal) (w : World) :
  users (store (repairTicket_update id data w).2) = users (store w)
  /\ lineOALinks (store (repairTicket_update id data w).2) = lineOALinks (store w)
  /\ attachments (store (repairTicket_update id data w).2) = attachments (store w)
  /\ repairTicketAssignees (store (repairTicket_update id data w).2)
     = repairTicketAssignees (store w)
  /\ map t_id (repairTickets (store (repairTicket_update id data w).2))
     = map t_id (repairTickets (store w))
  /\ forall j, j <> id ->
       find_ticket j (store (repairTicket_update id data w).2)
       = find_ticket j (store w).
Proof.
  unfold repairTicket_update, db. simpl.
  destruct (find_ticket id (store w)) as [t|] eqn:Hfind;
    destruct (status_column data _) as [st|]; simpl; try (repeat split; auto; fail).
  assert (Hid : t_id t = id).
  { unfold find_ticket in Hfind. apply find_In in Hfind as [_ Hid].
    now apply bool_decide_eq_true in Hid. }
  repeat split; auto.
  - rewrite map_map. apply map_ext_in. intros a _.
    case_bool_decide; [simpl; congruence|reflexivity].
  - intros j Hj. unfold find_ticket. simpl.
    apply (find_replace_other (fun x => bool_decide (t_id x = j))
             (fun x => bool_decide (t_id x = id))).
    + intros a Ha. apply bool_decide_eq_true in Ha.
      apply bool_decide_eq_false. congruence.
    + apply bool_decide_eq_false. simpl. congruence.
Qed.

(** The world [update] leaves is the one of its last store call. *)
Lemma update_world (id : Z) (dto : gmap string JsVal) (actor : Z) (w : World) :
  store (update id dto actor w).2
  = match sync_assignees id dto w with
    | (Ok _, w1) => store (repairTicket_update id (build_updateData dto) w1).2
    | (Err _, w1) => store w1
    end.
Proof.
  unfold update, try_catch. unfold bind at 1.
  destruct (sync_assignees id dto w) as [[[]|e] w1]; simpl.
  - destruct (repairTicket_update id (build_updateData dto) w1) as [[r|e] w2];
      simpl; [reflexivity|].
    now destruct (update_handler_world id e w2) as [e' ->].
  - now destruct (update_handler_world id e w1) as [e' ->].
Qed.

(** X8.  Whatever the request and whether it succeeds or not, an [update] of
    one ticket leaves every other ticket as it is: its row and its assignee
    rows; it adds and removes no ticket row, and it leaves users, links and
    attachments alone. *)
Theorem update_touches_one_ticket (id : Z) (dto : gmap string JsVal) (actor : Z)
    (w : World) :
  (forall j, j <> id ->
     find_ticket j (store (update id dto actor w).2) = find_ticket j (store w)
     /\ assignees_of j (store (update id dto actor w).2) = assignees_of j (store w))
  /\ map t_id (repairTickets (store (update id dto actor w).2))
     = map t_id (repairTickets (store w))
  /\ users (store (update id dto actor w).2) = users (store w)
  /\ lineOALinks (store (update id dto actor w).2) = lineOALinks (store w)
  /\ attachments (store (update id dto actor w).2) = attachments (store w).
Proof.
  rewrite update_world.
  pose proof (sync_assignees_frame id dto w) as (Hu & Hl & Ht & Ha & Has).
  destruct (sync_assignees id dto w) as [[[]|e] w1]; simpl in *.
  - pose proof (repairTicket_update_frame id (build_updateData dto) w1)
      as (Hu' & Hl' & Ha' & Has' & Hids & Hfind).
    split.
    + intros j Hj. split.
      * rewrite (Hfind j Hj). unfold find_ticket. now rewrite Ht.
      * unfold assignees_of at 1. rewrite Has'. apply (Has j Hj).
    + rewrite Hids, Ht, Hu', Hl', Ha'. auto.
  - split.
    + intros j Hj. split; [unfold find_ticket; now rewrite Ht|auto].
    + rewrite Ht. auto.
Qed.

Lemma status_column_valid (dto : gmap string JsVal) (old : RepairTicketStatus) :
  defined (get dto "status") = false
  \/ is_Some (status_of_js (get dto "status")) ->
  is_Some (status_column (build_updateData dto) old).
Proof.
  rewrite status_column_dto. intros [->|H]; [eauto|].
  destruct (defined (get dto "status")); eauto.
Qed.

(** X9.  An [update] that names no assignees and whose status, if any, is a
    member of the enum, fails for an id no ticket has with the not-found
    error naming that id; the store is as before and the only call made is
    the update of the ticket row. *)
Theorem update_missing_ticket_not_found (id : Z) (dto : gmap string JsVal) (actor : Z)
    (w : World) :
  find_ticket id (store w) = None ->
  get dto "assigneeIds" = JUndefined ->
  defined (get dto "status") = false
  \/ is_Some (status_of_js (get dto "status")) ->
  update id dto actor w
  = (Err (NotFoundException ("Repair ticket #" +:+ pretty id +:+ " not found")),
     {| store := store w; trace := trace w ++ [EvDb RepairTicket_update] |}).
Proof.
  intros Hfind Habsent Hstatus.
  unfold update, try_catch. unfold bind at 1.
  rewrite sync_assignees_absent by assumption.
  unfold repairTicket_update, db. rewrite Hfind.
  destruct (status_column_valid dto PENDING Hstatus) as [st ->].
  reflexivity.
Qed.

Lemma update_missing_ticket_not_found_witness :
  update 7 rename 9 world0
  = (Err (NotFoundException ("Repair ticket #" +:+ pretty 7 +:+ " not found")),
     {| store := store0; trace := [EvDb RepairTicket_update] |}).
Proof.
  apply (update_missing_ticket_not_found 7 rename 9 world0);
    [reflexivity | reflexivity | left; reflexivity].
Defined.

Lemma sync_assignees_rejected (id : Z) (dto : gmap string JsVal) (ids : list Z)
    (w : World) :
  get dto "assigneeIds" = JArr (map JNum ids) ->
  forallb (references_ok (store w)) (map (mkAssignee id) ids) = false ->
  (sync_assignees id dto w).1 = Err P2003.
Proof.
  unfold sync_assignees. intros -> Href. simpl.
  unfold bind at 1. unfold repairTicketAssignee_deleteMany at 1, db at 1. simpl.
  unfold bind at 1. unfold length_positive, ret at 1.
  destruct ids as [|u ids]; [discriminate|].
  rewrite bool_decide_eq_true_2 by discriminate.
  unfold map_assignees. unfold bind at 1. unfold ret at 1.
  unfold bind at 1. unfold repairTicketAssignee_createMany, db.
  cbn [store trace]. rewrite assignee_rows_numbers.
  set (s1 := set_assignees (store w) _).
  change (references_ok s1) with (references_ok (store w)).
  now rewrite Href.
Qed.

(** X10.  An [update] whose assignee list names a user that does not exist
    fails with the client error about the broken reference, and the deletion
    that came first is not undone: the ticket is left with no assignee row,
    while its own row is not updated. *)
Theorem update_unknown_assignee_not_undone (id : Z) (dto : gmap string JsVal) (actor : Z)
    (w : World) (ids : list Z) (u : Z) :
  get dto "assigneeIds" = JArr (map JNum ids) ->
  In u ids ->
  find_user u (store w) = None ->
  (update id dto actor w).1 = Err (BadRequestException reference_message)
  /\ assignees_of id (store (update id dto actor w).2) = []
  /\ repairTickets (store (update id dto actor w).2) = repairTickets (store w).
Proof.
  intros Hids Hin Hnone.
  assert (Href : forallb (references_ok (store w)) (map (mkAssignee id) ids) = false).
  { apply not_true_is_false. intros H.
    assert (Hok : references_ok (store w) (mkAssignee id u) = true).
    { revert H. rewrite forallb_forall. intros H. apply H.
      apply in_map_iff. eauto. }
    unfold references_ok in Hok. simpl in Hok. rewrite Hnone in Hok.
    apply andb_true_iff in Hok as [_ Hok].
    apply bool_decide_eq_true in Hok. destruct Hok as [? [=]]. }
  pose proof (sync_assignees_rejected id dto ids w Hids Href) as Herr.
  pose proof (sync_assignees_list id dto ids w Hids) as Htable.
  pose proof (sync_assignees_frame id dto w) as (_ & _ & Htickets & _).
  rewrite Href, app_nil_r in Htable.
  split; [|split].
  - unfold update, try_catch. unfold bind at 1.
    destruct (sync_assignees id dto w) as [r w1]. simpl in Herr. subst r.
    reflexivity.
  - unfold assignees_of. rewrite update_assignee_table, Htable.
    apply (filter_filter_neg (fun a => bool_decide (a_repairTicketId a = id))).
  - rewrite update_world.
    destruct (sync_assignees id dto w) as [r w1]. simpl in Herr. subst r.
    exact Htickets.
Qed.

Lemma update_unknown_assignee_not_undone_witness :
  (update 1 (<["assigneeIds" := JArr [JNum 2; JNum 99]]> ∅) 9 world0).1
  = Err (BadRequestException reference_message)
  /\ assignees_of 1
       (store (update 1 (<["assigneeIds" := JArr [JNum 2; JNum 99]]> ∅) 9 world0).2)
     = [].
Proof.
  destruct (update_unknown_assignee_not_undone 1 (<["assigneeIds" := JArr [JNum 2; JNum 99]]> ∅)
              9 world0 [2; 99] 99) as (H1 & H2 & _);
    [reflexivity | right; now left | reflexivity |].
  split; assumption.
Defined.

(** X11.  An [update] whose request holds [assigneeIds: null] deletes the
    assignee rows of the ticket and then fails with a type error, raised when
    the length of [null] is read; the ticket row is not updated. *)
Theorem update_null_assignees_type_error (id : Z) (dto : gmap string JsVal) (actor : Z)
    (w : World) :
  get dto "assigneeIds" = JNull ->
  (update id dto actor w).1 = Err TypeError
  /\ assignees_of id (store (update id dto actor w).2) = []
  /\ repairTickets (store (update id dto actor w).2) = repairTickets (store w)
  /\ trace (update id dto actor w).2
     = trace w ++ [EvDb RepairTicketAssignee_deleteMany].
Proof.
  intros Hnull. unfold update, try_catch, sync_assignees. rewrite Hnull. simpl.
  unfold bind, repairTicketAssignee_deleteMany, db, throw. simpl.
  repeat split.
  apply (filter_filter_neg (fun a => bool_decide (a_repairTicketId a = id))).
Qed.

Lemma update_null_assignees_type_error_witness :
  (update 1 (<["assigneeIds" := JNull]> ∅) 9 world0).1 = Err TypeError
  /\ assignees_of 1 (store (update 1 (<["assigneeIds" := JNull]> ∅) 9 world0).2) = [].
Proof.
  destruct (update_null_assignees_type_error 1 (<["assigneeIds" := JNull]> ∅) 9 world0)
    as (H1 & H2 & _); [reflexivity|].
  split; assumption.
Defined.

(** *** remove *)

Lemma remove_data (now : Z) (old : RepairTicketStatus) (t : RepairTicket) :
  let data : gmap string JsVal :=
    <["status" := JStr (status_name CANCELLED)]>
      (<["cancelledAt" := JDate (JNum now)]> ∅) in
  status_column data old = Some CANCELLED
  /\ apply_update data CANCELLED t = cancel now t.
Proof.
  split.
  - unfold status_column. rewrite lookup_insert_eq. reflexivity.
  - unfold apply_update, cancel, column.
    rewrite !(lookup_insert_ne _ "status") by discriminate.
    rewrite lookup_insert_eq.
    rewrite !(lookup_insert_ne _ "cancelledAt") by discriminate.
    rewrite !lookup_empty. reflexivity.
Qed.

(** X12.  [remove] of an existing ticket deletes nothing: the row stays, with
    status CANCELLED and the time of the call as cancellation date and every
    other column as before; the table has the same ids, the other tickets,
    the attachments, the assignee rows, the users and the links are as
    before. *)
Theorem remove_soft_cancels (env : Env) (id : Z) (w : World) (t : RepairTicket) :
  find_ticket id (store w) = Some t ->
  exists w',
    remove env id w = (Ok (cancel (clock env (length (trace w))) t), w')
    /\ find_ticket id (store w') = Some (cancel (clock env (length (trace w))) t)
    /\ map t_id (repairTickets (store w')) = map t_id (repairTickets (store w))
    /\ (forall j, j <> id -> find_ticket j (store w') = find_ticket j (store w))
    /\ attachments (store w') = attachments (store w)
    /\ repairTicketAssignees (store w') = repairTicketAssignees (store w)
    /\ users (store w') = users (store w)
    /\ lineOALinks (store w') = lineOALinks (store w).
Proof.
  intros Hfind. unfold remove. unfold bind at 1. unfold call at 1.
  set (now := clock env (length (trace w))).
  set (w1 := {| store := store w; trace := trace w ++ [EvClock] |}).
  set (data := <["status" := _]> _).
  pose proof (repairTicket_update_frame id data w1)
    as (Hu & Hl & Ha & Has & Hids & Hother).
  destruct (remove_data now (status t) t) as [Hst Happly]. fold data in Hst, Happly.
  assert (Hrun : repairTicket_update id data w1
    = (Ok (with_relations
             (set_tickets (store w)
                (map (fun x => if bool_decide (t_id x = id) then cancel now t else x)
                   (repairTickets (store w))))
             (cancel now t)),
       {| store := set_tickets (store w)
                     (map (fun x => if bool_decide (t_id x = id)
                                    then cancel now t else x)
                        (repairTickets (store w)));
          trace := trace w1 ++ [EvDb RepairTicket_update] |})).
  { unfold repairTicket_update, db. cbn [store w1]. rewrite Hfind, Hst, Happly.
    reflexivity. }
  rewrite Hrun in *. unfold repairTicket_update_row, bind, ret. rewrite Hrun.
  eexists. split; [reflexivity|]. simpl in *.
  split.
  { unfold find_ticket in *. simpl.
    apply (find_replace (fun x => bool_decide (t_id x = id)) _ t); [assumption|].
    apply find_In in Hfind as [_ Hid]. exact Hid. }
  repeat split; auto.
Qed.

Lemma remove_soft_cancels_witness :
  exists w',
    remove env0 2 world0 = (Ok (cancel 1700000000000 projector), w')
    /\ map t_id (repairTickets (store w')) = [1; 2].
Proof.
  destruct (remove_soft_cancels env0 2 world0 projector) as (w' & H1 & _ & H2 & _);
    [reflexivity|].
  exists w'. split; assumption.
Defined.

(** X13.  [remove] of an id no ticket has fails with the store's own error
    for a missing record, code P2025, which it does not translate into the
    not-found error; the store is as before. *)
Theorem remove_missing (env : Env) (id : Z) (w : World) :
  find_ticket id (store w) = None ->
  remove env id w
  = (Err (PrismaClientKnownRequestError "P2025" []),
     {| store := store w;
        trace := trace w ++ [EvClock; EvDb RepairTicket_update] |}).
Proof.
  intros Hfind. unfold remove. unfold bind at 1. unfold call at 1.
  unfold repairTicket_update_row, bind, repairTicket_update, db. cbn [store trace].
  rewrite Hfind.
  destruct (remove_data (clock env (length (trace w))) PENDING printer) as [-> _].
  rewrite <- app_assoc. reflexivity.
Qed.

Lemma remove_missing_witness :
  remove env0 7 world0
  = (Err (PrismaClientKnownRequestError "P2025" []),
     {| store := store0; trace := [EvClock; EvDb RepairTicket_update] |}).
Proof. apply (remove_missing env0 7 world0). reflexivity. Defined.

(** *** getStatistics after a write *)

Lemma getStatistics_run (w : World) :
  (getStatistics w).1
  = Ok {| total := Z.of_nat (length (repairTickets (store w)));
          pending := count_status PENDING (repairTickets (store w));
          inProgress := count_status IN_PROGRESS (repairTickets (store w));
          waitingParts := count_status WAITING_PARTS (repairTickets (store w));
          completed := count_status COMPLETED (repairTickets (store w));
          cancelled := count_status CANCELLED (repairTickets (store w)) |}.
Proof.
  unfold getStatistics, repairTicket_groupBy_status. run.
  now rewrite !getCount_group, total_group.
Qed.

Lemma getStatistics_fields (w : World) (s : Statistics) :
  (getStatistics w).1 = Ok s ->
  total s = Z.of_nat (length (repairTickets (store w)))
  /\ forall st, count_of s st = count_status st (repairTickets (store w)).
Proof.
  rewrite getStatistics_run. intros [= <-]. split; [reflexivity|].
  intros []; reflexivity.
Qed.

Lemma count_status_app st ts us :
  count_status st (ts ++ us) = count_status st ts + count_status st us.
Proof.
  unfold count_status. rewrite filter_app_list, length_app. lia.
Qed.

(** X14.  After a successful [create] the statistics count one ticket more:
    [total] and the count of the status a new ticket starts in grow by one,
    the other four counts are as before. *)
Theorem create_then_statistics (env : Env) (caller : Z) (dto : gmap string JsVal)
    (files : option (list File)) (w w' : World) (t : RepairTicket)
    (s s' : Statistics) :
  create env caller dto files w = (Ok t, w') ->
  (getStatistics w).1 = Ok s ->
  (getStatistics w').1 = Ok s' ->
  total s' = total s + 1
  /\ forall st,
       count_of s' st
       = count_of s st + (if bool_decide (st = default_status env) then 1 else 0).
Proof.
  intros Hc Hs Hs'.
  apply create_success in Hc
    as (atts & _ & _ & _ & _ & _ & _ & _ & Hst & _ & Hstore).
  apply getStatistics_fields in Hs as [Ht Hf], Hs' as [Ht' Hf'].
  rewrite Hstore in Ht', Hf'. simpl in Ht', Hf'.
  split.
  - rewrite Ht', Ht, length_snoc. lia.
  - intros st. rewrite Hf', Hf, count_status_app. f_equal.
    rewrite count_status_cons, Hst.
    change (count_status st []) with 0.
    repeat case_bool_decide; congruence || lia.
Qed.

Lemma create_then_statistics_witness :
  exists t w' s',
    create env0 1 report None world0 = (Ok t, w')
    /\ (getStatistics w').1 = Ok s'
    /\ total s' = 3 /\ pending s' = 2.
Proof.
  destruct (create env0 1 report None world0) as [r w'] eqn:H.
  assert (Hr : exists t, r = Ok t).
  { vm_compute in H. injection H as <- _. eauto. }
  destruct Hr as [t ->].
  destruct (getStatistics w').1 as [s'|e] eqn:Hs'.
  2:{ rewrite getStatistics_run in Hs'. discriminate. }
  destruct (create_then_statistics env0 1 report None world0 w' t _ s' H
              (getStatistics_run world0) Hs') as [Ht Hf].
  exists t, w', s'. split; [reflexivity|]. split; [exact Hs'|].
  split; [exact Ht|]. exact (Hf PENDING).
Defined.

Lemma count_status_cancel (st : RepairTicketStatus) (id : Z) (t' : RepairTicket)
    (ts : list RepairTicket) :
  status t' = CANCELLED ->
  let ts' := map (fun x => if bool_decide (t_id x = id) then t' else x) ts in
  (st <> CANCELLED -> count_status st ts' <= count_status st ts)
  /\ count_status CANCELLED ts <= count_status CANCELLED ts'
  /\ ((exists x, In x ts /\ t_id x = id) -> 1 <= count_status CANCELLED ts').
Proof.
  intros Hc. induction ts as [|a ts IH]; simpl.
  - split; [lia|]. split; [lia|]. intros (x & [] & _).
  - destruct IH as (IH1 & IH2 & IH3). rewrite !count_status_cons.
    pose proof (count_status_nonneg CANCELLED
      (map (fun x => if bool_decide (t_id x = id) then t' else x) ts)) as Hnn.
    destruct (bool_decide (t_id a = id)) eqn:Hid.
    + rewrite Hc. split; [|split].
      * intros Hst. specialize (IH1 Hst).
        repeat case_bool_decide; try congruence; lia.
      * repeat case_bool_decide; try congruence; lia.
      * intros _. repeat case_bool_decide; try congruence; lia.
    + apply bool_decide_eq_false in Hid. split; [|split].
      * intros Hst. specialize (IH1 Hst). repeat case_bool_decide; lia.
      * repeat case_bool_decide; lia.
      * intros (x & [->|Hx] & Hxid); [contradiction|].
        assert (1 <= count_status CANCELLED
                  (map (fun x => if bool_decide (t_id x = id) then t' else x) ts))
          by (apply IH3; eauto).
        repeat case_bool_decide; lia.
Qed.

(** X15.  [remove] of an existing ticket keeps the total of the statistics;
    the count of cancelled tickets does not fall and is at least one
    afterwards, and no other count grows. *)
Theorem remove_then_statistics (env : Env) (id : Z) (w : World) (t : RepairTicket)
    (s s' : Statistics) :
  find_ticket id (store w) = Some t ->
  (getStatistics w).1 = Ok s ->
  (getStatistics (remove env id w).2).1 = Ok s' ->
  total s' = total s
  /\ cancelled s <= cancelled s'
  /\ 1 <= cancelled s'
  /\ forall st, st <> CANCELLED -> count_of s' st <= count_of s st.
Proof.
  intros Hfind Hs Hs'.
  assert (Hrows : repairTickets (store (remove env id w).2)
    = map (fun x => if bool_decide (t_id x = id)
                    then cancel (clock env (length (trace w))) t else x)
        (repairTickets (store w))).
  { unfold remove. unfold bind at 1. unfold call at 1.
    unfold repairTicket_update_row, bind, repairTicket_update, db. cbn [store trace].
    rewrite Hfind.
    destruct (remove_data (clock env (length (trace w))) (status t) t) as [-> ->].
    reflexivity. }
  apply getStatistics_fields in Hs as [Ht Hf], Hs' as [Ht' Hf'].
  rewrite Hrows in Ht', Hf'.
  destruct (count_status_cancel CANCELLED id
              (cancel (clock env (length (trace w))) t)
              (repairTickets (store w)) eq_refl) as (_ & Hup & Hone).
  split; [rewrite Ht', Ht, length_map; reflexivity|].
  specialize (Hf CANCELLED) as Hc. specialize (Hf' CANCELLED) as Hc'.
  simpl in Hc, Hc'. rewrite Hc, Hc'.
  split; [exact Hup|]. split.
  - apply Hone. unfold find_ticket in Hfind.
    apply find_In in Hfind as [Hin Hid]. apply bool_decide_eq_true in Hid. eauto.
  - intros st Hst. rewrite Hf, Hf'.
    apply (count_status_cancel st id (cancel (clock env (length (trace w))) t)
             (repairTickets (store w)) eq_refl). assumption.
Qed.

Lemma remove_then_statistics_witness :
  exists s',
    (getStatistics (remove env0 2 world0).2).1 = Ok s'
    /\ total s' = 2 /\ 1 <= cancelled s'.
Proof.
  destruct (getStatistics (remove env0 2 world0).2).1 as [s'|e] eqn:Hs'.
  2:{ rewrite getStatistics_run in Hs'. discriminate. }
  destruct (remove_then_statistics env0 2 world0 projector _ s' eq_refl
              (getStatistics_run world0) Hs') as (Ht & _ & Hc & _).
  exists s'. split; [reflexivity|]. split; [exact Ht|exact Hc].
Defined.

(** *** findAll, getUserTickets and getSchedule *)

#[local] Instance newer_first_transitive : Transitive newer_first.
Proof. unfold newer_first. intros a b c. lia. Qed.

#[local] Instance newer_first_total : Total newer_first.
Proof. unfold newer_first. intros a b. lia. Qed.

Lemma take_rows_sorted {A} (R : relation A) (lim : option Z) (l : list A) :
  StronglySorted R l -> StronglySorted R (take_rows lim l).
Proof.
  intros H. unfold take_rows. destruct lim as [n|]; [|assumption].
  destruct (0 <=? n).
  - rewrite <- (take_drop (Z.to_nat n) l) in H.
    now apply StronglySorted_app_1_l in H.
  - rewrite <- (take_drop (length l - Z.to_nat (- n)) l) in H.
    now apply StronglySorted_app_1_r in H.
Qed.

Lemma row_with_relations (s : Store) (l : list RepairTicket) :
  map row (map (with_relations s) l) = l.
Proof. rewrite map_map. simpl. apply map_id. Qed.

Lemma findAll_run (params : FindAllParams) (w : World) :
  findAll params w
  = (Ok (map (with_relations (store w))
           (take_rows (p_limit params)
              (merge_sort newer_first
                 (List.filter (where_matches (build_where params))
                    (repairTickets (store w)))))),
     {| store := store w; trace := trace w ++ [EvDb RepairTicket_findMany] |}).
Proof. reflexivity. Qed.

(** X16.  [findAll] with a limit that is not negative answers with at most
    that many tickets, and never with more than the store holds; it writes
    nothing. *)
Theorem findAll_limit (params : FindAllParams) (w : World) (n : Z) :
  p_limit params = Some n ->
  0 <= n ->
  exists l w',
    findAll params w = (Ok l, w')
    /\ store w' = store w
    /\ Z.of_nat (length l) <= n
    /\ (length l <= length (repairTickets (store w)))%nat.
Proof.
  intros Hlim Hn. rewrite findAll_run, Hlim.
  eexists _, _. split; [reflexivity|]. split; [reflexivity|].
  rewrite length_map. unfold take_rows.
  destruct (0 <=? n) eqn:E; [|apply Z.leb_gt in E; lia].
  rewrite length_take.
  rewrite (Permutation_length (merge_sort_Permutation newer_first _)).
  pose proof (filter_length_le (where_matches (build_where params))
                (repairTickets (store w))).
  split; lia.
Qed.

Lemma findAll_limit_witness :
  exists l w',
    findAll {| p_userId := None; p_isAdmin := Some true; p_status := None;
               p_urgency := None; p_assignedTo := None; p_limit := Some 1 |}
      world0 = (Ok l, w')
    /\ Z.of_nat (length l) <= 1.
Proof.
  destruct (findAll_limit
              {| p_userId := None; p_isAdmin := Some true; p_status := None;
                 p_urgency := None; p_assignedTo := None; p_limit := Some 1 |}
              world0 1) as (l & w' & H & _ & Hlen & _); [reflexivity | lia |].
  exists l, w'. split; assumption.
Defined.

(** X17.  The answer of [findAll] is ordered by creation time, newest first:
    every ticket in it was created no earlier than the tickets after it. *)
Theorem findAll_newest_first (params : FindAllParams) (w : World) :
  exists l,
    (findAll params w).1 = Ok l
    /\ StronglySorted
         (fun a b => t_createdAt (row b) <= t_createdAt (row a)) l.
Proof.
  rewrite findAll_run. eexists. split; [reflexivity|].
  apply (StronglySorted_fmap (with_relations (store w)) newer_first).
  - auto.
  - apply take_rows_sorted, StronglySorted_merge_sort; apply _.
Qed.

(** X18.  Every ticket in the answer of [findAll] is a row of the store that
    passes each filter that was requested: it has the requested status, the
    requested urgency when that is not the empty string, and the requested
    assignee column when that is not 0; it comes with its owner and with the
    assignee rows of that ticket. *)
Theorem findAll_filters (params : FindAllParams) (w : World)
    (l : list TicketWithRelations) (r : TicketWithRelations) :
  (findAll params w).1 = Ok l ->
  In r l ->
  In (row r) (repairTickets (store w))
  /\ (forall st, p_status params = Some st -> status (row r) = st)
  /\ (forall u, p_urgency params = Some u -> u <> "" -> urgency (row r) = JStr u)
  /\ (forall a : Z, p_assignedTo params = Some (Num a) -> a <> 0 ->
        assignedTo (row r) = Some a)
  /\ user r = find_user (userId (row r)) (store w)
  /\ map fst (assignees r) = assignees_of (t_id (row r)) (store w).
Proof.
  rewrite findAll_run. intros [= <-] Hr.
  apply in_map_iff in Hr as (t & <- & Ht).
  apply findMany_rows in Ht as [Hin Hm]. simpl.
  unfold where_matches in Hm. rewrite !andb_true_iff in Hm.
  destruct Hm as [[[_ Hs] Hu] Ha]. unfold build_where in Hs, Hu, Ha. simpl in *.
  split; [assumption|]. split.
  { intros st Hst. rewrite Hst in Hs. now apply bool_decide_eq_true in Hs. }
  split.
  { intros u Hp Hne. rewrite Hp in Hu. simpl in Hu.
    rewrite bool_decide_eq_false_2 in Hu by assumption. simpl in Hu.
    destruct (urgency t); try discriminate.
    apply bool_decide_eq_true in Hu. now subst. }
  split.
  { intros a Hp Hne. rewrite Hp in Ha. simpl in Ha.
    destruct (a =? 0) eqn:E; [apply Z.eqb_eq in E; contradiction|]. simpl in Ha.
    now apply bool_decide_eq_true in Ha. }
  split; [reflexivity|].
  rewrite map_map. simpl. apply map_id.
Qed.

Lemma findAll_filters_witness :
  exists l r,
    (findAll {| p_userId := None; p_isAdmin := Some true;
                p_status := Some IN_PROGRESS; p_urgency := Some "URGENT";
                p_assignedTo := None; p_limit := None |} world0).1 = Ok l
    /\ In r l /\ status (row r) = IN_PROGRESS /\ urgency (row r) = JStr "URGENT".
Proof.
  set (params := {| p_userId := None; p_isAdmin := Some true;
                    p_status := Some IN_PROGRESS; p_urgency := Some "URGENT";
                    p_assignedTo := None; p_limit := None |}).
  destruct (findAll params world0).1 as [l|e] eqn:H; [|discriminate].
  assert (Hin : In (with_relations store0 projector) l).
  { vm_compute in H. injection H as <-. left. reflexivity. }
  destruct (findAll_filters params world0 l _ H Hin) as (_ & Hs & Hu & _).
  exists l, (with_relations store0 projector).
  split; [reflexivity|]. split; [exact Hin|]. split.
  - apply Hs. reflexivity.
  - apply Hu; [reflexivity|discriminate].
Defined.

(** X19.  Without a limit and without status, urgency and assignee filters,
    [findAll] answers an admin with every ticket of the store, each once, and
    a caller who is not an admin and passes a user id other than 0 with every
    ticket of that user, each once. *)
Theorem findAll_complete (params : FindAllParams) (w : World) :
  p_limit params = None ->
  p_status params = None ->
  truthy_str (p_urgency params) = false ->
  truthy_num (p_assignedTo params) = false ->
  exists l,
    (findAll params w).1 = Ok l
    /\ (truthy_bool (p_isAdmin params) = true ->
        map row l ≡ₚ repairTickets (store w))
    /\ (forall u : Z, truthy_bool (p_isAdmin params) = false ->
          p_userId params = Some (Num u) -> u <> 0 ->
          map row l ≡ₚ
            List.filter (fun t => bool_decide (userId t = u))
              (repairTickets (store w))).
Proof.
  intros Hlim Hst Hurg Hass. rewrite findAll_run, Hlim.
  eexists. split; [reflexivity|]. simpl take_rows.
  rewrite row_with_relations.
  unfold build_where. rewrite Hst, Hurg, Hass. split.
  - intros ->. simpl. rewrite merge_sort_Permutation.
    rewrite filter_all; [reflexivity|]. intros; reflexivity.
  - intros u -> -> Hu. simpl. rewrite merge_sort_Permutation.
    destruct (u =? 0) eqn:E; [apply Z.eqb_eq in E; contradiction|]. simpl.
    erewrite filter_ext; [reflexivity|].
    intros t. unfold where_matches. simpl. now rewrite !andb_true_r.
Qed.

Lemma findAll_complete_witness :
  exists l,
    (findAll {| p_userId := Some (Num 2); p_isAdmin := None; p_status := None;
                p_urgency := None; p_assignedTo := None; p_limit := None |}
       world0).1 = Ok l
    /\ map row l ≡ₚ [projector].
Proof.
  destruct (findAll_complete
              {| p_userId := Some (Num 2); p_isAdmin := None; p_status := None;
                 p_urgency := None; p_assignedTo := None; p_limit := None |}
              world0) as (l & H & _ & Hu); try reflexivity.
  exists l. split; [exact H|].
  apply (Hu 2); [reflexivity | reflexivity | lia].
Defined.

(** X20.  [getUserTickets] answers with every ticket of the user, each once
    and no other, newest first, each with attachments of that ticket only;
    unlike [findAll] it treats the id 0 like any other id.  It writes
    nothing. *)
Theorem getUserTickets_owner {Log : Type} (logs : Store -> Z -> list Log)
    (u : Z) (w : World) :
  exists l w',
    getUserTickets logs u w = (Ok l, w')
    /\ store w' = store w
    /\ map d_row l ≡ₚ
         List.filter (fun t => bool_decide (userId t = u)) (repairTickets (store w))
    /\ StronglySorted
         (fun a b => t_createdAt (d_row b) <= t_createdAt (d_row a)) l
    /\ forall d, In d l ->
         userId (d_row d) = u
         /\ forall a, In a (d_attachments d) ->
              att_repairTicketId a = t_id (d_row d).
Proof.
  unfold getUserTickets, repairTicket_findMany_details, db. simpl.
  eexists _, _. split; [reflexivity|]. simpl. split; [reflexivity|].
  split.
  { rewrite map_map. simpl. rewrite map_id. apply merge_sort_Permutation. }
  split.
  { apply (StronglySorted_fmap (with_details logs (store w)) newer_first).
    - auto.
    - apply StronglySorted_merge_sort; apply _. }
  intros d Hd. apply in_map_iff in Hd as (t & <- & Ht).
  apply (Permutation_in _ (merge_sort_Permutation newer_first _)) in Ht.
  apply filter_In in Ht as [_ Ht]. apply bool_decide_eq_true in Ht.
  split; [assumption|].
  intros a Ha. now apply (with_details_relations logs (store w) t).
Qed.

(** X21.  [getSchedule] answers with one entry for every ticket of the store,
    cancelled and completed ones included, and nothing else; when the order
    of the store on dates is total, each entry is scheduled no later than the
    next.  It writes nothing. *)
Theorem getSchedule_entries (earlier : relation JsVal)
    `{!forall x y, Decision (earlier x y)} (w : World) :
  exists l w',
    getSchedule earlier w = (Ok l, w')
    /\ store w' = store w
    /\ l ≡ₚ map schedule_entry (repairTickets (store w))
    /\ (Total earlier ->
        Sorted (fun a b => earlier (e_scheduledAt a) (e_scheduledAt b)) l).
Proof.
  unfold getSchedule, repairTicket_findMany_schedule, db. simpl.
  eexists _, _. split; [reflexivity|]. simpl. split; [reflexivity|]. split.
  - apply Permutation_map, merge_sort_Permutation.
  - intros Htotal.
    apply (Sorted_fmap schedule_entry (scheduled_first earlier)); [auto|].
    apply Sorted_merge_sort. intros a b. apply Htotal.
Qed.

Lemma earlier0_total : Total earlier0.
Proof.
  intros a b. unfold earlier0.
  destruct a as [| | | | | |[]|], b as [| | | | | |[]|]; auto; lia.
Qed.

Lemma getSchedule_entries_witness :
  exists l w',
    getSchedule earlier0 world0 = (Ok l, w')
    /\ l ≡ₚ map schedule_entry [printer; projector]
    /\ Sorted (fun a b => earlier0 (e_scheduledAt a) (e_scheduledAt b)) l.
Proof.
  destruct (getSchedule_entries earlier0 world0) as (l & w' & H & _ & Hp & Hs).
  exists l, w'. split; [exact H|]. split; [exact Hp|].
  apply Hs, earlier0_total.
Defined.

(** *** findUserByLineId *)

(** X22.  [findUserByLineId] always answers and writes nothing.  A user it
    answers with is a row of the store and owns a link with the provider id
    that was asked for; when every link belongs to a user, it answers with no
    user only if no link has that provider id. *)
Theorem findUserByLineId_lookup (l : string) (w : World) :
  exists r,
    findUserByLineId l w = (Ok r, w)
    /\ (forall u, r = Some u ->
          In u (users (store w))
          /\ exists k, In k (lineOALinks (store w))
               /\ lineUserId k = l /\ l_userId k = u_id u)
    /\ (r = None -> links_reference_users (store w) ->
        forall k, In k (lineOALinks (store w)) -> lineUserId k <> l).
Proof.
  unfold findUserByLineId, lineOALink_findFirst. run.
  destruct (List.find _ (lineOALinks (store w))) as [k|] eqn:Hfind; simpl.
  - eexists. split; [reflexivity|].
    apply find_In in Hfind as [Hin Hl]. apply bool_decide_eq_true in Hl.
    split.
    + intros u Hu. unfold find_user in Hu. apply find_In in Hu as [Hu Hid].
      apply bool_decide_eq_true in Hid. split; [assumption|]. exists k. auto.
    + intros Hnone Href. destruct (Href k Hin) as (u & Hu & Hid).
      destruct (find_is_Some (fun x => bool_decide (u_id x = l_userId k))
                  (users (store w)) u Hu) as (y & Hy & _);
        [now apply bool_decide_eq_true|].
      unfold find_user in Hnone. congruence.
  - eexists. split; [reflexivity|]. split; [discriminate|].
    intros _ _ k Hk Hl. pose proof (find_none _ _ Hfind k Hk) as Hf.
    simpl in Hf. apply bool_decide_eq_false in Hf. contradiction.
Qed.

Lemma findUserByLineId_lookup_witness :
  findUserByLineId "U100" world0 = (Ok (Some alice), world0)
  /\ findUserByLineId "U999" world0 = (Ok None, world0).
Proof.
  split.
  - destruct (findUserByLineId_lookup "U100" world0) as (r & Hrun & _).
    rewrite Hrun. vm_compute in Hrun. injection Hrun as <-. reflexivity.
  - destruct (findUserByLineId_lookup "U999" world0) as (r & Hrun & _).
    rewrite Hrun. vm_compute in Hrun. injection Hrun as <-. reflexivity.
Defined.

End RepairsExtProps.

(** ** The auth service: further properties *)
Module AuthExtProps.
Import Prisma PrismaExt Auth AuthExt RepairsExt Vocabulary VocabularyExt Sample
  SampleExt AuthProps.

(** *** register *)

Lemma existsb_email (e : string) (l : list User) :
  existsb (fun u => bool_decide (email u = e)) l = true
  <-> exists u, In u l /\ email u = e.
Proof.
  rewrite existsb_exists. split; intros (u & Hu & He); exists u; split; auto.
  - now apply bool_decide_eq_true in He.
  - now apply bool_decide_eq_true.
Qed.

(** X23.  [register] with an address some user already has fails with the
    client error that the address exists and writes nothing.  With a new
    address it succeeds: one user row is appended, with an id above every id
    in use, the role USER, the hash of the password in place of the password,
    and the profile fields of the request; links and tickets are as
    before. *)
Theorem register_outcomes (env : Env) (dto : RegisterDto) (w : World) :
  ((exists u, In u (users (store w)) /\ email u = reg_email dto) ->
   (register env dto w).1 = Err (BadRequestException "Email already exists")
   /\ store (register env dto w).2 = store w)
  /\
  ((forall u, In u (users (store w)) -> email u <> reg_email dto) ->
   exists r u,
     (register env dto w).1 = Ok r
     /\ rr_message r = "Register success"
     /\ rr_userId r = u_id u
     /\ rr_role r = USER
     /\ users (store (register env dto w).2) = users (store w) ++ [u]
     /\ (forall v, In v (users (store w)) -> u_id v < u_id u)
     /\ role u = USER
     /\ u_name u = reg_name dto
     /\ email u = reg_email dto
     /\ password u = bcrypt_hash env (length (trace w)) (reg_password dto) 10
     /\ department u = reg_department dto
     /\ phoneNumber u = reg_phoneNumber dto
     /\ lineId u = reg_lineId dto
     /\ lineOALinks (store (register env dto w).2) = lineOALinks (store w)
     /\ repairTickets (store (register env dto w).2) = repairTickets (store w)).
Proof.
  split.
  - intros Hdup. apply existsb_email in Hdup.
    unfold register, user_create_registered. run. rewrite Hdup. auto.
  - intros Hnew.
    assert (Hex : existsb (fun u => bool_decide (email u = reg_email dto))
                    (users (store w)) = false).
    { apply not_true_is_false. intros H. apply existsb_email in H as (u & Hu & He).
      exact (Hnew u Hu He). }
    unfold register, user_create_registered. run. rewrite Hex. simpl.
    eexists _, _. split; [reflexivity|]. simpl.
    repeat split; auto.
    intros v Hv. apply RepairsProps.fresh_id_above. now apply in_map.
Qed.

Lemma register_outcomes_witness :
  (register env0 carol world0).1
  = Ok {| rr_message := "Register success"; rr_userId := 3; rr_role := USER |}
  /\ (register env0 carol (register env0 carol world0).2).1
     = Err (BadRequestException "Email already exists").
Proof.
  split.
  - destruct (proj2 (register_outcomes env0 carol world0))
      as (r & u & Hrun & Hm & Hid & Hr & Hus & _).
    { intros u [<-|[<-|[]]]; discriminate. }
    rewrite Hrun. destruct r as [m i ro]. simpl in *. subst m ro. f_equal. f_equal.
    rewrite Hid. vm_compute in Hus. injection Hus as <-. reflexivity.
  - apply (proj1 (register_outcomes env0 carol (register env0 carol world0).2)).
    eexists. split; [right; right; left; reflexivity|reflexivity].
Defined.

(** *** login *)

(** X24.  [login] never writes to the store.  It succeeds exactly when a user
    has the address and the comparison of the password with that user's hash
    says yes, and then the answer carries that user's id and role and the
    token signed for them. *)
Theorem login_success (env : Env) (dto : LoginDto) (w : World) :
  store (login env dto w).2 = store w
  /\ (forall r, (login env dto w).1 = Ok r ->
        exists u,
          List.find (fun x => bool_decide (email x = dto_email dto))
            (users (store w)) = Some u
          /\ bcrypt_compare env (S (length (trace w))) (dto_password dto)
               (password u) = true
          /\ r = {| r_access_token :=
                      jwt_sign env (S (S (length (trace w)))) (u_id u) (role u);
                    r_userId := u_id u;
                    r_role := role u;
                    r_message := "Login success" |})
  /\ (forall u,
        List.find (fun x => bool_decide (email x = dto_email dto))
          (users (store w)) = Some u ->
        bcrypt_compare env (S (length (trace w))) (dto_password dto) (password u)
        = true ->
        exists r, (login env dto w).1 = Ok r /\ r_userId r = u_id u).
Proof.
  unfold login, user_findUnique_email, sign. run.
  destruct (List.find _ (users (store w))) as [u|]; simpl.
  - rewrite !RepairsProps.length_snoc.
    destruct (bcrypt_compare env _ _ _) eqn:E; simpl.
    + split; [reflexivity|]. split.
      * intros r [= <-]. exists u. rewrite !RepairsProps.length_snoc. auto.
      * intros u' [= <-] _. eexists. split; reflexivity.
    + split; [reflexivity|]. split; [discriminate|].
      intros u' [= <-]. congruence.
  - split; [reflexivity|]. split; discriminate.
Qed.

Lemma login_success_witness :
  exists r,
    (login env0 {| dto_email := "bob@example.com"; dto_password := "builder" |}
       world0).1 = Ok r
    /\ r_userId r = 2.
Proof.
  destruct (proj2 (proj2 (login_success env0
              {| dto_email := "bob@example.com"; dto_password := "builder" |}
              world0)) bob) as (r & Hr & Hid); [reflexivity | reflexivity |].
  exists r. split; assumption.
Defined.

(** X25.  When the comparison accepts a password against its own hash, a
    [login] with the address and password of a registration that has just
    succeeded succeeds too, with the id that [register] answered with and
    the role USER. *)
Theorem register_then_login (env : Env) (dto : RegisterDto) (w : World)
    (r : RegisterResult) :
  (forall n m p, bcrypt_compare env n p (bcrypt_hash env m p 10) = true) ->
  (register env dto w).1 = Ok r ->
  exists a,
    (login env {| dto_email := reg_email dto; dto_password := reg_password dto |}
       (register env dto w).2).1 = Ok a
    /\ r_userId a = rr_userId r
    /\ r_role a = USER.
Proof.
  intros Hlaw. unfold register, user_create_registered. run.
  destruct (existsb _ (users (store w))) eqn:Hex; simpl; [discriminate|].
  intros [= <-]. simpl.
  unfold login, user_findUnique_email, sign. run.
  rewrite RepairsExtProps.find_app_new.
  - simpl. rewrite Hlaw. simpl. eexists. repeat split.
  - intros y Hy. destruct (bool_decide _) eqn:E; [|reflexivity].
    apply bool_decide_eq_true in E.
    assert (existsb (fun u => bool_decide (email u = reg_email dto))
              (users (store w)) = true) by (apply existsb_email; eauto).
    congruence.
  - now apply bool_decide_eq_true.
Qed.

Lemma register_then_login_witness :
  exists a,
    (login env0 {| dto_email := "carol@example.com"; dto_password := "s3cret" |}
       (register env0 carol world0).2).1 = Ok a
    /\ r_userId a = 3 /\ r_role a = USER.
Proof.
  destruct (register env0 carol world0).1 as [r|e] eqn:Hreg; [|discriminate].
  destruct (register_then_login env0 carol world0 r) as (a & Ha & Hid & Hrole).
  - intros n m p. simpl. now apply bool_decide_eq_true.
  - exact Hreg.
  - exists a. split; [exact Ha|]. split; [|exact Hrole].
    rewrite Hid. vm_compute in Hreg. injection Hreg as <-. reflexivity.
Defined.

(** *** lineCallback *)

(** X26.  When the exchange of the authorization code fails, [lineCallback]
    fails with the very error of the OAuth client; the exchange is the only
    call it made and the store is as before. *)
Theorem lineCallback_exchange_error (env : Env) (c : string) (state : JsVal)
    (w : World) (e : Exn) :
  c <> "" ->
  line_exchangeCodeForToken env (length (trace w)) c = Err e ->
  lineCallback env (JStr c) state w
  = (Err e, {| store := store w; trace := trace w ++ [EvExchangeCode c] |}).
Proof.
  intros Hc He. unfold lineCallback. simpl.
  rewrite bool_decide_eq_false_2 by assumption. simpl.
  unfold try_catch. unfold bind at 1. unfold call at 1. now rewrite He.
Qed.

Lemma lineCallback_exchange_error_witness :
  lineCallback env0 (JStr "bad") JUndefined world0
  = (Err (Error "invalid_grant"),
     {| store := store0; trace := [EvExchangeCode "bad"] |}).
Proof.
  apply (lineCallback_exchange_error env0 "bad" JUndefined world0);
    [discriminate | reflexivity].
Defined.

(** The callback up to the lookup of the linked user. *)
Lemma lineCallback_lookup (env : Env) (c : string) (state : JsVal) (w : World)
    (tok : TokenResponse) :
  c <> "" ->
  line_exchangeCodeForToken env (length (trace w)) c = Ok tok ->
  lineCallback env (JStr c) state w
  = match
      (match List.find (linked_to (user_id tok) (store w)) (users (store w)) with
       | None => create_line_user env (access_token tok) (user_id tok)
       | Some user => backfill_line_id user (user_id tok)
       end)
        {| store := store w;
           trace := (trace w ++ [EvExchangeCode c]) ++ [EvDb User_findFirst] |}
    with
    | (Ok user, w1) =>
        (Ok {| r_access_token :=
                 jwt_sign env (length (trace w1)) (u_id user) (role user);
               r_userId := u_id user;
               r_role := role user;
               r_message := "LOGIN success via LINE" |},
         {| store := store w1; trace := trace w1 ++ [EvJwtSign] |})
    | (Err e, w1) => (Err e, w1)
    end.
Proof.
  intros Hc Htok. unfold lineCallback. simpl.
  rewrite bool_decide_eq_false_2 by assumption. simpl.
  unfold try_catch. unfold bind at 1. unfold call at 1. rewrite Htok.
  unfold bind at 1. unfold user_findFirst_link, db. cbn [store trace].
  unfold bind at 1.
  destruct (List.find _ (users (store w))) as [u|];
    match goal with
    | |- context [match ?m ?w0 with _ => _ end] =>
        destruct (m w0) as [[user|e] w1]
    end; reflexivity.
Qed.

(** X27.  When no user is linked to the provider id and no user has the
    address made from it, [lineCallback] creates exactly one user: the row is
    appended with an id above every id in use, the role USER, the address
    line_ followed by the provider id and @line.com, the provider id as its
    LINE id and the display name of the profile, or LINE User when the
    profile has none; one verified link from that user to the provider id is
    appended; the answer carries the new id. *)
Theorem lineCallback_creates_user (env : Env) (c : string) (state : JsVal)
    (w : World) (tok : TokenResponse) (profile : LineProfile) :
  c <> "" ->
  line_exchangeCodeForToken env (length (trace w)) c = Ok tok ->
  List.find (linked_to (user_id tok) (store w)) (users (store w)) = None ->
  line_getUserProfile env (S (S (length (trace w)))) (access_token tok)
  = Ok profile ->
  (forall u, In u (users (store w)) ->
     email u <> "line_" +:+ user_id tok +:+ "@line.com") ->
  exists r u w',
    lineCallback env (JStr c) state w = (Ok r, w')
    /\ r_userId r = u_id u
    /\ r_role r = USER
    /\ users (store w') = users (store w) ++ [u]
    /\ (forall v, In v (users (store w)) -> u_id v < u_id u)
    /\ role u = USER
    /\ email u = "line_" +:+ user_id tok +:+ "@line.com"
    /\ lineId u = Some (user_id tok)
    /\ u_name u = (match displayName profile with
                   | Some n => if bool_decide (n = "") then "LINE User" else n
                   | None => "LINE User"
                   end)
    /\ lineOALinks (store w')
       = lineOALinks (store w)
         ++ [{| l_userId := u_id u; lineUserId := user_id tok;
                l_status := VERIFIED |}]
    /\ repairTickets (store w') = repairTickets (store w).
Proof.
  intros Hc Htok Hnone Hprofile Hnew.
  rewrite (lineCallback_lookup env c state w tok Hc Htok), Hnone.
  assert (Hex : existsb
            (fun u => bool_decide (email u = "line_" +:+ user_id tok +:+ "@line.com"))
            (users (store w)) = false).
  { apply not_true_is_false. intros H. apply existsb_email in H as (u & Hu & He).
    exact (Hnew u Hu He). }
  unfold create_line_user. unfold bind at 1. unfold call at 1.
  cbn [store trace]. rewrite !RepairsProps.length_snoc, Hprofile.
  unfold bind, call, user_create, db. cbn [store trace ui_email]. rewrite Hex.
  eexists _, _, _. split; [reflexivity|]. simpl.
  repeat split; auto.
  - intros v Hv. apply RepairsProps.fresh_id_above. now apply in_map.
  - unfold truthy_opt. destruct (displayName profile) as [n|]; [|reflexivity].
    simpl. now destruct (bool_decide (n = "")).
Qed.

Lemma lineCallback_creates_user_witness :
  exists r w',
    lineCallback env0 (JStr "auth-code") JUndefined unlinked_world = (Ok r, w')
    /\ r_userId r = 3
    /\ length (users (store w')) = 3%nat
    /\ length (lineOALinks (store w')) = 1%nat.
Proof.
  destruct (lineCallback_creates_user env0 "auth-code" JUndefined unlinked_world
              {| access_token := "line-token"; user_id := "U100" |}
              {| displayName := Some "Somchai" |})
    as (r & u & w' & Hrun & Hid & _ & Hus & _ & _ & _ & _ & _ & Hls & _);
    [discriminate | reflexivity | reflexivity | reflexivity | |].
  { intros v [<-|[<-|[]]]; discriminate. }
  exists r, w'. split; [exact Hrun|].
  rewrite Hus, Hls. split; [|split; reflexivity].
  vm_compute in Hrun. injection Hrun as <- _. reflexivity.
Defined.

(** A successful creation of a LINE user, read backwards. *)
Lemma create_line_user_success (env : Env) (token l : string) (w w' : World)
    (u : User) :
  create_line_user env token l w = (Ok u, w') ->
  u_id u = fresh_id (map u_id (users (store w)))
  /\ users (store w') = users (store w) ++ [u]
  /\ lineOALinks (store w')
     = lineOALinks (store w)
       ++ [{| l_userId := u_id u; lineUserId := l; l_status := VERIFIED |}]
  /\ lineId u = Some l.
Proof.
  unfold create_line_user. unfold bind at 1. unfold call at 1.
  destruct (line_getUserProfile env _ token) as [profile|e]; [|discriminate].
  unfold bind, call, user_create, db. cbn [store trace ui_email].
  destruct (existsb _ (users (store w))); [discriminate|].
  intros [= <- <-]. simpl. auto.
Qed.

Lemma linked_after_create (l : string) (s s' : Store) (u : User) :
  List.find (linked_to l s) (users s) = None ->
  u_id u = fresh_id (map u_id (users s)) ->
  users s' = users s ++ [u] ->
  lineOALinks s'
  = lineOALinks s ++ [{| l_userId := u_id u; lineUserId := l; l_status := VERIFIED |}] ->
  List.find (linked_to l s') (users s') = Some u.
Proof.
  intros Hnone Hid Hus Hls. rewrite Hus. apply RepairsExtProps.find_app_new.
  - intros y Hy. unfold linked_to. rewrite Hls, existsb_app. simpl.
    pose proof (find_none _ _ Hnone y Hy) as Hold. unfold linked_to in Hold.
    rewrite Hold. simpl.
    pose proof (RepairsProps.fresh_id_above (map u_id (users s)) (u_id y)
                  (in_map _ _ _ Hy)) as Hlt.
    rewrite bool_decide_eq_false_2 by lia. reflexivity.
  - unfold linked_to. rewrite Hls, existsb_app. simpl.
    rewrite !bool_decide_eq_true_2 by reflexivity. simpl. apply orb_true_r.
Qed.

(** X28.  After a callback that created a user for a provider id, the user is
    found again: a later callback whose code is exchanged for the same
    provider id succeeds with the id the first one answered with, adds no
    user and no link, and, when every link of the store belonged to a user,
    [findUserByLineId] with that provider id answers with the user of that
    id. *)
Theorem lineCallback_again (env : Env) (c1 c2 : string) (state1 state2 : JsVal)
    (w w1 : World) (tok1 tok2 : TokenResponse) (r1 : AuthResult) :
  c1 <> "" ->
  line_exchangeCodeForToken env (length (trace w)) c1 = Ok tok1 ->
  List.find (linked_to (user_id tok1) (store w)) (users (store w)) = None ->
  lineCallback env (JStr c1) state1 w = (Ok r1, w1) ->
  c2 <> "" ->
  line_exchangeCodeForToken env (length (trace w1)) c2 = Ok tok2 ->
  user_id tok2 = user_id tok1 ->
  (exists r2 w2,
     lineCallback env (JStr c2) state2 w1 = (Ok r2, w2)
     /\ r_userId r2 = r_userId r1
     /\ map u_id (users (store w2)) = map u_id (users (store w1))
     /\ lineOALinks (store w2) = lineOALinks (store w1))
  /\ (links_reference_users (store w) ->
      exists u,
        findUserByLineId (user_id tok1) w1 = (Ok (Some u), w1)
        /\ u_id u = r_userId r1).
Proof.
  intros Hc1 Htok1 Hnone Hrun1 Hc2 Htok2 Hsame.
  rewrite (lineCallback_lookup env c1 state1 w tok1 Hc1 Htok1), Hnone in Hrun1.
  destruct (create_line_user env (access_token tok1) (user_id tok1) _)
    as [[u|e] w0] eqn:Hcreate; [|discriminate].
  injection Hrun1 as <- <-.
  apply create_line_user_success in Hcreate as (Hid & Hus & Hls & Hline).
  cbn [store] in Hid, Hus, Hls.
  pose proof (linked_after_create (user_id tok1) (store w) (store w0) u
                Hnone Hid Hus Hls) as Hfound.
  split.
  - rewrite (lineCallback_lookup env c2 state2 _ tok2 Hc2 Htok2).
    cbn [store trace]. rewrite Hsame, Hfound.
    assert (Hin : In u (users (store w0))).
    { rewrite Hus. apply in_or_app. right. now left. }
    destruct (backfill_line_id_existing u (user_id tok1)
                {| store := store w0;
                   trace := ((trace w0 ++ [EvJwtSign]) ++ [EvExchangeCode c2])
                            ++ [EvDb User_findFirst] |} Hin)
      as (user' & w2 & evs & -> & Hid' & Hids & Hlinks & _).
    eexists _, _. split; [reflexivity|]. simpl. auto.
  - intros Href. exists u. split; [|reflexivity].
    unfold findUserByLineId, lineOALink_findFirst. run.
    rewrite Hls.
    rewrite (RepairsExtProps.find_app_new
               (fun k => bool_decide (lineUserId k = user_id tok1))
               (lineOALinks (store w))
               {| l_userId := u_id u; lineUserId := user_id tok1;
                  l_status := VERIFIED |}).
    + simpl. unfold find_user. rewrite Hus.
      rewrite (RepairsExtProps.find_app_new
                 (fun x => bool_decide (u_id x = u_id u)) (users (store w)) u).
      * reflexivity.
      * intros y Hy. apply bool_decide_eq_false.
        pose proof (RepairsProps.fresh_id_above (map u_id (users (store w)))
                      (u_id y) (in_map _ _ _ Hy)). lia.
      * now apply bool_decide_eq_true.
    + intros k Hk. apply bool_decide_eq_false. intros Hl.
      destruct (Href k Hk) as (y & Hy & Hyid).
      pose proof (find_none _ _ Hnone y Hy) as Hold. unfold linked_to in Hold.
      assert (existsb (fun k0 => bool_decide (l_userId k0 = u_id y)
                                 && bool_decide (lineUserId k0 = user_id tok1))
                (lineOALinks (store w)) = true).
      { apply existsb_exists. exists k. split; [assumption|].
        rewrite !bool_decide_eq_true_2; auto. }
      congruence.
    + now apply bool_decide_eq_true.
Qed.

Lemma lineCallback_again_witness :
  exists r1 w1 r2 w2,
    lineCallback env0 (JStr "first") JUndefined unlinked_world = (Ok r1, w1)
    /\ lineCallback env0 (JStr "second") JUndefined w1 = (Ok r2, w2)
    /\ r_userId r2 = r_userId r1.
Proof.
  destruct (lineCallback env0 (JStr "first") JUndefined unlinked_world)
    as [res w1] eqn:Hrun.
  assert (Hr : exists r1, res = Ok r1).
  { vm_compute in Hrun. injection Hrun as <- _. eauto. }
  destruct Hr as [r1 ->].
  destruct (lineCallback_again env0 "first" "second" JUndefined JUndefined
              unlinked_world w1
              {| access_token := "line-token"; user_id := "U100" |}
              {| access_token := "line-token"; user_id := "U100" |} r1)
    as [(r2 & w2 & Hrun2 & Hid & _) _];
    [discriminate | reflexivity | reflexivity | exact Hrun | discriminate
    | reflexivity | reflexivity |].
  exists r1, w1, r2, w2. auto.
Defined.

(** *** getProfile *)

(** X29.  [getProfile] never writes.  For an id that is not a number, or is 0
    or NaN, it fails with the client error about the id before any query;
    for another number it queries the user once and answers with the selected
    fields of the user of that id, or fails with the authorization error
    that the user was not found. *)
Theorem getProfile_outcomes (userId : JsVal) (w : World) :
  store (getProfile userId w).2 = store w
  /\ ((forall n, userId = JNum n -> n = 0) ->
      getProfile userId w = (Err (BadRequestException "Invalid user ID"), w))
  /\ (forall n, userId = JNum n -> n <> 0 ->
        getProfile userId w
        = (match find_user n (store w) with
           | Some u => Ok (select_profile u)
           | None => Err (UnauthorizedException "User not found")
           end,
           {| store := store w; trace := trace w ++ [EvDb User_findUnique] |})).
Proof.
  assert (Hnum : forall n, n <> 0 ->
    getProfile (JNum n) w
    = (match find_user n (store w) with
       | Some u => Ok (select_profile u)
       | None => Err (UnauthorizedException "User not found")
       end,
       {| store := store w; trace := trace w ++ [EvDb User_findUnique] |})).
  { intros n Hn. unfold getProfile, try_catch, invalid_user_id. cbn [truthy].
    destruct (n =? 0) eqn:E; [apply Z.eqb_eq in E; contradiction|]. simpl.
    unfold user_findUnique_id, bind, db. simpl.
    destruct (find_user n (store w)); reflexivity. }
  assert (Hbad : (forall n, userId = JNum n -> n = 0) ->
    getProfile userId w = (Err (BadRequestException "Invalid user ID"), w)).
  { intros Hzero. unfold getProfile, try_catch, invalid_user_id.
    destruct userId as [| |b|n| |s|v|l]; cbn [truthy negb orb];
      try reflexivity.
    - destruct b; reflexivity.
    - rewrite (Hzero n eq_refl). reflexivity.
    - destruct (bool_decide (s = "")); reflexivity. }
  split; [|split].
  - destruct userId as [| |b|n| |s|v|l];
      try (rewrite Hbad by discriminate; reflexivity).
    destruct (decide (n = 0)) as [->|Hn].
    + rewrite Hbad; [reflexivity|]. now intros ? [= <-].
    + rewrite (Hnum n Hn). reflexivity.
  - exact Hbad.
  - intros n -> Hn. exact (Hnum n Hn).
Qed.

Lemma getProfile_outcomes_witness :
  getProfile (JStr "1") world0 = (Err (BadRequestException "Invalid user ID"), world0)
  /\ (getProfile (JNum 2) world0).1 = Ok (select_profile bob)
  /\ (getProfile (JNum 9) world0).1 = Err (UnauthorizedException "User not found").
Proof.
  split; [|split].
  - apply (proj1 (proj2 (getProfile_outcomes (JStr "1") world0))). discriminate.
  - rewrite (proj2 (proj2 (getProfile_outcomes (JNum 2) world0)) 2 eq_refl);
      [reflexivity|lia].
  - rewrite (proj2 (proj2 (getProfile_outcomes (JNum 9) world0)) 9 eq_refl);
      [reflexivity|lia].
Defined.

(** *** updateProfile *)

(** X30.  [updateProfile] for an id no user has fails with the store's error
    for a missing record, code P2025, and writes nothing.  For an existing
    user with an id other than 0, a [getProfile] right after it answers with
    the very profile [updateProfile] answered with. *)
Theorem updateProfile_then_getProfile (userId : Z) (data : ProfileData) (w : World) :
  (find_user userId (store w) = None ->
   (updateProfile userId data w).1 = Err (PrismaClientKnownRequestError "P2025" [])
   /\ store (updateProfile userId data w).2 = store w)
  /\ (is_Some (find_user userId (store w)) -> userId <> 0 ->
      exists p,
        (updateProfile userId data w).1 = Ok p
        /\ (getProfile (JNum userId) (updateProfile userId data w).2).1 = Ok p).
Proof.
  split.
  - intros Hnone. unfold updateProfile, user_update. run. rewrite Hnone. auto.
  - intros [u Hu] Hid.
    unfold updateProfile, user_update. run. rewrite Hu. simpl.
    eexists. split; [reflexivity|].
    rewrite (proj2 (proj2 (getProfile_outcomes (JNum userId) _)) userId eq_refl Hid).
    simpl. unfold find_user in *. simpl.
    rewrite (find_replace (fun x => bool_decide (u_id x = userId)) _ u
               (patch_user _ u) Hu).
    + reflexivity.
    + simpl. apply find_In in Hu as [_ Hu]. exact Hu.
Qed.

Lemma updateProfile_then_getProfile_witness :
  exists p,
    (updateProfile 1 new_profile world0).1 = Ok p
    /\ (getProfile (JNum 1) (updateProfile 1 new_profile world0).2).1 = Ok p
    /\ (updateProfile 9 new_profile world0).1
       = Err (PrismaClientKnownRequestError "P2025" []).
Proof.
  destruct (proj2 (updateProfile_then_getProfile 1 new_profile world0))
    as (p & H1 & H2); [eexists; reflexivity | lia |].
  exists p. split; [exact H1|]. split; [exact H2|].
  apply (proj1 (updateProfile_then_getProfile 9 new_profile world0)). reflexivity.
Defined.

End AuthExtProps.
